(** * Keystone token provider: issuance, validation and revocation

    A model of [keystone/token/provider.py]: the identifier utilities at the
    top of the module and the [Manager] class that orchestrates the token
    driver, the persistence backend, the revocation API and the memoization
    region. *)

From Stdlib Require Import ZArith NArith List String Ascii Bool Lia.
From Stdlib Require Import Strings.Byte.
From stdpp Require Import base tactics.
Import ListNotations.

Local Open Scope string_scope.
Local Open Scope list_scope.

(** ** URL-safe base64, as used by [random_urlsafe_str] *)

Module Base64.

(** The standard alphabet of RFC 4648; the URL-safe variant is obtained
    from it by translating two characters. *)
Definition alphabet : list ascii :=
  list_ascii_of_string
    "ABCDEFGHIJKLMNOPQRSTUVWXYZabcdefghijklmnopqrstuvwxyz0123456789+/".

Definition pad : ascii := "="%char.

Definition sextet_char (n : N) : ascii := nth (N.to_nat n) alphabet pad.

Fixpoint index_of (c : ascii) (l : list ascii) : option N :=
  match l with
  | [] => None
  | x :: l' =>
      if Ascii.eqb c x then Some 0%N
      else match index_of c l' with
           | Some i => Some (N.succ i)
           | None => None
           end
  end.

Definition char_sextet (c : ascii) : option N := index_of c alphabet.

(** Three input bytes form a 24-bit group that is cut into four sextets. *)
Definition enc3 (a b c : byte) : list ascii :=
  let n := (Byte.to_N a * 65536 + Byte.to_N b * 256 + Byte.to_N c)%N in
  [ sextet_char (n / 262144);
    sextet_char ((n / 4096) mod 64);
    sextet_char ((n / 64) mod 64);
    sextet_char (n mod 64) ].

(** Two trailing bytes: 16 bits, padded with two zero bits, one [=]. *)
Definition enc2 (a b : byte) : list ascii :=
  let n := ((Byte.to_N a * 256 + Byte.to_N b) * 4)%N in
  [ sextet_char (n / 4096);
    sextet_char ((n / 64) mod 64);
    sextet_char (n mod 64);
    pad ].

(** One trailing byte: 8 bits, padded with four zero bits, two [=]. *)
Definition enc1 (a : byte) : list ascii :=
  let n := (Byte.to_N a * 16)%N in
  [ sextet_char (n / 64); sextet_char (n mod 64); pad; pad ].

Fixpoint b64encode (bs : list byte) : list ascii :=
  match bs with
  | [] => []
  | [a] => enc1 a
  | [a; b] => enc2 a b
  | a :: b :: c :: rest => enc3 a b c ++ b64encode rest
  end.

(** [_urlsafe_encode_translation]: [+] becomes [-] and [/] becomes [_]. *)
Definition urlsafe_encode_translation (c : ascii) : ascii :=
  if Ascii.eqb c "+" then "-"%char
  else if Ascii.eqb c "/" then "_"%char
  else c.

(** [_urlsafe_decode_translation]: the inverse translation. *)
Definition urlsafe_decode_translation (c : ascii) : ascii :=
  if Ascii.eqb c "-" then "+"%char
  else if Ascii.eqb c "_" then "/"%char
  else c.

Definition urlsafe_b64encode (bs : list byte) : list ascii :=
  map urlsafe_encode_translation (b64encode bs).

Definition dec3 (s1 s2 s3 s4 : N) : option (list byte) :=
  let n := (((s1 * 64 + s2) * 64 + s3) * 64 + s4)%N in
  match Byte.of_N (n / 65536), Byte.of_N ((n / 256) mod 256),
        Byte.of_N (n mod 256) with
  | Some a, Some b, Some c => Some [a; b; c]
  | _, _, _ => None
  end.

Definition dec2 (s1 s2 s3 : N) : option (list byte) :=
  let n := ((s1 * 64 + s2) * 64 + s3)%N in
  match Byte.of_N (n / 1024), Byte.of_N ((n / 4) mod 256) with
  | Some a, Some b => Some [a; b]
  | _, _ => None
  end.

Definition dec1 (s1 s2 : N) : option (list byte) :=
  let n := (s1 * 64 + s2)%N in
  match Byte.of_N (n / 16) with
  | Some a => Some [a]
  | None => None
  end.

Definition is_b64_char (c : ascii) : bool :=
  Ascii.eqb c pad || match char_sextet c with Some _ => true | None => false end.

(** The quads of a string whose foreign characters have been discarded.
    A quad closed by padding ends the data; an incomplete quad is the
    decoder's "incorrect padding" error, rendered as [None]. *)
Fixpoint decode_quads (cs : list ascii) : option (list byte) :=
  match cs with
  | [] => Some []
  | c1 :: c2 :: c3 :: c4 :: rest =>
      match char_sextet c1, char_sextet c2 with
      | Some s1, Some s2 =>
          if Ascii.eqb c3 pad then
            if Ascii.eqb c4 pad then dec1 s1 s2 else None
          else
            match char_sextet c3 with
            | Some s3 =>
                if Ascii.eqb c4 pad then dec2 s1 s2 s3
                else
                  match char_sextet c4, decode_quads rest with
                  | Some s4, Some tl =>
                      match dec3 s1 s2 s3 s4 with
                      | Some hd => Some (hd ++ tl)
                      | None => None
                      end
                  | _, _ => None
                  end
            | None => None
            end
      | _, _ => None
      end
  | _ => None
  end.

(** The non-validating decoder skips characters outside the alphabet. *)
Definition b64decode (cs : list ascii) : option (list byte) :=
  decode_quads (List.filter is_b64_char cs).

Definition urlsafe_b64decode (cs : list ascii) : option (list byte) :=
  b64decode (map urlsafe_decode_translation cs).

(** Python's [s[:-2]]. *)
Definition chop2 {A} (l : list A) : list A := firstn (length l - 2) l.

End Base64.

(** [random_urlsafe_str()], as a function of the bytes of the UUID drawn by
    [uuid.uuid4()]. *)
Definition random_urlsafe_str (uuid_bytes : list byte) : string :=
  string_of_list_ascii (Base64.chop2 (Base64.urlsafe_b64encode uuid_bytes)).

(** [random_urlsafe_str_to_bytes(s)]; a decoding error is [None]. *)
Definition random_urlsafe_str_to_bytes (s : string) : option (list byte) :=
  Base64.urlsafe_b64decode (list_ascii_of_string (s ++ "==")).

(** ** Python values

    Token payloads, persisted records and notification payloads are Python
    dictionaries with string keys.  A dictionary is an association list: the
    first binding of a key is the one that is read. *)

#[local] Set Warnings "-register-all".

Inductive pyval : Type :=
| PNone
| PBool (b : bool)
| PInt (z : Z)
| PStr (s : string)
| PTime (t : Z)                       (* a naive UTC [datetime] *)
| PList (l : list pyval)
| PDict (d : list (string * pyval)).

(** Modelled from the spec: [keystone.exception], which declares the
    exception classes, is absent.  The spec's taxonomy keeps NotFound
    ([TokenNotFound]), AuthorizationFailure ([Unauthorized]) and
    UnsupportedVersion ([UnsupportedTokenVersionException]) apart, none
    being a kind of another.  The next four are Python's own, and
    [Conflict] and [BackendError] stand for what a store or another backend
    may raise. *)
Inductive exn : Type :=
| TokenNotFound
| Unauthorized
| UnsupportedTokenVersionException
| KeyError
| TypeError
| AttributeError
| ValueError
| Conflict
| BackendError (what : string).

Inductive result (A : Type) : Type :=
| Ok (a : A)
| Raise (e : exn).
Arguments Ok {A} a.
Arguments Raise {A} e.

Definition rbind {A B} (r : result A) (k : A -> result B) : result B :=
  match r with
  | Ok a => k a
  | Raise e => Raise e
  end.

Notation "x <~ r ;; k" := (rbind r (fun x => k))
  (at level 100, r at next level, right associativity).

Module Py.

(** Truth value testing: [if v:] and [not v]. *)
Definition truthy (v : pyval) : bool :=
  match v with
  | PNone => false
  | PBool b => b
  | PInt z => negb (Z.eqb z 0)
  | PStr s => negb (String.eqb s "")
  | PTime _ => true
  | PList l => match l with [] => false | _ => true end
  | PDict d => match d with [] => false | _ => true end
  end.

Fixpoint dict_lookup (k : string) (d : list (string * pyval)) : option pyval :=
  match d with
  | [] => None
  | (k', v) :: d' => if String.eqb k k' then Some v else dict_lookup k d'
  end.

(** [d[k] = v] on a dictionary: the binding is replaced where the key is
    present and added otherwise. *)
Fixpoint dict_set (k : string) (v : pyval) (d : list (string * pyval))
  : list (string * pyval) :=
  match d with
  | [] => [(k, v)]
  | (k', v') :: d' =>
      if String.eqb k k' then (k, v) :: d' else (k', v') :: dict_set k v d'
  end.

(** [v[k]] for a string key. *)
Definition getitem (v : pyval) (k : string) : result pyval :=
  match v with
  | PDict d => match dict_lookup k d with
               | Some x => Ok x
               | None => Raise KeyError
               end
  | _ => Raise TypeError
  end.

(** [v.get(k, default)]; only dictionaries have the method. *)
Definition get (v : pyval) (k : string) (default : pyval) : result pyval :=
  match v with
  | PDict d => match dict_lookup k d with
               | Some x => Ok x
               | None => Ok default
               end
  | _ => Raise AttributeError
  end.

(** [v == s] for a text [s]. *)
Definition eq_str (v : pyval) (s : string) : bool :=
  match v with
  | PStr s' => String.eqb s' s
  | _ => false
  end.

Definition is_substring (k s : string) : bool :=
  match String.index 0 k s with
  | Some _ => true
  | None => false
  end.

(** [k in v] for a text [k]: key membership in a dictionary, containment
    in a text, element membership in a list. *)
Definition contains (k : string) (v : pyval) : result bool :=
  match v with
  | PDict d => Ok (match dict_lookup k d with Some _ => true | None => false end)
  | PStr s => Ok (is_substring k s)
  | PList l => Ok (existsb (fun x => eq_str x k) l)
  | _ => Raise TypeError
  end.

(** The elements a [for] loop draws from [v]. *)
Definition iter (v : pyval) : result (list pyval) :=
  match v with
  | PList l => Ok l
  | PDict d => Ok (map (fun kv => PStr (fst kv)) d)
  | PStr s => Ok (map (fun c => PStr (String c EmptyString)) (list_ascii_of_string s))
  | _ => Raise TypeError
  end.

(** [d.setdefault(k, v)] where the bound value is not used. *)
Definition setdefault (d : pyval) (k : string) (v : pyval) : result pyval :=
  match d with
  | PDict l => match dict_lookup k l with
               | Some _ => Ok (PDict l)
               | None => Ok (PDict (l ++ [(k, v)]))
               end
  | _ => Raise AttributeError
  end.

(** Looking up a dictionary method such as [setdefault] on [v]. *)
Definition dict_method (v : pyval) : result unit :=
  match v with
  | PDict _ => Ok tt
  | _ => Raise AttributeError
  end.

(** [isinstance(v, six.string_types)]. *)
Definition is_string (v : pyval) : bool :=
  match v with
  | PStr _ => true
  | _ => false
  end.

(** Equality of two values as memoization keys: the key generator renders
    its argument with [str], so two arguments give one key when they are
    written the same. *)
Fixpoint eqb (x y : pyval) {struct x} : bool :=
  match x, y with
  | PNone, PNone => true
  | PBool a, PBool b => Bool.eqb a b
  | PInt a, PInt b => Z.eqb a b
  | PStr a, PStr b => String.eqb a b
  | PTime a, PTime b => Z.eqb a b
  | PList a, PList b =>
      (fix go (a b : list pyval) {struct a} : bool :=
         match a, b with
         | [], [] => true
         | x :: a', y :: b' => eqb x y && go a' b'
         | _, _ => false
         end) a b
  | PDict a, PDict b =>
      (fix go (a b : list (string * pyval)) {struct a} : bool :=
         match a, b with
         | [], [] => true
         | (k, x) :: a', (k', y) :: b' => String.eqb k k' && eqb x y && go a' b'
         | _, _ => false
         end) a b
  | _, _ => false
  end.

End Py.

(** ** Configuration and collaborators *)

(** The options of [CONF] that the manager reads. *)
Record Config : Type := {
  cache_on_issue : bool;       (* [CONF.token.cache_on_issue] *)
  revoke_by_id : bool;         (* [CONF.token.revoke_by_id] *)
  default_domain_id : string   (* [CONF.identity.default_domain_id] *)
}.

(** The arguments of [Manager.issue_v3_token]. *)
Record issue_v3_request : Type := {
  user_id : pyval;
  method_names : pyval;
  expires_at : pyval;
  project_id : pyval;
  is_domain : pyval;
  domain_id : pyval;
  auth_context : pyval;
  trust : pyval;
  metadata_ref : pyval;
  include_catalog : pyval;
  parent_audit_id : pyval
}.

(** The abstract class [Provider]: what a token driver offers.  The driver
    is handed every argument of the request but [is_domain]. *)
Module Provider.
Record t : Type := {
  needs_persistence : bool;
  get_token_version : pyval -> result string;
  issue_v3_token : issue_v3_request -> result (string * pyval);
  validate_v2_token : pyval -> result pyval;
  validate_non_persistent_token : string -> result pyval;
  validate_v3_token : pyval -> result pyval
}.
End Provider.

(** [keystone.token.persistence.PersistenceManager], over the state [store]
    of its backend.  Reading does not change the store, and an operation
    that raises leaves the store as it found it. *)
Module Persistence.
Record t : Type := {
  store : Type;
  create_token : string -> pyval -> store -> result store;
  get_token : string -> store -> result pyval;
  delete_token : string -> store -> result store;
  (* [delete_tokens(user_id, tenant_id, trust_id, consumer_id)] *)
  delete_tokens : pyval -> pyval -> pyval -> pyval -> store -> result store;
  (* [delete_tokens_for_user(user_id, project_id)] *)
  delete_tokens_for_user : pyval -> pyval -> store -> result store;
  delete_tokens_for_domain : pyval -> store -> result store;
  (* [delete_tokens_for_users(user_ids, project_id)] *)
  delete_tokens_for_users : pyval -> pyval -> store -> result store;
  list_revoked_tokens : store -> result pyval
}.
End Persistence.

(** [revoke_api] and its [model], over the state [registry] of the recorded
    revocation events. *)
Module RevokeApi.
Record t : Type := {
  registry : Type;
  build_token_values_v2 : pyval -> string -> result pyval;
  build_token_values : pyval -> result pyval;
  check_token : pyval -> registry -> result unit;
  (* [revoke_by_audit_chain_id(audit_chain_id, project_id, domain_id)] *)
  revoke_by_audit_chain_id : pyval -> pyval -> pyval -> registry -> result registry;
  revoke_by_audit_id : pyval -> registry -> result registry
}.
End RevokeApi.

(** [token_model.KeystoneToken]: the view of a validated payload that
    [revoke_token] reads. *)
Module KeystoneToken.
Record t : Type := {
  (* the constructor, which checks the payload's shape *)
  init : string -> pyval -> result unit;
  project_scoped : pyval -> bool;
  project_id : pyval -> result pyval;
  domain_scoped : pyval -> bool;
  domain_id : pyval -> result pyval;
  audit_chain_id : pyval -> result pyval;
  audit_id : pyval -> result pyval
}.
End KeystoneToken.

(** Everything the manager reaches through [self], a module or [CONF]. *)
Record Collaborators : Type := {
  driver : Provider.t;
  persistence : Persistence.t;
  revoke_api : RevokeApi.t;
  token_model : KeystoneToken.t;
  (* [token_model.V2] and [token_model.V3] *)
  V2 : string;
  V3 : string;
  (* [utils.generate_unique_id] *)
  generate_unique_id : string -> string;
  (* [timeutils.normalize_time(timeutils.parse_isotime(x))] *)
  parse_isotime : pyval -> result Z;
  (* [providers.common.V2TokenDataHelper().v3_to_v2_token] *)
  v3_to_v2_token : pyval -> string -> result pyval;
  (* [trust_api.get_trust(trust_id, deleted=True)] *)
  get_trust : pyval -> result pyval;
  (* [assignment_api.list_user_ids_for_project] *)
  list_user_ids_for_project : pyval -> result pyval
}.

(** ** The memoization region *)

(** The four functions decorated with [MEMOIZE_TOKENS]. *)
Inductive memo_fn : Type :=
| F_validate_non_persistent_token
| F_validate_token
| F_validate_v2_token
| F_validate_v3_token.

Definition memo_fn_eqb (f g : memo_fn) : bool :=
  match f, g with
  | F_validate_non_persistent_token, F_validate_non_persistent_token
  | F_validate_token, F_validate_token
  | F_validate_v2_token, F_validate_v2_token
  | F_validate_v3_token, F_validate_v3_token => true
  | _, _ => false
  end.

(** Modelled from the spec: [keystone.common.cache], which builds
    [TOKENS_REGION] and [MEMOIZE_TOKENS], is absent.  The spec describes "a
    memoizing decorator over validation lookups, keyed by token identifier,
    with explicit per-entry invalidation and region-wide invalidation".  An
    entry is filed under the decorated function and the argument of the
    call; entries do not age. *)
Module Region.

Definition t : Type := list (memo_fn * pyval * pyval).

Definition same_key (f : memo_fn) (k : pyval) (e : memo_fn * pyval * pyval) : bool :=
  memo_fn_eqb f (fst (fst e)) && Py.eqb k (snd (fst e)).

Fixpoint get (f : memo_fn) (k : pyval) (r : t) : option pyval :=
  match r with
  | [] => None
  | e :: r' => if same_key f k e then Some (snd e) else get f k r'
  end.

(** [fn.set(value, self, key)] *)
Definition set (f : memo_fn) (k v : pyval) (r : t) : t := (f, k, v) :: r.

(** [fn.invalidate(self, key)] *)
Definition invalidate_key (f : memo_fn) (k : pyval) (r : t) : t :=
  List.filter (fun e => negb (same_key f k e)) r.

(** [TOKENS_REGION.invalidate()] *)
Definition invalidate (r : t) : t := [].

End Region.

(** ** The manager *)

(** Where control stands after a [try] block that may [return]. *)
Inductive flow (A B : Type) : Type :=
| Return (a : A)
| Continue (b : B).
Arguments Return {A B} a.
Arguments Continue {A B} b.

Fixpoint map_result {A B} (f : A -> result B) (l : list A) : result (list B) :=
  match l with
  | [] => Ok []
  | x :: l' => y <~ f x ;; ys <~ map_result f l' ;; Ok (y :: ys)
  end.

Module Manager.
Section Manager.

Variable CONF : Config.
Variable self : Collaborators.

Let drv := driver self.
Let store_t := Persistence.store (persistence self).
Let registry_t := RevokeApi.registry (revoke_api self).

(** What a call may read and change: the clock ([timeutils.utcnow]), the
    persisted tokens, the revocation events and [TOKENS_REGION].
    [queries] is a history of the token values submitted to
    [revoke_api.check_token], latest first. *)
Record state : Type := mkState {
  clock : Z;
  store : store_t;
  registry : registry_t;
  region : Region.t;
  queries : list pyval
}.

Definition with_store (s : store_t) (st : state) : state :=
  mkState (clock st) s (registry st) (region st) (queries st).
Definition with_registry (r : registry_t) (st : state) : state :=
  mkState (clock st) (store st) r (region st) (queries st).
Definition with_region (c : Region.t) (st : state) : state :=
  mkState (clock st) (store st) (registry st) c (queries st).
Definition with_query (q : pyval) (st : state) : state :=
  mkState (clock st) (store st) (registry st) (region st) (q :: queries st).

(** Computations that read and change the state and may raise. *)
Definition M (A : Type) : Type := state -> result A * state.

Definition ret {A} (a : A) : M A := fun st => (Ok a, st).
Definition raise {A} (e : exn) : M A := fun st => (Raise e, st).
Definition lift {A} (r : result A) : M A := fun st => (r, st).
Definition bind {A B} (m : M A) (k : A -> M B) : M B :=
  fun st => match m st with
            | (Ok a, st') => k a st'
            | (Raise e, st') => (Raise e, st')
            end.
(** [try: m  except ...: handler] *)
Definition try_except {A} (m : M A) (handler : exn -> M A) : M A :=
  fun st => match m st with
            | (Ok a, st') => (Ok a, st')
            | (Raise e, st') => handler e st'
            end.

Notation "x <- m ;; k" := (bind m (fun x => k))
  (at level 100, m at next level, right associativity).

Definition read_store {A} (f : store_t -> result A) : M A :=
  fun st => (f (store st), st).
Definition write_store (f : store_t -> result store_t) : M unit :=
  fun st => match f (store st) with
            | Ok s => (Ok tt, with_store s st)
            | Raise e => (Raise e, st)
            end.
Definition write_registry (f : registry_t -> result registry_t) : M unit :=
  fun st => match f (registry st) with
            | Ok r => (Ok tt, with_registry r st)
            | Raise e => (Raise e, st)
            end.
Definition update_region (f : Region.t -> Region.t) : M unit :=
  fun st => (Ok tt, with_region (f (region st)) st).

(** [revoke_api.check_token(token_values)] *)
Definition revoke_api_check_token (token_values : pyval) : M unit :=
  fun st => (RevokeApi.check_token (revoke_api self) token_values (registry st),
             with_query token_values st).

(** The decorator [MEMOIZE_TOKENS]: a stored value is returned without
    running the body; a computed value is stored; a raised exception is
    not. *)
Definition MEMOIZE_TOKENS (f : memo_fn) (key : pyval) (body : M pyval) : M pyval :=
  fun st => match Region.get f key (region st) with
            | Some v => (Ok v, st)
            | None =>
                match body st with
                | (Ok v, st') => (Ok v, with_region (Region.set f key v (region st')) st')
                | (Raise e, st') => (Raise e, st')
                end
            end.

Definition _needs_persistence : bool := Provider.needs_persistence drv.

(** The first statement of [_create_token]: a textual [expires] is
    replaced by the time it denotes. *)
Definition normalize_expires (token_data : pyval) : result pyval :=
  expires <~ Py.getitem token_data "expires" ;;
  if Py.is_string expires then
    t <~ parse_isotime self expires ;;
    match token_data with
    | PDict d => Ok (PDict (Py.dict_set "expires" (PTime t) d))
    | _ => Raise TypeError
    end
  else Ok token_data.

Definition _create_token (token_id : string) (token_data : pyval) : M unit :=
  try_except
    (token_data' <- lift (normalize_expires token_data) ;;
     write_store (Persistence.create_token (persistence self) token_id token_data'))
    (fun exc_info =>
       (* an identical token may have been created already.
          if so, return the token_data as it is also identical *)
       try_except
         (_ <- read_store (Persistence.get_token (persistence self) token_id) ;;
          ret tt)
         (fun e => match e with
                   | TokenNotFound => raise exc_info
                   | _ => raise e
                   end)).

Definition check_revocation_v2 (token : pyval) : M unit :=
  token_data <- try_except (lift (Py.getitem token "access"))
                  (fun e => match e with
                            | KeyError => raise TokenNotFound
                            | _ => raise e
                            end) ;;
  token_values <- lift (RevokeApi.build_token_values_v2 (revoke_api self)
                          token_data (default_domain_id CONF)) ;;
  revoke_api_check_token token_values.

Definition check_revocation_v3 (token : pyval) : M unit :=
  token_data <- try_except (lift (Py.getitem token "token"))
                  (fun e => match e with
                            | KeyError => raise TokenNotFound
                            | _ => raise e
                            end) ;;
  token_values <- lift (RevokeApi.build_token_values (revoke_api self) token_data) ;;
  revoke_api_check_token token_values.

Definition check_revocation (token : pyval) : M unit :=
  version <- lift (Provider.get_token_version drv token) ;;
  if String.eqb version (V2 self) then check_revocation_v2 token
  else check_revocation_v3 token.

(** The [try] block of [_is_valid_token]: the expiry of a payload. *)
Definition token_expiry (token : pyval) : result Z :=
  access <~ Py.get token "access" PNone ;;
  token_data <~ Py.get token "token" access ;;
  expires <~ Py.get token_data "expires" PNone ;;
  expires_at <~ Py.get token_data "expires_at" expires ;;
  expires_at <~ (if negb (Py.truthy expires_at) then
                   inner <~ Py.getitem token_data "token" ;;
                   Py.getitem inner "expires"
                 else Ok expires_at) ;;
  parse_isotime self expires_at.

Definition _is_valid_token (token : pyval) : M unit :=
  fun st =>
    let current_time := clock st in
    match token_expiry token with
    | Raise _ => (Raise TokenNotFound, st)
    | Ok expiry =>
        if (current_time <? expiry)%Z then
          (* Token has not expired and has not been revoked. *)
          check_revocation token st
        else (Raise TokenNotFound, st)
    end.

Definition _token_belongs_to (token : pyval) (belongs_to : option string) : M unit :=
  match belongs_to with
  | Some tenant =>
      if negb (String.eqb tenant "") then
        access <- lift (Py.getitem token "access") ;;
        token_data <- lift (Py.getitem access "token") ;;
        has_tenant <- lift (Py.contains "tenant" token_data) ;;
        if negb has_tenant then raise Unauthorized
        else
          tenant_ref <- lift (Py.getitem token_data "tenant") ;;
          tenant_id <- lift (Py.getitem tenant_ref "id") ;;
          if negb (Py.eq_str tenant_id tenant) then raise Unauthorized
          else ret tt
      else ret tt
  | None => ret tt
  end.

(** [validate_non_persistent_token], decorated. *)
Definition validate_non_persistent_token (token_id : string) : M pyval :=
  MEMOIZE_TOKENS F_validate_non_persistent_token (PStr token_id)
    (lift (Provider.validate_non_persistent_token drv token_id)).

(** [_validate_token], decorated. *)
Definition _validate_token (token_id : string) : M pyval :=
  MEMOIZE_TOKENS F_validate_token (PStr token_id)
    (if String.eqb token_id "" then raise TokenNotFound
     else
       r <- try_except
              (if negb _needs_persistence then
                 (* This will validate v2 and v3 non-persistent tokens. *)
                 v <- lift (Provider.validate_non_persistent_token drv token_id) ;;
                 ret (Return v)
               else
                 token_ref <- read_store
                                (Persistence.get_token (persistence self) token_id) ;;
                 version <- lift (Provider.get_token_version drv token_ref) ;;
                 if String.eqb version (V3 self) then
                   v <- lift (Provider.validate_v3_token drv token_ref) ;;
                   ret (Return v)
                 else ret (Continue (token_ref, version)))
              (fun e => match e with
                        | Unauthorized => raise TokenNotFound
                        | _ => raise e
                        end) ;;
       match r with
       | Return v => ret v
       | Continue (token_ref, version) =>
           if String.eqb version (V2 self) then
             lift (Provider.validate_v2_token drv token_ref)
           else raise UnsupportedTokenVersionException
       end).

(** [_validate_v2_token], decorated; its argument is what the caller
    passes, a persisted record. *)
Definition _validate_v2_token (token_id : pyval) : M pyval :=
  MEMOIZE_TOKENS F_validate_v2_token token_id
    (lift (Provider.validate_v2_token drv token_id)).

(** [_validate_v3_token], decorated. *)
Definition _validate_v3_token (token_id : pyval) : M pyval :=
  MEMOIZE_TOKENS F_validate_v3_token token_id
    (lift (Provider.validate_v3_token drv token_id)).

Definition validate_token (token_id : string) (belongs_to : option string) : M pyval :=
  let unique_id := generate_unique_id self token_id in
  token <- _validate_token unique_id ;;
  _ <- _token_belongs_to token belongs_to ;;
  _ <- _is_valid_token token ;;
  ret token.

Definition validate_v2_token (token_id : string) (belongs_to : option string) : M pyval :=
  token <-
    (if _needs_persistence then
       let unique_id := generate_unique_id self token_id in
       token_ref <- read_store (Persistence.get_token (persistence self) unique_id) ;;
       _validate_v2_token token_ref
     else
       v3_token_ref <- validate_non_persistent_token token_id ;;
       lift (v3_to_v2_token self v3_token_ref token_id)) ;;
  (* these are common things that happen regardless of token provider *)
  _ <- _token_belongs_to token belongs_to ;;
  _ <- _is_valid_token token ;;
  ret token.

Definition validate_v3_token (token_id : string) : M pyval :=
  if String.eqb token_id "" then raise TokenNotFound
  else
    try_except
      (token_ref <-
         (if negb _needs_persistence then validate_non_persistent_token token_id
          else
            let unique_id := generate_unique_id self token_id in
            token_ref <- read_store
                           (Persistence.get_token (persistence self) unique_id) ;;
            _validate_v3_token token_ref) ;;
       _ <- _is_valid_token token_ref ;;
       ret token_ref)
      (fun e => match e with
                | Unauthorized => raise TokenNotFound
                | _ => raise e
                end).

Definition issue_v3_token (req : issue_v3_request) : M (string * pyval) :=
  issued <- lift (Provider.issue_v3_token drv req) ;;
  let token_id := fst issued in
  let token_data := snd issued in
  let metadata_ref0 := match metadata_ref req with
                       | PNone => PDict []
                       | m => m
                       end in
  tok <- lift (Py.getitem token_data "token") ;;
  has_project <- lift (Py.contains "project" tok) ;;
  scoped <-
    (if has_project then
       (* project-scoped token, fill in the v2 token data;
          all we care are the role IDs *)
       roles <- lift (Py.getitem tok "roles") ;;
       rs <- lift (Py.iter roles) ;;
       role_ids <- lift (map_result (fun r => Py.getitem r "id") rs) ;;
       dom <- lift (Py.getitem tok "is_domain") ;;
       ret (PDict [("roles", PList role_ids)], dom)
     else ret (metadata_ref0, is_domain req)) ;;
  let is_domain1 := snd scoped in
  metadata_ref1 <-
    (if Py.truthy (trust req) then
       _ <- lift (Py.dict_method (fst scoped)) ;;
       trust_id <- lift (Py.getitem (trust req) "id") ;;
       m <- lift (Py.setdefault (fst scoped) "trust_id" trust_id) ;;
       trustee <- lift (Py.getitem (trust req) "trustee_user_id") ;;
       lift (Py.setdefault m "trustee_user_id" trustee)
     else ret (fst scoped)) ;;
  expires <- lift (Py.getitem tok "expires_at") ;;
  user <- lift (Py.getitem tok "user") ;;
  tenant <- lift (Py.get tok "project" PNone) ;;
  trust_id <- (if Py.truthy (trust req) then lift (Py.getitem (trust req) "id")
               else ret PNone) ;;
  let data := PDict [ ("key", PStr token_id);
                      ("id", PStr token_id);
                      ("expires", expires);
                      ("user", user);
                      ("tenant", tenant);
                      ("is_domain", is_domain1);
                      ("metadata", metadata_ref1);
                      ("token_data", token_data);
                      ("trust_id", trust_id);
                      ("token_version", PStr (V3 self)) ] in
  _ <- (if _needs_persistence then _create_token token_id data else ret tt) ;;
  _ <- (if cache_on_issue CONF then
          _ <- update_region
                 (Region.set F_validate_v3_token (PStr token_id) token_data) ;;
          _ <- update_region
                 (Region.set F_validate_token (PStr token_id) token_data) ;;
          _ <- update_region
                 (Region.set F_validate_non_persistent_token (PStr token_id)
                    token_data) ;;
          v2 <- try_except
                  (v2_token_data <- lift (v3_to_v2_token self token_data token_id) ;;
                   ret (Some v2_token_data))
                  (fun e => match e with
                            | Unauthorized => ret None  (* Ignore trust and oauth tokens *)
                            | _ => raise e
                            end) ;;
          match v2 with
          | Some v2_token_data =>
              update_region
                (Region.set F_validate_v2_token (PStr token_id) v2_token_data)
          | None => ret tt
          end
        else ret tt) ;;
  ret (token_id, token_data).

Definition invalidate_individual_token_cache (token_id : string) : M unit :=
  _ <- update_region (Region.invalidate_key F_validate_token (PStr token_id)) ;;
  _ <- update_region (Region.invalidate_key F_validate_v2_token (PStr token_id)) ;;
  _ <- update_region (Region.invalidate_key F_validate_v3_token (PStr token_id)) ;;
  update_region
    (Region.invalidate_key F_validate_non_persistent_token (PStr token_id)).

Definition revoke_token (token_id : string) (revoke_chain : bool) : M unit :=
  token_data <- validate_token token_id None ;;
  let token_ref := token_model self in
  _ <- lift (KeystoneToken.init token_ref token_id token_data) ;;
  project_id <- (if KeystoneToken.project_scoped token_ref token_data
                 then lift (KeystoneToken.project_id token_ref token_data)
                 else ret PNone) ;;
  domain_id <- (if KeystoneToken.domain_scoped token_ref token_data
                then lift (KeystoneToken.domain_id token_ref token_data)
                else ret PNone) ;;
  _ <- (if revoke_chain then
          chain_id <- lift (KeystoneToken.audit_chain_id token_ref token_data) ;;
          write_registry
            (RevokeApi.revoke_by_audit_chain_id (revoke_api self)
               chain_id project_id domain_id)
        else
          own_id <- lift (KeystoneToken.audit_id token_ref token_data) ;;
          write_registry (RevokeApi.revoke_by_audit_id (revoke_api self) own_id)) ;;
  if revoke_by_id CONF && _needs_persistence then
    write_store (Persistence.delete_token (persistence self) token_id)
  else ret tt.

Definition list_revoked_tokens : M pyval :=
  read_store (Persistence.list_revoked_tokens (persistence self)).

(** *** Notification callbacks

    Each callback receives [(service, resource_type, operation, payload)]
    and reads [payload] only. *)

Definition _trust_deleted_event_callback (payload : pyval) : M unit :=
  _ <- (if revoke_by_id CONF then
          trust_id <- lift (Py.getitem payload "resource_info") ;;
          trust_ref <- lift (get_trust self trust_id) ;;
          trustor <- lift (Py.getitem trust_ref "trustor_user_id") ;;
          write_store
            (Persistence.delete_tokens (persistence self) trustor PNone trust_id PNone)
        else ret tt) ;;
  if cache_on_issue CONF then update_region Region.invalidate else ret tt.

Definition _delete_user_tokens_callback (payload : pyval) : M unit :=
  _ <- (if revoke_by_id CONF then
          uid <- lift (Py.getitem payload "resource_info") ;;
          write_store (Persistence.delete_tokens_for_user (persistence self) uid PNone)
        else ret tt) ;;
  if cache_on_issue CONF then update_region Region.invalidate else ret tt.

Definition _delete_domain_tokens_callback (payload : pyval) : M unit :=
  _ <- (if revoke_by_id CONF then
          did <- lift (Py.getitem payload "resource_info") ;;
          write_store (Persistence.delete_tokens_for_domain (persistence self) did)
        else ret tt) ;;
  if cache_on_issue CONF then update_region Region.invalidate else ret tt.

Definition _delete_user_project_tokens_callback (payload : pyval) : M unit :=
  _ <- (if revoke_by_id CONF then
          info <- lift (Py.getitem payload "resource_info") ;;
          uid <- lift (Py.getitem info "user_id") ;;
          info' <- lift (Py.getitem payload "resource_info") ;;
          pid <- lift (Py.getitem info' "project_id") ;;
          write_store (Persistence.delete_tokens_for_user (persistence self) uid pid)
        else ret tt) ;;
  if cache_on_issue CONF then update_region Region.invalidate else ret tt.

Definition _delete_project_tokens_callback (payload : pyval) : M unit :=
  _ <- (if revoke_by_id CONF then
          pid <- lift (Py.getitem payload "resource_info") ;;
          uids <- lift (list_user_ids_for_project self pid) ;;
          write_store
            (Persistence.delete_tokens_for_users (persistence self) uids pid)
        else ret tt) ;;
  if cache_on_issue CONF then update_region Region.invalidate else ret tt.

Definition _delete_user_oauth_consumer_tokens_callback (payload : pyval) : M unit :=
  _ <- (if revoke_by_id CONF then
          info <- lift (Py.getitem payload "resource_info") ;;
          uid <- lift (Py.getitem info "user_id") ;;
          info' <- lift (Py.getitem payload "resource_info") ;;
          cid <- lift (Py.getitem info' "consumer_id") ;;
          write_store
            (Persistence.delete_tokens (persistence self) uid PNone PNone cid)
        else ret tt) ;;
  if cache_on_issue CONF then update_region Region.invalidate else ret tt.

(** [_register_callback_listeners]: which callback listens to which
    notification.  The three internal resource types are constants of
    [keystone.notifications]. *)
Inductive action : Type := deleted | disabled | internal.

Inductive resource_type : Type :=
| OS_TRUST_trust
| user
| domain
| project
| INVALIDATE_USER_TOKEN_PERSISTENCE
| INVALIDATE_USER_PROJECT_TOKEN_PERSISTENCE
| INVALIDATE_USER_OAUTH_CONSUMER_TOKENS.

Inductive listener : Type :=
| trust_deleted_event
| delete_user_tokens
| delete_domain_tokens
| delete_user_project_tokens
| delete_project_tokens
| delete_user_oauth_consumer_tokens.

Definition callback (l : listener) : pyval -> M unit :=
  match l with
  | trust_deleted_event => _trust_deleted_event_callback
  | delete_user_tokens => _delete_user_tokens_callback
  | delete_domain_tokens => _delete_domain_tokens_callback
  | delete_user_project_tokens => _delete_user_project_tokens_callback
  | delete_project_tokens => _delete_project_tokens_callback
  | delete_user_oauth_consumer_tokens => _delete_user_oauth_consumer_tokens_callback
  end.

Definition _register_callback_listeners : list (action * resource_type * listener) :=
  [ (deleted, OS_TRUST_trust, trust_deleted_event);
    (deleted, user, delete_user_tokens);
    (deleted, domain, delete_domain_tokens);
    (disabled, user, delete_user_tokens);
    (disabled, domain, delete_domain_tokens);
    (disabled, project, delete_project_tokens);
    (internal, INVALIDATE_USER_TOKEN_PERSISTENCE, delete_user_tokens);
    (internal, INVALIDATE_USER_PROJECT_TOKEN_PERSISTENCE, delete_user_project_tokens);
    (internal, INVALIDATE_USER_OAUTH_CONSUMER_TOKENS, delete_user_oauth_consumer_tokens) ].

End Manager.

Arguments mkState {self} clock store registry region queries.
Arguments clock {self} s.
Arguments store {self} s.
Arguments registry {self} s.
Arguments region {self} s.
Arguments queries {self} s.
Arguments with_store {self} s st.
Arguments with_registry {self} r st.
Arguments with_region {self} c st.
Arguments with_query {self} q st.

End Manager.

(** ** A reference deployment

    Concrete collaborators on which the manager can be run: an in-memory
    token table, a list of revoked audit ids, and a driver that either
    persists its tokens or reads their payload from a table of
    self-describing ids. *)

Module Demo.

(** Long-form (PKI) ids start with [MII]; their unique form is a short
    digest, here the eight characters that follow the prefix. *)
Definition cms_hash_token (token_id : string) : string :=
  if String.prefix "MII" token_id
  then String.append "md5:" (String.substring 3 8 token_id)
  else token_id.

Definition digit_value (c : ascii) : option Z :=
  let n := Z.of_N (N_of_ascii c) in
  if ((48 <=? n) && (n <=? 57))%Z then Some (n - 48)%Z else None.

(** The digits of an ISO 8601 timestamp, read as one number:
    [2016-01-01T00:00:00Z] is [20160101000000].  Timestamps of this form
    are ordered as their numbers are. *)
Fixpoint digits (s : string) (acc : Z) (seen : bool) : option Z :=
  match s with
  | EmptyString => if seen then Some acc else None
  | String c s' =>
      match digit_value c with
      | Some d => digits s' (acc * 10 + d)%Z true
      | None => digits s' acc seen
      end
  end.

Definition isotime (v : pyval) : result Z :=
  match v with
  | PStr s => match digits s 0 false with
              | Some t => Ok t
              | None => Raise ValueError
              end
  | _ => Raise ValueError
  end.

Definition V2_tag : string := "v2.0".
Definition V3_tag : string := "v3.0".

(** The version a record declares, else the version its shape shows. *)
Definition get_token_version (token_data : pyval) : result string :=
  match token_data with
  | PDict d =>
      match Py.dict_lookup "token_version" d with
      | Some (PStr v) => Ok v
      | _ =>
          match Py.dict_lookup "access" d, Py.dict_lookup "token" d with
          | Some _, _ => Ok V2_tag
          | None, Some _ => Ok V3_tag
          | None, None => Raise UnsupportedTokenVersionException
          end
      end
  | _ => Raise UnsupportedTokenVersionException
  end.

Definition payload_of_record (token_ref : pyval) : result pyval :=
  match Py.getitem token_ref "token_data" with
  | Ok token_data => Ok token_data
  | Raise _ => Raise Unauthorized
  end.

Definition table_lookup (table : list (string * pyval)) (token_id : string)
  : result pyval :=
  match Py.dict_lookup token_id table with
  | Some payload => Ok payload
  | None => Raise TokenNotFound
  end.

(** A current-version payload for a request, under a fixed id. *)
Definition issue_v3_token (req : issue_v3_request) : result (string * pyval) :=
  let scope := match project_id req with
               | PNone => []
               | p => [("project", PDict [("id", p)]);
                       ("roles", PList [PDict [("id", PStr "member")]]);
                       ("is_domain", PBool false)]
               end in
  let delegation := match trust req with
                    | PNone => []
                    | t => [("OS-TRUST:trust", t)]
                    end in
  Ok ("gAAAAAB-issued",
      PDict [("token",
              PDict ([("methods", method_names req);
                      ("user", PDict [("id", user_id req)]);
                      ("expires_at", expires_at req);
                      ("audit_id", PStr "audit-issued")]
                     ++ scope ++ delegation))]).

Definition provider (persist : bool) (table : list (string * pyval)) : Provider.t :=
  {| Provider.needs_persistence := persist;
     Provider.get_token_version := get_token_version;
     Provider.issue_v3_token := issue_v3_token;
     Provider.validate_v2_token := payload_of_record;
     Provider.validate_non_persistent_token := table_lookup table;
     Provider.validate_v3_token := payload_of_record |}.

(** The legacy view of a current payload; a delegated token has none. *)
Definition legacy_view (token_data : pyval) (token_id : string) : result pyval :=
  match Py.getitem token_data "token" with
  | Ok tok =>
      match Py.contains "OS-TRUST:trust" tok with
      | Ok false =>
          match Py.get tok "expires_at" PNone, Py.get tok "user" PNone,
                Py.get tok "project" PNone, Py.get tok "audit_id" PNone with
          | Ok e, Ok u, Ok p, Ok a =>
              Ok (PDict [("access",
                          PDict [("token",
                                  PDict ([("id", PStr token_id); ("expires", e);
                                          ("audit_id", a)]
                                         ++ match p with
                                            | PNone => []
                                            | _ => [("tenant", p)]
                                            end));
                                 ("user", u)])])
          | _, _, _, _ => Raise Unauthorized
          end
      | _ => Raise Unauthorized
      end
  | Raise _ => Raise Unauthorized
  end.

(** Selecting the records of the in-memory token table. *)
Definition field_is (path1 path2 : string) (v : pyval) (record : pyval) : bool :=
  match v with
  | PNone => true
  | _ => match Py.getitem record path1 with
         | Ok (PDict d) => match Py.dict_lookup path2 d with
                           | Some x => Py.eqb x v
                           | None => false
                           end
         | Ok x => Py.eqb x v
         | Raise _ => false
         end
  end.

Definition matches (user tenant trust_id consumer : pyval) (record : pyval) : bool :=
  field_is "user" "id" user record && field_is "tenant" "id" tenant record
  && field_is "trust_id" "" trust_id record
  && field_is "consumer_id" "" consumer record.

Definition delete_where (p : pyval -> bool) (s : list (string * pyval))
  : result (list (string * pyval)) :=
  Ok (List.filter (fun kv => negb (p (snd kv))) s).

Definition memory_store : Persistence.t :=
  {| Persistence.store := list (string * pyval);
     Persistence.create_token := fun token_id data s =>
       match Py.dict_lookup token_id s with
       | Some _ => Raise Conflict
       | None => Ok ((token_id, data) :: s)
       end;
     Persistence.get_token := fun token_id s =>
       match Py.dict_lookup token_id s with
       | Some record => Ok record
       | None => Raise TokenNotFound
       end;
     Persistence.delete_token := fun token_id s =>
       Ok (List.filter (fun kv => negb (String.eqb (fst kv) token_id)) s);
     Persistence.delete_tokens := fun user tenant trust_id consumer =>
       delete_where (matches user tenant trust_id consumer);
     Persistence.delete_tokens_for_user := fun user project =>
       delete_where (matches user project PNone PNone);
     Persistence.delete_tokens_for_domain := fun domain =>
       delete_where (field_is "user" "domain_id" domain);
     Persistence.delete_tokens_for_users := fun users project =>
       delete_where (fun record =>
         match users with
         | PList us => existsb (fun u => matches u project PNone PNone record) us
         | _ => false
         end);
     Persistence.list_revoked_tokens := fun _ => Ok (PList []) |}.

(** The revocation events: the audit ids that have been revoked. *)
Definition audit_of (token_data : pyval) : pyval :=
  match Py.get token_data "audit_id" PNone with
  | Ok a => a
  | Raise _ => PNone
  end.

Definition audit_registry : RevokeApi.t :=
  {| RevokeApi.registry := list pyval;
     RevokeApi.build_token_values_v2 := fun token_data _ =>
       Ok (match Py.get token_data "token" PNone with
           | Ok tok => audit_of tok
           | Raise _ => PNone
           end);
     RevokeApi.build_token_values := fun token_data => Ok (audit_of token_data);
     RevokeApi.check_token := fun values revoked =>
       if existsb (Py.eqb values) revoked then Raise TokenNotFound else Ok tt;
     RevokeApi.revoke_by_audit_chain_id := fun chain _ _ revoked => Ok (chain :: revoked);
     RevokeApi.revoke_by_audit_id := fun own revoked => Ok (own :: revoked) |}.

Definition inner (token_data : pyval) : pyval :=
  match Py.get token_data "access" PNone with
  | Ok access =>
      match Py.get token_data "token" access with
      | Ok (PDict d) => match Py.dict_lookup "token" d with
                        | Some t => t
                        | None => PDict d
                        end
      | _ => PNone
      end
  | Raise _ => PNone
  end.

Definition scope_of (key : string) (token_data : pyval) : pyval :=
  match Py.get (inner token_data) key PNone with
  | Ok s => s
  | Raise _ => PNone
  end.

Definition payload_view : KeystoneToken.t :=
  {| KeystoneToken.init := fun _ token_data =>
       match get_token_version token_data with
       | Ok _ => Ok tt
       | Raise e => Raise e
       end;
     KeystoneToken.project_scoped := fun token_data =>
       Py.truthy (scope_of "project" token_data) || Py.truthy (scope_of "tenant" token_data);
     KeystoneToken.project_id := fun token_data =>
       if Py.truthy (scope_of "project" token_data)
       then Py.getitem (scope_of "project" token_data) "id"
       else Py.getitem (scope_of "tenant" token_data) "id";
     KeystoneToken.domain_scoped := fun token_data =>
       Py.truthy (scope_of "domain" token_data);
     KeystoneToken.domain_id := fun token_data =>
       Py.getitem (scope_of "domain" token_data) "id";
     KeystoneToken.audit_chain_id := fun token_data => Ok (audit_of (inner token_data));
     KeystoneToken.audit_id := fun token_data => Ok (audit_of (inner token_data)) |}.

Definition collaborators (persist : bool) (table : list (string * pyval))
  : Collaborators :=
  {| driver := provider persist table;
     persistence := memory_store;
     revoke_api := audit_registry;
     token_model := payload_view;
     V2 := V2_tag;
     V3 := V3_tag;
     generate_unique_id := cms_hash_token;
     parse_isotime := isotime;
     v3_to_v2_token := legacy_view;
     get_trust := fun trust_id =>
       Ok (PDict [("id", trust_id); ("trustor_user_id", PStr "alice")]);
     list_user_ids_for_project := fun _ => Ok (PList [PStr "alice"; PStr "bob"]) |}.

End Demo.

(** Sample data for the reference deployment. *)
Module Sample.

Definition conf : Config :=
  {| cache_on_issue := true; revoke_by_id := true; default_domain_id := "default" |}.

(** A legacy payload: [{'access': {'token': {...}, 'user': {...}}}]. *)
Definition legacy_payload (expires tenant : string) : pyval :=
  PDict [("access",
          PDict [("token",
                  PDict [("id", PStr "u1");
                         ("expires", PStr expires);
                         ("audit_id", PStr "audit-u1");
                         ("tenant", PDict [("id", PStr tenant)])]);
                 ("user", PDict [("id", PStr "alice")])])].

(** A current payload: [{'token': {...}}]. *)
Definition current_payload (expires : string) : pyval :=
  PDict [("token",
          PDict [("methods", PList [PStr "password"]);
                 ("user", PDict [("id", PStr "alice")]);
                 ("expires_at", PStr expires);
                 ("audit_id", PStr "audit-f1")])].

(** The record the store keeps for a payload. *)
Definition record (token_id version : string) (payload : pyval) : pyval :=
  PDict [("id", PStr token_id);
         ("user", PDict [("id", PStr "alice")]);
         ("token_data", payload);
         ("token_version", PStr version)].

(** A deployment whose driver persists its tokens. *)
Definition persistent : Collaborators := Demo.collaborators true [].

Definition state_of (self : Collaborators) (now : Z)
  (tokens : Persistence.store (persistence self))
  (revoked : RevokeApi.registry (revoke_api self)) : Manager.state self :=
  Manager.mkState now tokens revoked [] [].

(** One legacy token of tenant [projA], expiring on 2016-01-01 at midnight. *)
Definition tokens_u1 : list (string * pyval) :=
  [ ("u1", record "u1" "v2.0" (legacy_payload "2016-01-01T00:00:00Z" "projA")) ].

(** A record written by a deployment that knows a later version. *)
Definition tokens_v4 : list (string * pyval) :=
  [ ("u4", record "u4" "v4.0" (current_payload "2016-01-01T00:00:00Z")) ].

(** The same options with revoke-by-id switched off. *)
Definition conf_cache_only : Config :=
  {| cache_on_issue := true; revoke_by_id := false; default_domain_id := "default" |}.

(** Midnight of 2016-01-01, and one second before. *)
Definition midnight : Z := 20160101000000.
Definition before_midnight : Z := 20151231235959.

(** The store holds [u1]; nothing is cached or revoked. *)
Definition fresh (now : Z) : Manager.state persistent :=
  state_of persistent now tokens_u1 [].

(** A stale region: the store no longer holds [u1], the region still
    answers for it, and its audit id has been revoked. *)
Definition stale (now : Z) : Manager.state persistent :=
  Manager.mkState (self := persistent) now ([] : list (string * pyval))
    [PStr "audit-u1"]
    [(F_validate_token, PStr "u1", legacy_payload "2016-01-01T00:00:00Z" "projA")]
    [].

(** The record [issue_v3_token] would write for [u1]. *)
Definition data_u1 : pyval :=
  PDict [("key", PStr "u1"); ("id", PStr "u1");
         ("expires", PStr "2016-01-01T00:00:00Z");
         ("user", PDict [("id", PStr "alice")]);
         ("token_version", PStr "v3.0")].

(** A request for a token delegated through a trust. *)
Definition trust_request : issue_v3_request :=
  {| user_id := PStr "bob";
     method_names := PList [PStr "password"];
     expires_at := PStr "2016-01-01T00:00:00Z";
     project_id := PNone;
     is_domain := PBool false;
     domain_id := PNone;
     auth_context := PNone;
     trust := PDict [("id", PStr "t1"); ("trustor_user_id", PStr "alice");
                     ("trustee_user_id", PStr "bob")];
     metadata_ref := PNone;
     include_catalog := PBool true;
     parent_audit_id := PNone |}.

(** A notification that user [alice] was disabled. *)
Definition alice_disabled : pyval := PDict [("resource_info", PStr "alice")].

(** A legacy record without a payload: the driver refuses it. *)
Definition tokens_u5 : list (string * pyval) :=
  [ ("u5", PDict [("id", PStr "u5");
                  ("user", PDict [("id", PStr "alice")]);
                  ("token_version", PStr "v2.0")]) ].

(** A store that can be read and added to, and refuses every deletion. *)
Definition read_only_store : Persistence.t :=
  {| Persistence.store := list (string * pyval);
     Persistence.create_token := Persistence.create_token Demo.memory_store;
     Persistence.get_token := Persistence.get_token Demo.memory_store;
     Persistence.delete_token := fun _ _ => Raise (BackendError "read-only");
     Persistence.delete_tokens := fun _ _ _ _ _ => Raise (BackendError "read-only");
     Persistence.delete_tokens_for_user := fun _ _ _ => Raise (BackendError "read-only");
     Persistence.delete_tokens_for_domain := fun _ _ => Raise (BackendError "read-only");
     Persistence.delete_tokens_for_users := fun _ _ _ => Raise (BackendError "read-only");
     Persistence.list_revoked_tokens :=
       Persistence.list_revoked_tokens Demo.memory_store |}.

(** The deployment [persistent] over that store. *)
Definition read_only : Collaborators :=
  {| driver := driver persistent;
     persistence := read_only_store;
     revoke_api := revoke_api persistent;
     token_model := token_model persistent;
     V2 := V2 persistent;
     V3 := V3 persistent;
     generate_unique_id := generate_unique_id persistent;
     parse_isotime := parse_isotime persistent;
     v3_to_v2_token := v3_to_v2_token persistent;
     get_trust := get_trust persistent;
     list_user_ids_for_project := list_user_ids_for_project persistent |}.

(** The store holds [u1], and the region answers for it. *)
Definition cached_u1 (now : Z) : Manager.state persistent :=
  Manager.mkState (self := persistent) now tokens_u1 []
    [(F_validate_token, PStr "u1", legacy_payload "2016-01-01T00:00:00Z" "projA")]
    [].

Definition cached_u1_read_only (now : Z) : Manager.state read_only :=
  Manager.mkState (self := read_only) now tokens_u1 []
    [(F_validate_token, PStr "u1", legacy_payload "2016-01-01T00:00:00Z" "projA")]
    [].

End Sample.

(** ** Vocabulary of the statements *)

(** A sextet survives the trip through the alphabet and the two
    translations, and its character is not the padding. *)
Definition sextet_ok (n : N) : bool :=
  let c := Base64.sextet_char n in
  match Base64.char_sextet c with
  | Some m => N.eqb m n
  | None => false
  end
  && negb (Ascii.eqb c Base64.pad)
  && Ascii.eqb
       (Base64.urlsafe_decode_translation (Base64.urlsafe_encode_translation c)) c.

(** A character the standard encoder emits: a sextet's or the padding. *)
Inductive emitted : ascii -> Prop :=
| emitted_sextet n : (n < 64)%N -> emitted (Base64.sextet_char n)
| emitted_pad : emitted Base64.pad.

(** The tenant id a legacy payload carries, as [_token_belongs_to] reads it. *)
Definition legacy_tenant_id (token : pyval) : result pyval :=
  access <~ Py.getitem token "access" ;;
  token_data <~ Py.getitem access "token" ;;
  tenant_ref <~ Py.getitem token_data "tenant" ;;
  Py.getitem tenant_ref "id".

(** The failures the description of the validation boundary names, and the
    unsupported-version exception. *)
Definition boundary_exn (e : exn) : Prop :=
  e = TokenNotFound \/ e = Unauthorized \/ e = UnsupportedTokenVersionException.

Definition without_cache_on_issue (c : Config) : Config :=
  {| cache_on_issue := false;
     revoke_by_id := revoke_by_id c;
     default_domain_id := default_domain_id c |}.

Section Vocabulary.

Variable CONF : Config.
Variable self : Collaborators.

(** The collaborators of a validation raise nothing but the three
    exceptions above. *)
Record well_behaved : Prop := {
  wb_get_token : forall token_id s e,
    Persistence.get_token (persistence self) token_id s = Raise e -> boundary_exn e;
  wb_get_token_version : forall token e,
    Provider.get_token_version (driver self) token = Raise e -> boundary_exn e;
  wb_validate_v2_token : forall token_ref e,
    Provider.validate_v2_token (driver self) token_ref = Raise e -> boundary_exn e;
  wb_validate_v3_token : forall token_ref e,
    Provider.validate_v3_token (driver self) token_ref = Raise e -> boundary_exn e;
  wb_validate_non_persistent_token : forall token_id e,
    Provider.validate_non_persistent_token (driver self) token_id = Raise e ->
    boundary_exn e;
  wb_v3_to_v2_token : forall token token_id e,
    v3_to_v2_token self token token_id = Raise e -> boundary_exn e;
  wb_build_token_values_v2 : forall token_data dom e,
    RevokeApi.build_token_values_v2 (revoke_api self) token_data dom = Raise e ->
    boundary_exn e;
  wb_build_token_values : forall token_data e,
    RevokeApi.build_token_values (revoke_api self) token_data = Raise e ->
    boundary_exn e;
  wb_check_token : forall values r e,
    RevokeApi.check_token (revoke_api self) values r = Raise e -> boundary_exn e
}.

(** The parts of the state that a validation leaves alone. *)
Definition same_backends (st st' : Manager.state self) : Prop :=
  Manager.clock st' = Manager.clock st /\
  Manager.store st' = Manager.store st /\
  Manager.registry st' = Manager.registry st.

(** The query [check_revocation] submits for a payload, when it gets as far
    as submitting one. *)
Definition revocation_query (token : pyval) : result pyval :=
  version <~ Provider.get_token_version (driver self) token ;;
  if String.eqb version (V2 self) then
    token_data <~ match Py.getitem token "access" with
                  | Raise KeyError => Raise TokenNotFound
                  | r => r
                  end ;;
    RevokeApi.build_token_values_v2 (revoke_api self) token_data
      (default_domain_id CONF)
  else
    token_data <~ match Py.getitem token "token" with
                  | Raise KeyError => Raise TokenNotFound
                  | r => r
                  end ;;
    RevokeApi.build_token_values (revoke_api self) token_data.

(** The deletion each callback asks of the store: by user, by domain, by
    project through its members, by user and trust or consumer. *)
Definition scoped_deletion (l : Manager.listener) (payload : pyval)
  : result (Persistence.store (persistence self)
            -> result (Persistence.store (persistence self))) :=
  let P := persistence self in
  match l with
  | Manager.trust_deleted_event =>
      trust_id <~ Py.getitem payload "resource_info" ;;
      trust_ref <~ get_trust self trust_id ;;
      trustor <~ Py.getitem trust_ref "trustor_user_id" ;;
      Ok (Persistence.delete_tokens P trustor PNone trust_id PNone)
  | Manager.delete_user_tokens =>
      uid <~ Py.getitem payload "resource_info" ;;
      Ok (Persistence.delete_tokens_for_user P uid PNone)
  | Manager.delete_domain_tokens =>
      did <~ Py.getitem payload "resource_info" ;;
      Ok (Persistence.delete_tokens_for_domain P did)
  | Manager.delete_user_project_tokens =>
      info <~ Py.getitem payload "resource_info" ;;
      uid <~ Py.getitem info "user_id" ;;
      pid <~ Py.getitem info "project_id" ;;
      Ok (Persistence.delete_tokens_for_user P uid pid)
  | Manager.delete_project_tokens =>
      pid <~ Py.getitem payload "resource_info" ;;
      uids <~ list_user_ids_for_project self pid ;;
      Ok (Persistence.delete_tokens_for_users P uids pid)
  | Manager.delete_user_oauth_consumer_tokens =>
      info <~ Py.getitem payload "resource_info" ;;
      uid <~ Py.getitem info "user_id" ;;
      cid <~ Py.getitem info "consumer_id" ;;
      Ok (Persistence.delete_tokens P uid PNone PNone cid)
  end.

(** The four ways of failing to validate that end in [TokenNotFound]: no
    token behind the id (absent), a payload without a readable expiry, an
    expiry that has passed, a match in the revocation events.  They are not
    all the ways a validation can fail: a record the driver refuses and a
    record of another version fail with other exceptions. *)
Inductive not_found_cause (token_id : string) (st : Manager.state self) : Prop :=
| no_token_in_request :
    generate_unique_id self token_id = "" ->
    Region.get F_validate_token (PStr "") (Manager.region st) = None ->
    not_found_cause token_id st
| absent_from_store :
    let unique_id := generate_unique_id self token_id in
    Provider.needs_persistence (driver self) = true ->
    Region.get F_validate_token (PStr unique_id) (Manager.region st) = None ->
    Persistence.get_token (persistence self) unique_id (Manager.store st)
    = Raise TokenNotFound ->
    not_found_cause token_id st
| undecodable e :
    let unique_id := generate_unique_id self token_id in
    Provider.needs_persistence (driver self) = false ->
    Region.get F_validate_token (PStr unique_id) (Manager.region st) = None ->
    Provider.validate_non_persistent_token (driver self) unique_id = Raise e ->
    e = TokenNotFound \/ e = Unauthorized ->
    not_found_cause token_id st
| malformed token st1 e :
    Manager._validate_token self (generate_unique_id self token_id) st = (Ok token, st1) ->
    Manager.token_expiry self token = Raise e ->
    not_found_cause token_id st
| expired token st1 expiry :
    Manager._validate_token self (generate_unique_id self token_id) st = (Ok token, st1) ->
    Manager.token_expiry self token = Ok expiry ->
    (expiry <= Manager.clock st1)%Z ->
    not_found_cause token_id st
| revoked token st1 expiry q :
    Manager._validate_token self (generate_unique_id self token_id) st = (Ok token, st1) ->
    Manager.token_expiry self token = Ok expiry ->
    (Manager.clock st1 < expiry)%Z ->
    revocation_query token = Ok q ->
    RevokeApi.check_token (revoke_api self) q (Manager.registry st1)
    = Raise TokenNotFound ->
    not_found_cause token_id st.

(** The three validation entry points, each with the tenant the caller
    binds the token to, where the entry point takes one. *)
Inductive entry_point : Type :=
| via_validate_token (belongs_to : option string)
| via_validate_v2_token (belongs_to : option string)
| via_validate_v3_token.

(** A validation call. *)
Definition validation (entry : entry_point) (token_id : string) : Manager.M self pyval :=
  match entry with
  | via_validate_token belongs_to => Manager.validate_token CONF self token_id belongs_to
  | via_validate_v2_token belongs_to =>
      Manager.validate_v2_token CONF self token_id belongs_to
  | via_validate_v3_token => Manager.validate_v3_token CONF self token_id
  end.

(** The [belongs_to] of a call; [validate_v3_token] has none. *)
Definition binding (entry : entry_point) : option string :=
  match entry with
  | via_validate_token belongs_to => belongs_to
  | via_validate_v2_token belongs_to => belongs_to
  | via_validate_v3_token => None
  end.

(** How an exception raised after the resolution reaches the caller:
    [validate_v3_token] runs its checks inside a [try] that turns
    [Unauthorized] into [TokenNotFound]. *)
Definition surfaced (entry : entry_point) (e : exn) : exn :=
  match entry with
  | via_validate_v3_token => match e with
                             | Unauthorized => TokenNotFound
                             | _ => e
                             end
  | _ => e
  end.

(** What a call returns when its last check ends with [out]. *)
Definition concluded (entry : entry_point) (token : pyval)
  (out : result unit * Manager.state self) : result pyval * Manager.state self :=
  match out with
  | (Ok _, st) => (Ok token, st)
  | (Raise e, st) => (Raise (surfaced entry e), st)
  end.

(** The resolution step of a call, the statements of the entry point that
    come before the checks, returns [token] and leaves the state [st1]. *)
Definition resolved (entry : entry_point) (token_id : string)
  (st : Manager.state self) (token : pyval) (st1 : Manager.state self) : Prop :=
  let unique_id := generate_unique_id self token_id in
  match entry with
  | via_validate_token _ =>
      Manager._validate_token self unique_id st = (Ok token, st1)
  | via_validate_v2_token _ =>
      if Provider.needs_persistence (driver self) then
        exists token_ref,
          Persistence.get_token (persistence self) unique_id (Manager.store st)
          = Ok token_ref
          /\ Manager._validate_v2_token self token_ref st = (Ok token, st1)
      else
        exists v3_token_ref,
          Manager.validate_non_persistent_token self token_id st
          = (Ok v3_token_ref, st1)
          /\ v3_to_v2_token self v3_token_ref token_id = Ok token
  | via_validate_v3_token =>
      token_id <> ""
      /\ if Provider.needs_persistence (driver self) then
           exists token_ref,
             Persistence.get_token (persistence self) unique_id (Manager.store st)
             = Ok token_ref
             /\ Manager._validate_v3_token self token_ref st = (Ok token, st1)
         else
           Manager.validate_non_persistent_token self token_id st = (Ok token, st1)
  end.

(** The resolution step of a call is answered by an entry of the region. *)
Definition served_from_region (entry : entry_point) (token_id : string)
  (st : Manager.state self) (token : pyval) : Prop :=
  let unique_id := generate_unique_id self token_id in
  match entry with
  | via_validate_token _ =>
      Region.get F_validate_token (PStr unique_id) (Manager.region st) = Some token
  | via_validate_v2_token _ =>
      if Provider.needs_persistence (driver self) then
        exists token_ref,
          Persistence.get_token (persistence self) unique_id (Manager.store st)
          = Ok token_ref
          /\ Region.get F_validate_v2_token token_ref (Manager.region st) = Some token
      else
        exists v3_token_ref,
          Region.get F_validate_non_persistent_token (PStr token_id) (Manager.region st)
          = Some v3_token_ref
          /\ v3_to_v2_token self v3_token_ref token_id = Ok token
  | via_validate_v3_token =>
      token_id <> ""
      /\ if Provider.needs_persistence (driver self) then
           exists token_ref,
             Persistence.get_token (persistence self) unique_id (Manager.store st)
             = Ok token_ref
             /\ Region.get F_validate_v3_token token_ref (Manager.region st)
                = Some token
         else
           Region.get F_validate_non_persistent_token (PStr token_id)
             (Manager.region st) = Some token
  end.

(** There is no token behind the id: nothing in the region answers for it,
    and the store, or the driver that decodes the id, does not know it. *)
Definition absent (entry : entry_point) (token_id : string)
  (st : Manager.state self) : Prop :=
  let unique_id := generate_unique_id self token_id in
  match entry with
  | via_validate_token _ =>
      Region.get F_validate_token (PStr unique_id) (Manager.region st) = None
      /\ if Provider.needs_persistence (driver self) then
           Persistence.get_token (persistence self) unique_id (Manager.store st)
           = Raise TokenNotFound
         else
           Provider.validate_non_persistent_token (driver self) unique_id
           = Raise TokenNotFound
  | _ =>
      if Provider.needs_persistence (driver self) then
        Persistence.get_token (persistence self) unique_id (Manager.store st)
        = Raise TokenNotFound
      else
        Region.get F_validate_non_persistent_token (PStr token_id) (Manager.region st)
        = None
        /\ Provider.validate_non_persistent_token (driver self) token_id
           = Raise TokenNotFound
  end.

(** The payload has an expiry that can be read, and the current time is
    strictly before it. *)
Definition unexpired (token : pyval) (st : Manager.state self) : Prop :=
  exists expiry,
    Manager.token_expiry self token = Ok expiry /\ (Manager.clock st < expiry)%Z.

(** The payload has the structure that the docstring of [_token_belongs_to]
    takes as checked: an [access] with a [token], whose [tenant], when it has
    one, has an [id]. *)
Definition scope_readable (token : pyval) : Prop :=
  exists access token_data has_tenant,
    Py.getitem token "access" = Ok access
    /\ Py.getitem access "token" = Ok token_data
    /\ Py.contains "tenant" token_data = Ok has_tenant
    /\ (has_tenant = true ->
        exists tenant_ref tenant_id,
          Py.getitem token_data "tenant" = Ok tenant_ref
          /\ Py.getitem tenant_ref "id" = Ok tenant_id).

End Vocabulary.

Arguments same_backends {self} st st'.
Arguments concluded {self} entry token out.

(** ** The rest of the module

    The remaining utilities at the top of [provider.py] and
    [Manager.issue_v2_token]. *)

Module Text.

Fixpoint drop_while {A} (p : A -> bool) (l : list A) : list A :=
  match l with
  | [] => []
  | x :: l' => if p x then drop_while p l' else l
  end.

(** Python's [s.rstrip('=')]: the trailing padding characters go. *)
Definition rstrip_pad (l : list ascii) : list ascii :=
  rev (drop_while (fun c => Ascii.eqb c Base64.pad) (rev l)).

(** The characters of the URL-safe alphabet: letters, digits, [-], [_]. *)
Definition url_safe (c : ascii) : bool :=
  let n := N_of_ascii c in
  ((65 <=? n) && (n <=? 90) || (97 <=? n) && (n <=? 122)
   || (48 <=? n) && (n <=? 57) || (n =? 45) || (n =? 95))%N.

End Text.

(** [base64_encode(s)], on the bytes handed to [urlsafe_b64encode]. *)
Definition base64_encode (s : list byte) : string :=
  string_of_list_ascii (Text.rstrip_pad (Base64.urlsafe_b64encode s)).

(** A naive [datetime] is the number of microseconds since [datetime.min];
    the first instant past [datetime.max] is that of day 3652059. *)
Definition datetime_end : Z := 3652059 * 86400 * 1000000.

(** [default_expire_time()], for [CONF.token.expiration] seconds and the
    instant [timeutils.utcnow()] returns.  [None] is the [OverflowError] of
    a date out of range. *)
Definition default_expire_time (expiration utcnow : Z) : option Z :=
  let expires_at := (utcnow + expiration * 1000000)%Z in
  if ((0 <=? expires_at) && (expires_at <? datetime_end))%Z
  then Some (expires_at - expires_at mod 1000000)%Z   (* replace(microsecond=0) *)
  else None.

(** [audit_info(parent_audit_id)], as a function of the bytes of the UUID
    that [random_urlsafe_str] draws. *)
Definition audit_info (uuid_bytes : list byte) (parent_audit_id : pyval) : list pyval :=
  let audit_id := random_urlsafe_str uuid_bytes in
  match parent_audit_id with
  | PNone => [PStr audit_id]
  | _ => [PStr audit_id; parent_audit_id]
  end.

Module Issuance.
Section Issuance.

Variable CONF : Config.
Variable self : Collaborators.

(** [driver.issue_v2_token(token_ref, roles_ref, catalog_ref)] *)
Variable driver_issue_v2_token : pyval -> pyval -> pyval -> result (string * pyval).

Notation "x <- m ;; k" := (Manager.bind self m (fun x => k))
  (at level 100, m at next level, right associativity).



End Issuance.
End Issuance.

(** Two states that differ in the region at most. *)
Definition same_but_region {self : Collaborators} (st st' : Manager.state self) : Prop :=
  Manager.clock st' = Manager.clock st /\
  Manager.store st' = Manager.store st /\
  Manager.registry st' = Manager.registry st /\
  Manager.queries st' = Manager.queries st.

(** What a passed validation shows about the payload it returns: a
    readable expiry that lies after the current time, and a query to the
    revocation API, recorded in the history, that the API let pass. *)
Definition vouched (CONF : Config) {self : Collaborators}
  (st st' : Manager.state self) (token : pyval) : Prop :=
  exists expiry q,
    Manager.token_expiry self token = Ok expiry
    /\ (Manager.clock st < expiry)%Z
    /\ revocation_query CONF self token = Ok q
    /\ RevokeApi.check_token (revoke_api self) q (Manager.registry st) = Ok tt
    /\ Manager.queries st' = q :: Manager.queries st.

(** * Properties *)

(** ** The identifier round trip *)

(** The test vectors of RFC 4648, and the two translated characters. *)
Example b64encode_f :
  string_of_list_ascii (Base64.b64encode [x66]) = "Zg==".
Proof. reflexivity. Qed.

Example b64encode_fo :
  string_of_list_ascii (Base64.b64encode [x66; x6f]) = "Zm8=".
Proof. reflexivity. Qed.

Example b64encode_foobar :
  string_of_list_ascii (Base64.b64encode [x66; x6f; x6f; x62; x61; x72]) = "Zm9vYmFy".
Proof. reflexivity. Qed.

Example urlsafe_b64encode_fbffbe :
  string_of_list_ascii (Base64.urlsafe_b64encode [xfb; xff; xbe]) = "-_--".
Proof. reflexivity. Qed.

Example urlsafe_b64decode_skips_blank :
  Base64.urlsafe_b64decode (list_ascii_of_string "Zm9v YmFy")
  = Some [x66; x6f; x6f; x62; x61; x72].
Proof. reflexivity. Qed.

Section Base64_roundtrip.
Import Base64.

Ltac ndiv := zify; Z.to_euclidean_division_equations; lia.

Lemma sextet_ok_table : forallb sextet_ok (map N.of_nat (seq 0 64)) = true.
Proof. vm_compute. reflexivity. Qed.

Lemma sextet_ok_below (n : N) : (n < 64)%N -> sextet_ok n = true.
Proof.
  intros Hn.
  pose proof sextet_ok_table as T.
  rewrite forallb_forall in T. apply T.
  apply in_map_iff. exists (N.to_nat n). split.
  - apply N2Nat.id.
  - apply in_seq. lia.
Qed.

Lemma char_sextet_sextet_char (n : N) :
  (n < 64)%N -> char_sextet (sextet_char n) = Some n.
Proof.
  intros Hn. apply sextet_ok_below in Hn. unfold sextet_ok in Hn.
  apply andb_prop in Hn as [Hn _]. apply andb_prop in Hn as [Hn _].
  destruct (char_sextet (sextet_char n)) as [m|]; [|discriminate].
  apply N.eqb_eq in Hn. now subst.
Qed.

Lemma sextet_char_not_pad (n : N) :
  (n < 64)%N -> Ascii.eqb (sextet_char n) pad = false.
Proof.
  intros Hn. apply sextet_ok_below in Hn. unfold sextet_ok in Hn.
  apply andb_prop in Hn as [Hn _]. apply andb_prop in Hn as [_ Hn].
  now apply negb_true_iff in Hn.
Qed.

Lemma translation_sextet_char (n : N) :
  (n < 64)%N ->
  urlsafe_decode_translation (urlsafe_encode_translation (sextet_char n)) = sextet_char n.
Proof.
  intros Hn. apply sextet_ok_below in Hn. unfold sextet_ok in Hn.
  apply andb_prop in Hn as [_ Hn]. now apply Ascii.eqb_eq in Hn.
Qed.

Lemma translation_pad :
  urlsafe_decode_translation (urlsafe_encode_translation pad) = pad.
Proof. reflexivity. Qed.

Lemma emitted_translation c :
  emitted c -> urlsafe_decode_translation (urlsafe_encode_translation c) = c.
Proof. intros [n Hn|]; [now apply translation_sextet_char | apply translation_pad]. Qed.

Lemma emitted_is_b64_char c : emitted c -> is_b64_char c = true.
Proof.
  intros [n Hn|]; unfold is_b64_char.
  - rewrite char_sextet_sextet_char by assumption. apply orb_true_r.
  - reflexivity.
Qed.

Lemma to_N_lt (b : byte) : (Byte.to_N b < 256)%N.
Proof. pose proof (Byte.to_N_bounded b). lia. Qed.

Lemma emitted_enc3 a b c : Forall emitted (enc3 a b c).
Proof.
  pose proof (to_N_lt a). pose proof (to_N_lt b). pose proof (to_N_lt c).
  unfold enc3. repeat constructor; ndiv.
Qed.

Lemma emitted_enc2 a b : Forall emitted (enc2 a b).
Proof.
  pose proof (to_N_lt a). pose proof (to_N_lt b).
  unfold enc2. repeat constructor; ndiv.
Qed.

Lemma emitted_enc1 a : Forall emitted (enc1 a).
Proof.
  pose proof (to_N_lt a).
  unfold enc1. repeat constructor; ndiv.
Qed.

(** Induction over a byte string three bytes at a time. *)
Lemma bytes_ind3 (P : list byte -> Prop) :
  P [] -> (forall a, P [a]) -> (forall a b, P [a; b]) ->
  (forall a b c rest, P rest -> P (a :: b :: c :: rest)) ->
  forall bs, P bs.
Proof.
  intros H0 H1 H2 H3.
  fix IH 1. intros [|a [|b [|c rest]]];
    [exact H0 | apply H1 | apply H2 | apply H3; apply IH].
Qed.

Lemma emitted_b64encode bs : Forall emitted (b64encode bs).
Proof.
  induction bs as [| a | a b | a b c rest IH] using bytes_ind3.
  - constructor.
  - apply emitted_enc1.
  - apply emitted_enc2.
  - change (b64encode (a :: b :: c :: rest)) with (enc3 a b c ++ b64encode rest).
    apply Forall_app. split; [apply emitted_enc3 | assumption].
Qed.

Lemma dec3_enc a b c :
  let n := (Byte.to_N a * 65536 + Byte.to_N b * 256 + Byte.to_N c)%N in
  dec3 (n / 262144) ((n / 4096) mod 64) ((n / 64) mod 64) (n mod 64) = Some [a; b; c].
Proof.
  intros n. subst n.
  pose proof (to_N_lt a). pose proof (to_N_lt b). pose proof (to_N_lt c).
  unfold dec3.
  set (n := (Byte.to_N a * 65536 + Byte.to_N b * 256 + Byte.to_N c)%N).
  replace ((((n / 262144 * 64 + (n / 4096) mod 64) * 64 + (n / 64) mod 64) * 64 + n mod 64)%N)
    with n by (subst n; ndiv).
  replace (n / 65536)%N with (Byte.to_N a) by (subst n; ndiv).
  replace ((n / 256) mod 256)%N with (Byte.to_N b) by (subst n; ndiv).
  replace (n mod 256)%N with (Byte.to_N c) by (subst n; ndiv).
  now rewrite !Byte.of_to_N.
Qed.

Lemma dec2_enc a b :
  let n := ((Byte.to_N a * 256 + Byte.to_N b) * 4)%N in
  dec2 (n / 4096) ((n / 64) mod 64) (n mod 64) = Some [a; b].
Proof.
  intros n. subst n.
  pose proof (to_N_lt a). pose proof (to_N_lt b).
  unfold dec2.
  set (n := ((Byte.to_N a * 256 + Byte.to_N b) * 4)%N).
  replace (((n / 4096 * 64 + (n / 64) mod 64) * 64 + n mod 64)%N)
    with n by (subst n; ndiv).
  replace (n / 1024)%N with (Byte.to_N a) by (subst n; ndiv).
  replace ((n / 4) mod 256)%N with (Byte.to_N b) by (subst n; ndiv).
  now rewrite !Byte.of_to_N.
Qed.

Lemma dec1_enc a :
  let n := (Byte.to_N a * 16)%N in
  dec1 (n / 64) (n mod 64) = Some [a].
Proof.
  intros n. subst n.
  pose proof (to_N_lt a).
  unfold dec1.
  replace ((Byte.to_N a * 16 / 64 * 64 + (Byte.to_N a * 16) mod 64) / 16)%N
    with (Byte.to_N a) by ndiv.
  now rewrite Byte.of_to_N.
Qed.

Lemma decode_quads_b64encode bs : decode_quads (b64encode bs) = Some bs.
Proof.
  induction bs as [| a | a b | a b c rest IH] using bytes_ind3.
  - reflexivity.
  - pose proof (to_N_lt a).
    cbn [b64encode enc1 decode_quads].
    rewrite !char_sextet_sextet_char by ndiv.
    change (Ascii.eqb pad pad) with true. cbv iota.
    apply dec1_enc.
  - pose proof (to_N_lt a). pose proof (to_N_lt b).
    cbn [b64encode enc2 decode_quads].
    rewrite !char_sextet_sextet_char by ndiv.
    rewrite !sextet_char_not_pad by ndiv.
    change (Ascii.eqb pad pad) with true. cbv iota.
    apply dec2_enc.
  - pose proof (to_N_lt a). pose proof (to_N_lt b). pose proof (to_N_lt c).
    change (b64encode (a :: b :: c :: rest)) with (enc3 a b c ++ b64encode rest).
    cbn [enc3 app decode_quads].
    rewrite !char_sextet_sextet_char by ndiv.
    rewrite !sextet_char_not_pad by ndiv.
    rewrite IH. rewrite dec3_enc. reflexivity.
Qed.

Lemma emitted_map_translation l :
  Forall emitted l ->
  map urlsafe_decode_translation (map urlsafe_encode_translation l) = l.
Proof.
  induction 1 as [|c l Hc _ IH]; [reflexivity|].
  cbn [map]. now rewrite emitted_translation, IH.
Qed.

Lemma emitted_filter l : Forall emitted l -> List.filter is_b64_char l = l.
Proof.
  induction 1 as [|c l Hc _ IH]; [reflexivity|].
  cbn [List.filter]. rewrite emitted_is_b64_char by assumption. now rewrite IH.
Qed.

Lemma urlsafe_b64decode_urlsafe_b64encode bs :
  urlsafe_b64decode (urlsafe_b64encode bs) = Some bs.
Proof.
  unfold urlsafe_b64decode, urlsafe_b64encode, b64decode.
  pose proof (emitted_b64encode bs) as E.
  rewrite emitted_map_translation, emitted_filter by assumption.
  apply decode_quads_b64encode.
Qed.

(** A string of sixteen bytes is five full groups and one byte; its
    encoding ends with two padding characters. *)
Lemma b64encode_16_tail bs :
  length bs = 16%nat ->
  exists body, length body = 22%nat /\ urlsafe_b64encode bs = body ++ [pad; pad].
Proof.
  intros L.
  do 16 (destruct bs as [|? bs]; [discriminate L|]).
  destruct bs; [|discriminate L].
  unfold urlsafe_b64encode.
  cbn [b64encode enc3 enc1 app map].
  eexists (_ :: _ :: _ :: _ :: _ :: _ :: _ :: _ :: _ :: _ :: _ :: _ :: _ :: _ :: _ :: _
             :: _ :: _ :: _ :: _ :: _ :: [_]).
  split; [reflexivity|].
  cbn [app]. reflexivity.
Qed.

Lemma chop2_app2 {A} (l : list A) (x y : A) : chop2 (l ++ [x; y]) = l.
Proof.
  unfold chop2. rewrite length_app. cbn [length].
  replace (length l + 2 - 2)%nat with (length l) by lia.
  rewrite firstn_app, Nat.sub_diag, firstn_all. cbn. apply app_nil_r.
Qed.

End Base64_roundtrip.

Lemma list_ascii_of_string_app (s t : string) :
  list_ascii_of_string (String.append s t)
  = list_ascii_of_string s ++ list_ascii_of_string t.
Proof.
  induction s as [|c s IH]; [reflexivity|].
  change (c :: list_ascii_of_string (String.append s t)
          = c :: (list_ascii_of_string s ++ list_ascii_of_string t)).
  now rewrite IH.
Qed.

(** C10.  For every sixteen bytes [b], the identifier built from [b] has
    twenty-two characters, and [random_urlsafe_str_to_bytes] recovers [b]
    from it: putting the two padding characters back undoes their removal. *)
Theorem random_urlsafe_str_roundtrip (b : list byte) :
  length b = 16%nat ->
  String.length (random_urlsafe_str b) = 22%nat /\
  random_urlsafe_str_to_bytes (random_urlsafe_str b) = Some b.
Proof.
  intros L.
  destruct (b64encode_16_tail b L) as (body & Lb & E).
  unfold random_urlsafe_str_to_bytes, random_urlsafe_str.
  rewrite E, chop2_app2. split.
  - rewrite <- Lb. clear. induction body as [|c l IH]; [reflexivity|].
    cbn [string_of_list_ascii String.length length]. now rewrite IH.
  - rewrite list_ascii_of_string_app, list_ascii_of_string_of_list_ascii.
    change (list_ascii_of_string "==") with [Base64.pad; Base64.pad].
    rewrite <- E. apply urlsafe_b64decode_urlsafe_b64encode.
Qed.

Lemma random_urlsafe_str_roundtrip_witness :
  random_urlsafe_str_to_bytes
    (random_urlsafe_str [x00;x01;x02;xff;xfe;xfd;x10;x20;x30;x40;x50;x60;x70;x80;x90;xa0])
  = Some [x00;x01;x02;xff;xfe;xfd;x10;x20;x30;x40;x50;x60;x70;x80;x90;xa0].
Proof.
  apply (random_urlsafe_str_roundtrip
           [x00;x01;x02;xff;xfe;xfd;x10;x20;x30;x40;x50;x60;x70;x80;x90;xa0]).
  reflexivity.
Defined.

(** ** The manager *)

(** Case analysis on whatever a hypothesis or the goal scrutinises. *)
Ltac split_hyp :=
  match goal with
  | H : context [match ?x with _ => _ end] |- _ => destruct x eqn:?
  end.
Ltac split_goal :=
  match goal with
  | |- context [match ?x with _ => _ end] => destruct x eqn:?
  end.
Ltac run_hyps := repeat first [progress simplify_eq | split_hyp].
Ltac run_all := repeat first [progress simplify_eq | split_hyp | split_goal].

Section Properties.

Variable CONF : Config.
Variable self : Collaborators.

Abbreviation state := (Manager.state self).

Ltac unfold_monad :=
  unfold Manager.bind, Manager.ret, Manager.raise, Manager.lift,
    Manager.try_except, Manager.read_store, Manager.write_store,
    Manager.write_registry, Manager.update_region in *.

Lemma token_expiry_dict token expiry :
  Manager.token_expiry self token = Ok expiry -> exists d, token = PDict d.
Proof.
  destruct token; cbn; try discriminate. eauto.
Qed.

Lemma is_valid_token_malformed token e st :
  Manager.token_expiry self token = Raise e ->
  Manager._is_valid_token CONF self token st = (Raise TokenNotFound, st).
Proof. intros E. unfold Manager._is_valid_token. now rewrite E. Qed.

Lemma is_valid_token_expired token expiry st :
  Manager.token_expiry self token = Ok expiry ->
  (expiry <= Manager.clock st)%Z ->
  Manager._is_valid_token CONF self token st = (Raise TokenNotFound, st).
Proof.
  intros E H. unfold Manager._is_valid_token. rewrite E.
  destruct (Z.ltb_spec (Manager.clock st) expiry); [lia | reflexivity].
Qed.

Lemma is_valid_token_unexpired token expiry st :
  Manager.token_expiry self token = Ok expiry ->
  (Manager.clock st < expiry)%Z ->
  Manager._is_valid_token CONF self token st
  = Manager.check_revocation CONF self token st.
Proof.
  intros E H. unfold Manager._is_valid_token. rewrite E.
  destruct (Z.ltb_spec (Manager.clock st) expiry); [reflexivity | lia].
Qed.

(** [check_revocation] sends at most one query and changes nothing else. *)
Lemma check_revocation_state token st r st' :
  Manager.check_revocation CONF self token st = (r, st') ->
  st' = st \/ exists q, st' = Manager.with_query q st.
Proof.
  unfold Manager.check_revocation, Manager.check_revocation_v2,
    Manager.check_revocation_v3, Manager.revoke_api_check_token.
  unfold_monad. intros H. run_hyps; eauto.
Qed.


Lemma is_valid_token_state token st r st' :
  Manager._is_valid_token CONF self token st = (r, st') ->
  st' = st \/ exists q, st' = Manager.with_query q st.
Proof.
  unfold Manager._is_valid_token. intros H.
  destruct (Manager.token_expiry self token); [|simplify_eq; auto].
  destruct (_ <? _)%Z; [|simplify_eq; auto].
  eapply check_revocation_state; eauto.
Qed.

Lemma token_belongs_to_state token belongs_to st r st' :
  Manager._token_belongs_to self token belongs_to st = (r, st') -> st' = st.
Proof.
  unfold Manager._token_belongs_to. unfold_monad. intros H.
  destruct belongs_to; run_hyps; reflexivity.
Qed.

(** Resolution reads the store and the region; all it may change is the
    region, by filing the value it computed under the id it was given. *)
Lemma validate_token_memo_state token_id st r st' :
  Manager._validate_token self token_id st = (r, st') ->
  st' = st \/
  exists v, r = Ok v /\
    Region.get F_validate_token (PStr token_id) (Manager.region st) = None /\
    st' = Manager.with_region
            (Region.set F_validate_token (PStr token_id) v (Manager.region st)) st.
Proof.
  unfold Manager._validate_token, Manager.MEMOIZE_TOKENS, Manager._needs_persistence.
  unfold_monad. intros H. run_hyps; eauto.
Qed.

Lemma validate_token_memo_hit token_id token st :
  Region.get F_validate_token (PStr token_id) (Manager.region st) = Some token ->
  Manager._validate_token self token_id st = (Ok token, st).
Proof.
  intros H. unfold Manager._validate_token, Manager.MEMOIZE_TOKENS. now rewrite H.
Qed.

Lemma validate_non_persistent_token_state token_id st r st' :
  Manager.validate_non_persistent_token self token_id st = (r, st') ->
  st' = st \/
  exists v, r = Ok v /\
    Region.get F_validate_non_persistent_token (PStr token_id) (Manager.region st) = None /\
    st' = Manager.with_region
            (Region.set F_validate_non_persistent_token (PStr token_id) v
               (Manager.region st)) st.
Proof.
  unfold Manager.validate_non_persistent_token, Manager.MEMOIZE_TOKENS.
  unfold_monad. intros H. run_hyps; eauto.
Qed.

Lemma validate_v2_memo_state token_ref st r st' :
  Manager._validate_v2_token self token_ref st = (r, st') ->
  st' = st \/
  exists v, r = Ok v /\
    Region.get F_validate_v2_token token_ref (Manager.region st) = None /\
    st' = Manager.with_region
            (Region.set F_validate_v2_token token_ref v (Manager.region st)) st.
Proof.
  unfold Manager._validate_v2_token, Manager.MEMOIZE_TOKENS.
  unfold_monad. intros H. run_hyps; eauto.
Qed.

Lemma validate_v3_memo_state token_ref st r st' :
  Manager._validate_v3_token self token_ref st = (r, st') ->
  st' = st \/
  exists v, r = Ok v /\
    Region.get F_validate_v3_token token_ref (Manager.region st) = None /\
    st' = Manager.with_region
            (Region.set F_validate_v3_token token_ref v (Manager.region st)) st.
Proof.
  unfold Manager._validate_v3_token, Manager.MEMOIZE_TOKENS.
  unfold_monad. intros H. run_hyps; eauto.
Qed.

(** What [validate_token] does once its token is resolved. *)
Lemma validate_token_resolved token_id belongs_to token st st1 :
  Manager._validate_token self (generate_unique_id self token_id) st = (Ok token, st1) ->
  Manager.validate_token CONF self token_id belongs_to st
  = match Manager._token_belongs_to self token belongs_to st1 with
    | (Ok _, st2) =>
        match Manager._is_valid_token CONF self token st2 with
        | (Ok _, st3) => (Ok token, st3)
        | (Raise e, st3) => (Raise e, st3)
        end
    | (Raise e, st2) => (Raise e, st2)
    end.
Proof.
  intros H. unfold Manager.validate_token. unfold Manager.bind at 1.
  rewrite H. reflexivity.
Qed.

Lemma validate_token_unresolved token_id belongs_to e st st1 :
  Manager._validate_token self (generate_unique_id self token_id) st = (Raise e, st1) ->
  Manager.validate_token CONF self token_id belongs_to st = (Raise e, st1).
Proof.
  intros H. unfold Manager.validate_token. unfold Manager.bind at 1.
  rewrite H. reflexivity.
Qed.

Lemma token_belongs_to_none token st :
  Manager._token_belongs_to self token None st = (Ok tt, st).
Proof. reflexivity. Qed.

Lemma token_belongs_to_mismatch token tenant tenant_id st :
  tenant <> "" ->
  legacy_tenant_id token = Ok tenant_id ->
  Py.eq_str tenant_id tenant = false ->
  Manager._token_belongs_to self token (Some tenant) st = (Raise Unauthorized, st).
Proof.
  intros Hne Hid Hneq.
  apply String.eqb_neq in Hne.
  unfold Manager._token_belongs_to. rewrite Hne. cbn [negb].
  unfold legacy_tenant_id, rbind in Hid. unfold_monad.
  destruct (Py.getitem token "access") as [access|]; [|discriminate].
  destruct (Py.getitem access "token") as [token_data|]; [|discriminate].
  destruct (Py.getitem token_data "tenant") as [tenant_ref|] eqn:Ht; [|discriminate].
  assert (Hc : Py.contains "tenant" token_data = Ok true).
  { destruct token_data; try discriminate. cbn in *.
    destruct (Py.dict_lookup "tenant" d); [reflexivity | discriminate]. }
  rewrite Hc. cbn [negb]. rewrite Hid, Hneq. reflexivity.
Qed.


Lemma check_revocation_query token q st :
  revocation_query CONF self token = Ok q ->
  Manager.check_revocation CONF self token st
  = (RevokeApi.check_token (revoke_api self) q (Manager.registry st),
     Manager.with_query q st).
Proof.
  unfold revocation_query, rbind, Manager.check_revocation,
    Manager.check_revocation_v2, Manager.check_revocation_v3,
    Manager.revoke_api_check_token.
  unfold_monad. intros H. run_all; reflexivity.
Qed.

Lemma check_revocation_no_query token e st :
  revocation_query CONF self token = Raise e ->
  Manager.check_revocation CONF self token st = (Raise e, st).
Proof.
  unfold revocation_query, rbind, Manager.check_revocation,
    Manager.check_revocation_v2, Manager.check_revocation_v3,
    Manager.revoke_api_check_token.
  unfold_monad. intros H. run_all; reflexivity.
Qed.

(** What a validation call does once its token is resolved. *)
Lemma validation_resolved entry token_id token st st1 :
  resolved self entry token_id st token st1 ->
  validation CONF self entry token_id st
  = match Manager._token_belongs_to self token (binding entry) st1 with
    | (Ok _, st2) => concluded entry token (Manager._is_valid_token CONF self token st2)
    | (Raise e, st2) => (Raise e, st2)
    end.
Proof.
  destruct entry as [belongs_to|belongs_to|]; cbn [resolved validation binding].
  - intros H. rewrite (validate_token_resolved _ _ _ _ _ H).
    destruct (Manager._token_belongs_to self token belongs_to st1) as [[[]|e] st2];
      reflexivity.
  - unfold Manager.validate_v2_token, Manager._needs_persistence.
    destruct (Provider.needs_persistence (driver self)).
    + intros (token_ref & Hget & Hres).
      unfold Manager.bind at 1. unfold Manager.bind at 1. unfold Manager.read_store.
      rewrite Hget, Hres. unfold Manager.bind at 1.
      destruct (Manager._token_belongs_to self token belongs_to st1) as [[[]|e] st2];
        reflexivity.
    + intros (v3_token_ref & Hres & Hview).
      unfold Manager.bind at 1. unfold Manager.bind at 1.
      rewrite Hres. unfold Manager.lift. rewrite Hview. unfold Manager.bind at 1.
      destruct (Manager._token_belongs_to self token belongs_to st1) as [[[]|e] st2];
        reflexivity.
  - intros (Hne & H). apply String.eqb_neq in Hne.
    change (Manager._token_belongs_to self token None st1) with (Ok tt, st1).
    unfold Manager.validate_v3_token, Manager._needs_persistence. rewrite Hne.
    unfold Manager.try_except. unfold Manager.bind at 1.
    destruct (Provider.needs_persistence (driver self)); cbn [negb].
    + destruct H as (token_ref & Hget & Hres).
      unfold Manager.bind at 1. unfold Manager.read_store. rewrite Hget, Hres.
      unfold Manager.bind, Manager.ret, concluded.
      destruct (Manager._is_valid_token CONF self token st1) as [[[]|e] st2];
        [reflexivity|]. now destruct e.
    + rewrite H. unfold Manager.bind, Manager.ret, concluded.
      destruct (Manager._is_valid_token CONF self token st1) as [[[]|e] st2];
        [reflexivity|]. now destruct e.
Qed.

(** A hit in the region is a resolution that changes nothing. *)
Lemma served_from_region_resolved entry token_id token st :
  served_from_region self entry token_id st token ->
  resolved self entry token_id st token st.
Proof.
  destruct entry as [belongs_to|belongs_to|]; cbn [served_from_region resolved].
  - apply validate_token_memo_hit.
  - destruct (Provider.needs_persistence (driver self)).
    + intros (token_ref & Hget & Hit). exists token_ref. split; [assumption|].
      unfold Manager._validate_v2_token, Manager.MEMOIZE_TOKENS. now rewrite Hit.
    + intros (v3_token_ref & Hit & Hview). exists v3_token_ref. split; [|assumption].
      unfold Manager.validate_non_persistent_token, Manager.MEMOIZE_TOKENS.
      now rewrite Hit.
  - intros (Hne & H). split; [assumption|].
    destruct (Provider.needs_persistence (driver self)).
    + destruct H as (token_ref & Hget & Hit). exists token_ref. split; [assumption|].
      unfold Manager._validate_v3_token, Manager.MEMOIZE_TOKENS. now rewrite Hit.
    + unfold Manager.validate_non_persistent_token, Manager.MEMOIZE_TOKENS.
      now rewrite H.
Qed.

Lemma is_valid_token_when_unexpired token st :
  unexpired self token st ->
  Manager._is_valid_token CONF self token st
  = Manager.check_revocation CONF self token st.
Proof. intros (expiry & E & H). eapply is_valid_token_unexpired; eauto. Qed.

Lemma is_valid_token_unless_unexpired token st :
  ~ unexpired self token st ->
  Manager._is_valid_token CONF self token st = (Raise TokenNotFound, st).
Proof.
  intros H. unfold Manager._is_valid_token.
  destruct (Manager.token_expiry self token) as [expiry|] eqn:E; [|reflexivity].
  destruct (Z.ltb_spec (Manager.clock st) expiry); [|reflexivity].
  exfalso. apply H. exists expiry. auto.
Qed.

Lemma concluded_not_found entry token (st : state) :
  concluded entry token (Raise TokenNotFound, st) = (Raise TokenNotFound, st).
Proof. now destruct entry. Qed.

(** A call for an id with no token behind it. *)
Lemma validation_absent entry token_id st :
  absent self entry token_id st ->
  validation CONF self entry token_id st = (Raise TokenNotFound, st).
Proof.
  destruct entry as [belongs_to|belongs_to|]; cbn [absent validation].
  - intros (Hmiss & H). apply validate_token_unresolved.
    unfold Manager._validate_token, Manager.MEMOIZE_TOKENS, Manager._needs_persistence.
    rewrite Hmiss.
    destruct (generate_unique_id self token_id =? "")%string; [reflexivity|].
    unfold_monad.
    destruct (Provider.needs_persistence (driver self)); cbn [negb]; now rewrite H.
  - unfold Manager.validate_v2_token, Manager._needs_persistence.
    destruct (Provider.needs_persistence (driver self)).
    + intros H. unfold_monad. now rewrite H.
    + intros (Hmiss & H).
      unfold Manager.validate_non_persistent_token, Manager.MEMOIZE_TOKENS.
      unfold_monad. now rewrite Hmiss, H.
  - unfold Manager.validate_v3_token, Manager._needs_persistence.
    destruct (token_id =? "")%string; [reflexivity|].
    destruct (Provider.needs_persistence (driver self)); cbn [negb].
    + intros H. unfold_monad. now rewrite H.
    + intros (Hmiss & H).
      unfold Manager.validate_non_persistent_token, Manager.MEMOIZE_TOKENS.
      unfold_monad. now rewrite Hmiss, H.
Qed.

(** C1 (amended).  In every validation call the checks run in this order
    once the token is resolved: the scope-binding check, then the
    structural and expiry check, then the revocation check, stopping at the
    first failure.  So a resolved token whose tenant id differs from a
    non-empty [belongs_to] fails with [Unauthorized] whatever its expiry (in
    particular when it has expired), in the state the resolution left, so
    that nothing was asked of the revocation API.  When the scope-binding
    check passes, the call ends as [_is_valid_token] ends; and in
    [_is_valid_token] a payload that is not unexpired is not found before
    anything is asked of the revocation API, while an unexpired one goes
    on to the revocation check. *)
Theorem scope_binding_check_precedes_expiry :
  (forall entry token_id token st st1 tenant tenant_id,
     resolved self entry token_id st token st1 ->
     binding entry = Some tenant ->
     tenant <> "" ->
     legacy_tenant_id token = Ok tenant_id ->
     Py.eq_str tenant_id tenant = false ->
     validation CONF self entry token_id st = (Raise Unauthorized, st1))
  /\
  (forall entry token_id token st st1,
     resolved self entry token_id st token st1 ->
     Manager._token_belongs_to self token (binding entry) st1 = (Ok tt, st1) ->
     validation CONF self entry token_id st
     = concluded entry token (Manager._is_valid_token CONF self token st1))
  /\
  (forall token st,
     ~ unexpired self token st ->
     Manager._is_valid_token CONF self token st = (Raise TokenNotFound, st))
  /\
  (forall token st,
     unexpired self token st ->
     Manager._is_valid_token CONF self token st
     = Manager.check_revocation CONF self token st).
Proof.
  split; [|split; [|split]].
  - intros entry token_id token st st1 tenant tenant_id Hres Hb Hne Hid Hneq.
    rewrite (validation_resolved _ _ _ _ _ Hres), Hb.
    now rewrite (token_belongs_to_mismatch _ _ _ _ Hne Hid Hneq).
  - intros entry token_id token st st1 Hres Hok.
    now rewrite (validation_resolved _ _ _ _ _ Hres), Hok.
  - apply is_valid_token_unless_unexpired.
  - apply is_valid_token_when_unexpired.
Qed.

(** C3 (amended).  In every validation call that resolves its token and
    passes the scope-binding check, the revocation check is performed
    exactly when the token is unexpired.  For an unexpired token the call
    ends as [check_revocation] ends: the query built from the payload is put
    to the revocation API, and what the API answers decides the call.  For a
    token that is not unexpired the call raises [TokenNotFound] in the state
    the resolution left: no query was sent.  The same holds when the
    resolution is answered by the region, so a hit never bypasses the
    revocation check.  A call whose scope-binding check fails ends there,
    before this step: nothing is asked of the revocation API. *)
Theorem revocation_check_gated_by_expiry_not_by_cache :
  (forall entry token_id token st st1,
     resolved self entry token_id st token st1 ->
     Manager._token_belongs_to self token (binding entry) st1 = (Ok tt, st1) ->
     (unexpired self token st1 ->
      validation CONF self entry token_id st
      = concluded entry token (Manager.check_revocation CONF self token st1))
     /\
     (forall q,
        unexpired self token st1 ->
        revocation_query CONF self token = Ok q ->
        validation CONF self entry token_id st
        = (match RevokeApi.check_token (revoke_api self) q (Manager.registry st1) with
           | Ok _ => Ok token
           | Raise e => Raise (surfaced entry e)
           end,
           Manager.with_query q st1))
     /\
     (~ unexpired self token st1 ->
      validation CONF self entry token_id st = (Raise TokenNotFound, st1)))
  /\
  (forall entry token_id token st,
     served_from_region self entry token_id st token ->
     Manager._token_belongs_to self token (binding entry) st = (Ok tt, st) ->
     (forall q,
        unexpired self token st ->
        revocation_query CONF self token = Ok q ->
        validation CONF self entry token_id st
        = (match RevokeApi.check_token (revoke_api self) q (Manager.registry st) with
           | Ok _ => Ok token
           | Raise e => Raise (surfaced entry e)
           end,
           Manager.with_query q st))
     /\
     (~ unexpired self token st ->
      validation CONF self entry token_id st = (Raise TokenNotFound, st)))
  /\
  (forall entry token_id token e st st1,
     resolved self entry token_id st token st1 ->
     Manager._token_belongs_to self token (binding entry) st1 = (Raise e, st1) ->
     validation CONF self entry token_id st = (Raise e, st1)).
Proof.
  assert (G : forall entry token_id token st st1,
     resolved self entry token_id st token st1 ->
     Manager._token_belongs_to self token (binding entry) st1 = (Ok tt, st1) ->
     (unexpired self token st1 ->
      validation CONF self entry token_id st
      = concluded entry token (Manager.check_revocation CONF self token st1))
     /\
     (forall q,
        unexpired self token st1 ->
        revocation_query CONF self token = Ok q ->
        validation CONF self entry token_id st
        = (match RevokeApi.check_token (revoke_api self) q (Manager.registry st1) with
           | Ok _ => Ok token
           | Raise e => Raise (surfaced entry e)
           end,
           Manager.with_query q st1))
     /\
     (~ unexpired self token st1 ->
      validation CONF self entry token_id st = (Raise TokenNotFound, st1))).
  { intros entry token_id token st st1 Hres Hok.
    rewrite (validation_resolved _ _ _ _ _ Hres), Hok.
    split; [|split].
    - intros U. now rewrite (is_valid_token_when_unexpired _ _ U).
    - intros q U Q.
      rewrite (is_valid_token_when_unexpired _ _ U), (check_revocation_query _ _ _ Q).
      unfold concluded.
      now destruct (RevokeApi.check_token (revoke_api self) q (Manager.registry st1)).
    - intros U. rewrite (is_valid_token_unless_unexpired _ _ U).
      apply concluded_not_found. }
  split; [exact G|]. split.
  - intros entry token_id token st Hit Hok.
    apply served_from_region_resolved in Hit.
    destruct (G _ _ _ _ _ Hit Hok) as (_ & Hq & Hn). auto.
  - intros entry token_id token e st st1 Hres Hscope.
    now rewrite (validation_resolved _ _ _ _ _ Hres), Hscope.
Qed.

(** C4 (amended).  In every validation call that resolves its token and
    passes the scope-binding check, a token whose expiry is at or before
    the current time is not found, as is a token without a readable expiry
    and as is an id with no token behind it; a token whose expiry is
    strictly later (one second later, for one) passes the expiry check: the
    call goes on to the revocation check and ends as it ends.  A call whose
    scope-binding check fails raises what that check raised, whatever the
    expiry. *)
Theorem expiry_boundary :
  (forall entry token_id token expiry st st1,
     resolved self entry token_id st token st1 ->
     Manager._token_belongs_to self token (binding entry) st1 = (Ok tt, st1) ->
     Manager.token_expiry self token = Ok expiry ->
     ((expiry <= Manager.clock st1)%Z ->
      validation CONF self entry token_id st = (Raise TokenNotFound, st1))
     /\
     ((Manager.clock st1 < expiry)%Z ->
      validation CONF self entry token_id st
      = concluded entry token (Manager.check_revocation CONF self token st1))
     /\
     (expiry = (Manager.clock st1 + 1)%Z ->
      validation CONF self entry token_id st
      = concluded entry token (Manager.check_revocation CONF self token st1)))
  /\
  (forall entry token_id token e st st1,
     resolved self entry token_id st token st1 ->
     Manager._token_belongs_to self token (binding entry) st1 = (Ok tt, st1) ->
     Manager.token_expiry self token = Raise e ->
     validation CONF self entry token_id st = (Raise TokenNotFound, st1))
  /\
  (forall entry token_id st,
     absent self entry token_id st ->
     validation CONF self entry token_id st = (Raise TokenNotFound, st))
  /\
  (forall entry token_id token e st st1,
     resolved self entry token_id st token st1 ->
     Manager._token_belongs_to self token (binding entry) st1 = (Raise e, st1) ->
     validation CONF self entry token_id st = (Raise e, st1)).
Proof.
  split; [|split; [|split]].
  - intros entry token_id token expiry st st1 Hres Hok E.
    rewrite (validation_resolved _ _ _ _ _ Hres), Hok.
    split; [|split].
    + intros H. rewrite (is_valid_token_expired _ _ _ E H).
      apply concluded_not_found.
    + intros H. now rewrite (is_valid_token_unexpired _ _ _ E H).
    + intros H. rewrite (is_valid_token_unexpired _ _ _ E); [reflexivity | lia].
  - intros entry token_id token e st st1 Hres Hok E.
    rewrite (validation_resolved _ _ _ _ _ Hres), Hok.
    rewrite (is_valid_token_malformed _ _ _ E). apply concluded_not_found.
  - apply validation_absent.
  - intros entry token_id token e st st1 Hres Hscope.
    now rewrite (validation_resolved _ _ _ _ _ Hres), Hscope.
Qed.


Lemma create_token_created token_id token_data data s st :
  Manager.normalize_expires self token_data = Ok data ->
  Persistence.create_token (persistence self) token_id data (Manager.store st) = Ok s ->
  Manager._create_token self token_id token_data st = (Ok tt, Manager.with_store s st).
Proof.
  intros N C. unfold Manager._create_token. unfold_monad. now rewrite N, C.
Qed.

(** C5.  When the store refuses to create the record, [_create_token]
    fetches the token id again: if a record is found the call returns
    without raising, and the store is as it was; the failure of the create
    is raised again only when the fetch reports [TokenNotFound]; any other
    failure of the fetch is what the caller sees. *)
Theorem duplicate_create_is_not_an_error
  (token_id : string) (token_data data : pyval) (e : exn)
  (st : Manager.state self) :
  Manager.normalize_expires self token_data = Ok data ->
  Persistence.create_token (persistence self) token_id data (Manager.store st)
  = Raise e ->
  (forall existing,
     Persistence.get_token (persistence self) token_id (Manager.store st)
     = Ok existing ->
     Manager._create_token self token_id token_data st = (Ok tt, st))
  /\
  (Persistence.get_token (persistence self) token_id (Manager.store st)
   = Raise TokenNotFound ->
   Manager._create_token self token_id token_data st = (Raise e, st))
  /\
  (forall e',
     Persistence.get_token (persistence self) token_id (Manager.store st)
     = Raise e' ->
     e' <> TokenNotFound ->
     Manager._create_token self token_id token_data st = (Raise e', st))
  /\
  (forall e' st',
     Manager._create_token self token_id token_data st = (Raise e', st') ->
     st' = st /\
     exists e'',
       Persistence.get_token (persistence self) token_id (Manager.store st)
       = Raise e'' /\
       (e'' = TokenNotFound /\ e' = e \/ e'' <> TokenNotFound /\ e' = e'')).
Proof.
  intros N C. unfold Manager._create_token. unfold_monad. rewrite N, C.
  split; [|split; [|split]].
  - intros existing G. now rewrite G.
  - intros G. now rewrite G.
  - intros e' G Hne. rewrite G. destruct e'; congruence.
  - intros e' st' H.
    destruct (Persistence.get_token _ _ _) as [|e0]; [discriminate|].
    assert (st' = st) as -> by (destruct e0; congruence).
    split; [reflexivity|]. exists e0. split; [reflexivity|].
    destruct e0; simplify_eq; (left; split; congruence) || (right; split; congruence).
Qed.

(** The six callbacks are the ones [_register_callback_listeners]
    registers. *)
Lemma every_listener_is_registered (l : Manager.listener) :
  exists a rt, In (a, rt, l) Manager._register_callback_listeners.
Proof.
  destruct l; cbn; eauto 12.
Qed.

(** C7 (amended).  Every notification callback deletes from the store only
    when revoke-by-id is enabled, and then what it deletes is the scoped
    selection of the event; with revoke-by-id disabled it cannot fail and
    the store is unchanged.  With cache-on-issue enabled, a callback that
    returns has emptied the whole region, whatever revoke-by-id says; a
    callback that raises, which happens only with revoke-by-id enabled, when
    the event cannot be read or the deletion fails, raises before it reaches
    the region and leaves the whole state as it was.  With cache-on-issue
    disabled the region is left alone.  The revocation events are never
    touched. *)
Theorem callbacks_delete_by_id_and_invalidate_region
  (l : Manager.listener) (payload : pyval) (st st' : Manager.state self)
  (r : result unit) :
  Manager.callback CONF self l payload st = (r, st') ->
  (revoke_by_id CONF = false -> r = Ok tt /\ Manager.store st' = Manager.store st)
  /\
  (Manager.store st' <> Manager.store st -> revoke_by_id CONF = true)
  /\
  (revoke_by_id CONF = true ->
   match scoped_deletion self l payload with
   | Ok delete =>
       match delete (Manager.store st) with
       | Ok s => r = Ok tt /\ Manager.store st' = s
       | Raise e => r = Raise e /\ st' = st
       end
   | Raise e => r = Raise e /\ st' = st
   end)
  /\
  (cache_on_issue CONF = true ->
   match r with
   | Ok _ => Manager.region st' = Region.invalidate (Manager.region st)
   | Raise _ => revoke_by_id CONF = true /\ st' = st
   end)
  /\
  (cache_on_issue CONF = false -> Manager.region st' = Manager.region st)
  /\
  Manager.registry st' = Manager.registry st.
Proof.
  intros H.
  destruct l; cbn [Manager.callback] in H;
    unfold Manager._trust_deleted_event_callback,
      Manager._delete_user_tokens_callback,
      Manager._delete_domain_tokens_callback,
      Manager._delete_user_project_tokens_callback,
      Manager._delete_project_tokens_callback,
      Manager._delete_user_oauth_consumer_tokens_callback in H;
    unfold scoped_deletion, rbind; unfold_monad;
    destruct (revoke_by_id CONF), (cache_on_issue CONF);
    run_hyps; cbn;
    repeat split; intros; try congruence;
    run_all; auto; try congruence.
Qed.

Lemma is_valid_token_region token st r st' :
  Manager._is_valid_token CONF self token st = (r, st') ->
  Manager.region st' = Manager.region st.
Proof.
  intros H. apply is_valid_token_state in H as [->|(q & ->)]; reflexivity.
Qed.

Lemma checks_region token belongs_to st r st' :
  Manager.bind self (Manager._token_belongs_to self token belongs_to)
    (fun _ => Manager.bind self (Manager._is_valid_token CONF self token)
                (fun _ => Manager.ret self token)) st = (r, st') ->
  Manager.region st' = Manager.region st.
Proof.
  unfold Manager.bind, Manager.ret.
  destruct (Manager._token_belongs_to self token belongs_to st) as [[[]|e] st1] eqn:B;
    apply token_belongs_to_state in B; subst st1.
  - destruct (Manager._is_valid_token CONF self token st) as [[[]|e] st2] eqn:V;
      apply is_valid_token_region in V; intros H; simplify_eq; assumption.
  - intros H; simplify_eq. reflexivity.
Qed.

(** [validate_token] changes the region at most by the entry that the
    resolution files under the unique id. *)
Lemma validate_token_region token_id belongs_to st r st' :
  Manager.validate_token CONF self token_id belongs_to st = (r, st') ->
  Manager.region st' = Manager.region st \/
  exists v,
    Manager.region st'
    = Region.set F_validate_token (PStr (generate_unique_id self token_id)) v
        (Manager.region st).
Proof.
  unfold Manager.validate_token. unfold Manager.bind at 1.
  destruct (Manager._validate_token self _ st) as [[token|e] st1] eqn:R;
    apply validate_token_memo_state in R.
  - intros H. apply checks_region in H. rewrite H.
    destruct R as [->|(v & ? & _ & ->)]; [left; reflexivity|].
    right. exists v. reflexivity.
  - intros H. simplify_eq.
    destruct R as [->|(v & ? & _)]; [left; reflexivity | discriminate].
Qed.

Lemma validate_token_backends token_id belongs_to st r st' :
  Manager.validate_token CONF self token_id belongs_to st = (r, st') ->
  same_backends st st'.
Proof.
  unfold Manager.validate_token. unfold Manager.bind at 1.
  destruct (Manager._validate_token self _ st) as [[token|e] st1] eqn:R;
    apply validate_token_memo_state in R.
  - unfold Manager.bind at 1.
    destruct (Manager._token_belongs_to self token belongs_to st1) as [[[]|e] st2] eqn:B;
      apply token_belongs_to_state in B; subst st2.
    + unfold Manager.bind, Manager.ret.
      destruct (Manager._is_valid_token CONF self token st1) as [[[]|e] st3] eqn:V;
        apply is_valid_token_state in V; intros H; simplify_eq;
        destruct R as [->|(v & _ & _ & ->)], V as [->|(q & ->)];
        repeat split.
    + intros H; simplify_eq.
      destruct R as [->|(v & _ & _ & ->)]; repeat split.
  - intros H; simplify_eq.
    destruct R as [->|(v & ? & _)]; [repeat split | discriminate].
Qed.

Lemma validate_token_failure_propagates token_id revoke_chain e st st' :
  Manager.validate_token CONF self token_id None st = (Raise e, st') ->
  Manager.revoke_token CONF self token_id revoke_chain st = (Raise e, st').
Proof.
  intros H. unfold Manager.revoke_token. unfold Manager.bind at 1. now rewrite H.
Qed.

Lemma not_found_cause_not_found token_id st :
  not_found_cause CONF self token_id st ->
  exists st', Manager.validate_token CONF self token_id None st
              = (Raise TokenNotFound, st').
Proof.
  intros [Hempty Hmiss | uid Hp Hmiss Hget | e uid Hp Hmiss Hdec He
          | token st1 e Hres E | token st1 expiry Hres E H
          | token st1 expiry q Hres E H Q C].
  - exists st. apply validate_token_unresolved.
    unfold Manager._validate_token, Manager.MEMOIZE_TOKENS.
    rewrite Hempty, Hmiss. reflexivity.
  - exists st. apply validate_token_unresolved. fold uid.
    unfold Manager._validate_token, Manager.MEMOIZE_TOKENS, Manager._needs_persistence.
    rewrite Hmiss, Hp. destruct (uid =? "")%string; [reflexivity|].
    unfold_monad. cbn [negb]. now rewrite Hget.
  - exists st. apply validate_token_unresolved. fold uid.
    unfold Manager._validate_token, Manager.MEMOIZE_TOKENS, Manager._needs_persistence.
    rewrite Hmiss, Hp. destruct (uid =? "")%string; [reflexivity|].
    unfold_monad. cbn [negb]. rewrite Hdec.
    destruct He; subst e; reflexivity.
  - exists st1. rewrite (validate_token_resolved _ _ _ _ _ Hres), token_belongs_to_none.
    now rewrite (is_valid_token_malformed _ _ _ E).
  - exists st1. rewrite (validate_token_resolved _ _ _ _ _ Hres), token_belongs_to_none.
    now rewrite (is_valid_token_expired _ _ _ E H).
  - exists (Manager.with_query q st1).
    rewrite (validate_token_resolved _ _ _ _ _ Hres), token_belongs_to_none.
    rewrite (is_valid_token_unexpired _ _ _ E H), (check_revocation_query _ _ _ Q), C.
    reflexivity.
Qed.

(** The resolution of a persisted record that does not declare [V3]: the
    driver validates a [V2] record, outside the [try] block, and any other
    version is refused. *)
Lemma resolution_of_a_record token_id token_ref version st :
  token_id <> "" ->
  Provider.needs_persistence (driver self) = true ->
  Region.get F_validate_token (PStr token_id) (Manager.region st) = None ->
  Persistence.get_token (persistence self) token_id (Manager.store st) = Ok token_ref ->
  Provider.get_token_version (driver self) token_ref = Ok version ->
  version <> V3 self ->
  (version <> V2 self ->
   Manager._validate_token self token_id st
   = (Raise UnsupportedTokenVersionException, st))
  /\
  (forall e,
     version = V2 self ->
     Provider.validate_v2_token (driver self) token_ref = Raise e ->
     Manager._validate_token self token_id st = (Raise e, st)).
Proof.
  intros Hne Hp Hmiss Hget Hv H3.
  apply String.eqb_neq in Hne, H3.
  unfold Manager._validate_token, Manager.MEMOIZE_TOKENS, Manager._needs_persistence.
  rewrite Hmiss, Hne, Hp. unfold_monad. cbn [negb]. rewrite Hget, Hv, H3.
  split.
  - intros H2. apply String.eqb_neq in H2. now rewrite H2.
  - intros e -> He. now rewrite String.eqb_refl, He.
Qed.

(** C8 (amended).  [revoke_token] validates first.  Whatever exception the
    validation raises is raised unchanged by the revocation, before any
    write: the clock, the persisted tokens and the revocation events are as
    they were, and the region is as it was or holds one more entry, the
    payload that the resolution computed for the unique id.  For an id that
    is absent, expired or revoked, or whose payload has no readable expiry,
    that exception is [TokenNotFound]; the other failures of a validation
    (a record the driver refuses, a record of another version) reach the
    caller of [revoke_token] as the validation raised them. *)
Theorem revoke_token_validates_first
  (token_id : string) (revoke_chain : bool) (st : Manager.state self) :
  (forall e st',
     Manager.validate_token CONF self token_id None st = (Raise e, st') ->
     Manager.revoke_token CONF self token_id revoke_chain st = (Raise e, st')
     /\ Manager.store st' = Manager.store st
     /\ Manager.registry st' = Manager.registry st
     /\ Manager.clock st' = Manager.clock st
     /\ (Manager.region st' = Manager.region st \/
         exists v,
           Manager.region st'
           = Region.set F_validate_token (PStr (generate_unique_id self token_id)) v
               (Manager.region st)))
  /\
  (not_found_cause CONF self token_id st ->
   exists st',
     Manager.revoke_token CONF self token_id revoke_chain st
     = (Raise TokenNotFound, st')
     /\ Manager.store st' = Manager.store st
     /\ Manager.registry st' = Manager.registry st)
  /\
  (forall token_ref version,
     let unique_id := generate_unique_id self token_id in
     unique_id <> "" ->
     Provider.needs_persistence (driver self) = true ->
     Region.get F_validate_token (PStr unique_id) (Manager.region st) = None ->
     Persistence.get_token (persistence self) unique_id (Manager.store st)
     = Ok token_ref ->
     Provider.get_token_version (driver self) token_ref = Ok version ->
     version <> V3 self ->
     (version <> V2 self ->
      Manager.revoke_token CONF self token_id revoke_chain st
      = (Raise UnsupportedTokenVersionException, st))
     /\
     (version = V2 self ->
      Provider.validate_v2_token (driver self) token_ref = Raise Unauthorized ->
      Manager.revoke_token CONF self token_id revoke_chain st
      = (Raise Unauthorized, st))).
Proof.
  assert (G : forall e st',
     Manager.validate_token CONF self token_id None st = (Raise e, st') ->
     Manager.revoke_token CONF self token_id revoke_chain st = (Raise e, st')
     /\ Manager.store st' = Manager.store st
     /\ Manager.registry st' = Manager.registry st
     /\ Manager.clock st' = Manager.clock st
     /\ (Manager.region st' = Manager.region st \/
         exists v,
           Manager.region st'
           = Region.set F_validate_token (PStr (generate_unique_id self token_id)) v
               (Manager.region st))).
  { intros e st' H. split; [now apply validate_token_failure_propagates|].
    pose proof (validate_token_backends _ _ _ _ _ H) as (? & ? & ?).
    pose proof (validate_token_region _ _ _ _ _ H). auto. }
  split; [exact G|]. split.
  - intros D. destruct (not_found_cause_not_found _ _ D) as (st' & H).
    exists st'. destruct (G _ _ H) as (? & ? & ? & _). auto.
  - intros token_ref version uid Hne Hp Hmiss Hget Hv H3.
    destruct (resolution_of_a_record _ _ _ _ Hne Hp Hmiss Hget Hv H3) as (Hu & Hl).
    split.
    + intros H2. apply validate_token_failure_propagates.
      apply validate_token_unresolved. auto.
    + intros H2 He. apply validate_token_failure_propagates.
      apply validate_token_unresolved. auto.
Qed.

Section Boundary.

Hypothesis WB : well_behaved self.

Lemma resolution_boundary token_id st e st' :
  Manager._validate_token self token_id st = (Raise e, st') -> boundary_exn e.
Proof.
  unfold Manager._validate_token, Manager.MEMOIZE_TOKENS, Manager._needs_persistence.
  unfold_monad. intros H.
  run_hyps;
    try (unfold boundary_exn; auto; fail);
    match goal with
    | G : Provider.validate_non_persistent_token _ _ = Raise _ |- _ =>
        apply (wb_validate_non_persistent_token _ WB) in G
    | G : Provider.validate_v3_token _ _ = Raise _ |- _ =>
        apply (wb_validate_v3_token _ WB) in G
    | G : Provider.validate_v2_token _ _ = Raise _ |- _ =>
        apply (wb_validate_v2_token _ WB) in G
    | G : Provider.get_token_version _ _ = Raise _ |- _ =>
        apply (wb_get_token_version _ WB) in G
    | G : Persistence.get_token _ _ _ = Raise _ |- _ =>
        apply (wb_get_token _ WB) in G
    end;
    unfold boundary_exn in *; intuition congruence.
Qed.

Lemma check_revocation_boundary d st e st' :
  Manager.check_revocation CONF self (PDict d) st = (Raise e, st') -> boundary_exn e.
Proof.
  unfold Manager.check_revocation, Manager.check_revocation_v2,
    Manager.check_revocation_v3, Manager.revoke_api_check_token, Py.getitem.
  unfold_monad. intros H.
  run_hyps;
    try (unfold boundary_exn; auto; fail);
    match goal with
    | G : RevokeApi.check_token _ _ _ = Raise _ |- _ =>
        apply (wb_check_token _ WB) in G
    | G : RevokeApi.build_token_values _ _ = Raise _ |- _ =>
        apply (wb_build_token_values _ WB) in G
    | G : RevokeApi.build_token_values_v2 _ _ _ = Raise _ |- _ =>
        apply (wb_build_token_values_v2 _ WB) in G
    | G : Provider.get_token_version _ _ = Raise _ |- _ =>
        apply (wb_get_token_version _ WB) in G
    end;
    assumption.
Qed.

Lemma is_valid_token_boundary token st e st' :
  Manager._is_valid_token CONF self token st = (Raise e, st') -> boundary_exn e.
Proof.
  unfold Manager._is_valid_token.
  destruct (Manager.token_expiry self token) as [expiry|] eqn:E.
  - destruct (token_expiry_dict _ _ E) as (d & ->).
    destruct (_ <? _)%Z.
    + apply check_revocation_boundary.
    + intros H; simplify_eq. left; reflexivity.
  - intros H; simplify_eq. left; reflexivity.
Qed.

Lemma validate_non_persistent_token_boundary token_id st e st' :
  Manager.validate_non_persistent_token self token_id st = (Raise e, st') ->
  boundary_exn e.
Proof.
  unfold Manager.validate_non_persistent_token, Manager.MEMOIZE_TOKENS, Manager.lift.
  intros H. run_hyps. eapply wb_validate_non_persistent_token; eauto.
Qed.

Lemma validate_v2_memo_boundary token_ref st e st' :
  Manager._validate_v2_token self token_ref st = (Raise e, st') -> boundary_exn e.
Proof.
  unfold Manager._validate_v2_token, Manager.MEMOIZE_TOKENS, Manager.lift.
  intros H. run_hyps. eapply wb_validate_v2_token; eauto.
Qed.

Lemma validate_v3_memo_boundary token_ref st e st' :
  Manager._validate_v3_token self token_ref st = (Raise e, st') -> boundary_exn e.
Proof.
  unfold Manager._validate_v3_token, Manager.MEMOIZE_TOKENS, Manager.lift.
  intros H. run_hyps. eapply wb_validate_v3_token; eauto.
Qed.

Lemma stored_token_boundary token_id s e :
  Persistence.get_token (persistence self) token_id s = Raise e -> boundary_exn e.
Proof. apply wb_get_token, WB. Qed.

Lemma legacy_view_boundary token token_id e :
  v3_to_v2_token self token token_id = Raise e -> boundary_exn e.
Proof. apply wb_v3_to_v2_token, WB. Qed.

End Boundary.

Create HintDb boundary.

#[local] Hint Resolve resolution_boundary is_valid_token_boundary
  validate_non_persistent_token_boundary validate_v2_memo_boundary
  validate_v3_memo_boundary stored_token_boundary legacy_view_boundary : boundary.

(** A payload of the structure that the scope-binding check reads makes
    the check pass or raise [Unauthorized]. *)
Lemma token_belongs_to_readable token belongs_to st e st' :
  scope_readable token ->
  Manager._token_belongs_to self token belongs_to st = (Raise e, st') ->
  e = Unauthorized.
Proof.
  intros (access & token_data & has_tenant & Ha & Ht & Hc & Hid).
  unfold Manager._token_belongs_to. destruct belongs_to as [tenant|]; [|discriminate].
  unfold_monad. destruct (negb (tenant =? "")%string); [|discriminate].
  rewrite Ha, Ht, Hc.
  destruct has_tenant; cbn [negb]; [|intros H; now inversion H].
  destruct (Hid eq_refl) as (tenant_ref & tenant_id & Hr & Hi). rewrite Hr, Hi.
  destruct (negb (Py.eq_str tenant_id tenant)); intros H; now inversion H.
Qed.

(** With no tenant to bind to, the scope-binding check passes. *)
Lemma token_belongs_to_unbound token belongs_to st e st' :
  Manager._token_belongs_to self token belongs_to st = (Raise e, st') ->
  exists tenant, belongs_to = Some tenant /\ tenant <> "".
Proof.
  unfold Manager._token_belongs_to. destruct belongs_to as [tenant|]; [|discriminate].
  destruct (String.eqb_spec tenant ""); [discriminate|]. eauto.
Qed.

Section Boundary_of_a_call.

Hypothesis WB : well_behaved self.

(** A call gets past its resolution, or fails there with one of the three
    exceptions; [validate_v3_token] does not fail there with
    [Unauthorized]. *)
Lemma resolution_of_a_call entry token_id st r st' :
  validation CONF self entry token_id st = (r, st') ->
  (exists token st1, resolved self entry token_id st token st1)
  \/ (exists e, r = Raise e /\ boundary_exn e
                /\ (entry = via_validate_v3_token -> e <> Unauthorized)).
Proof.
  destruct entry as [belongs_to|belongs_to|]; cbn [validation resolved].
  - unfold Manager.validate_token. unfold Manager.bind at 1.
    destruct (Manager._validate_token self _ st) as [[token|e0] st1] eqn:R.
    + intros _. left. eauto.
    + intros H. inversion H; subst. right. exists e0.
      split; [reflexivity|]. split; [|discriminate].
      eapply resolution_boundary; eauto.
  - unfold Manager.validate_v2_token, Manager._needs_persistence.
    unfold Manager.bind at 1.
    destruct (Provider.needs_persistence (driver self)).
    + unfold Manager.bind at 1. unfold Manager.read_store.
      destruct (Persistence.get_token _ _ _) as [token_ref|e0] eqn:G.
      * destruct (Manager._validate_v2_token self token_ref st) as [[token|e1] st1] eqn:R.
        -- intros _. left. eauto.
        -- intros H. inversion H; subst. right. exists e1.
           split; [reflexivity|]. split; [|discriminate].
           eapply validate_v2_memo_boundary; eauto.
      * intros H. inversion H; subst. right. exists e0.
        split; [reflexivity|]. split; [|discriminate].
        eapply stored_token_boundary; eauto.
    + unfold Manager.bind at 1.
      destruct (Manager.validate_non_persistent_token self token_id st)
        as [[v3_token_ref|e0] st1] eqn:R.
      * unfold Manager.lift.
        destruct (v3_to_v2_token self v3_token_ref token_id) as [token|e1] eqn:V.
        -- intros _. left. eauto.
        -- intros H. inversion H; subst. right. exists e1.
           split; [reflexivity|]. split; [|discriminate].
           eapply legacy_view_boundary; eauto.
      * intros H. inversion H; subst. right. exists e0.
        split; [reflexivity|]. split; [|discriminate].
        eapply validate_non_persistent_token_boundary; eauto.
  - unfold Manager.validate_v3_token, Manager._needs_persistence.
    destruct (String.eqb_spec token_id "") as [->|Hne].
    { intros H. inversion H; subst. right. exists TokenNotFound.
      split; [reflexivity|]. split; [left; reflexivity | discriminate]. }
    unfold Manager.try_except. unfold Manager.bind at 1.
    assert (F : forall e0 (s0 : state),
               boundary_exn e0 ->
               match e0 with
               | Unauthorized => Manager.raise self TokenNotFound
               | _ => Manager.raise self e0
               end s0 = (r, st') ->
               exists e, r = Raise e /\ boundary_exn e
                         /\ (via_validate_v3_token = via_validate_v3_token ->
                             e <> Unauthorized)).
    { intros e0 s0 [->|[->| ->]] H; inversion H; subst;
        eexists; (split; [reflexivity|]); (split; [|discriminate]);
        unfold boundary_exn; auto. }
    destruct (Provider.needs_persistence (driver self)); cbn [negb].
    + unfold Manager.bind at 1. unfold Manager.read_store.
      destruct (Persistence.get_token _ _ _) as [token_ref|e0] eqn:G.
      * destruct (Manager._validate_v3_token self token_ref st) as [[token|e1] st1] eqn:R.
        -- intros _. left. exists token, st1. split; [assumption|]. eauto.
        -- intros H. right. apply (F e1 st1); [|assumption].
           eapply validate_v3_memo_boundary; eauto.
      * intros H. right. apply (F e0 st); [|assumption].
        eapply stored_token_boundary; eauto.
    + destruct (Manager.validate_non_persistent_token self token_id st)
        as [[token|e0] st1] eqn:R.
      * intros _. left. exists token, st1. split; [assumption | reflexivity].
      * intros H. right. apply (F e0 st1); [|assumption].
        eapply validate_non_persistent_token_boundary; eauto.
Qed.

Lemma surfaced_boundary entry e : boundary_exn e -> boundary_exn (surfaced entry e).
Proof.
  intros [->|[->| ->]]; destruct entry; cbn; unfold boundary_exn; auto.
Qed.

Lemma surfaced_v3 e :
  boundary_exn e ->
  surfaced via_validate_v3_token e = TokenNotFound
  \/ surfaced via_validate_v3_token e = UnsupportedTokenVersionException.
Proof. intros [->|[->| ->]]; cbn; auto. Qed.

End Boundary_of_a_call.

(** C2 (amended).  When the store, the driver, the version adapter and the
    revocation API raise nothing but [TokenNotFound], [Unauthorized] and
    [UnsupportedTokenVersionException], a failure of a validation call is
    one of the three, and a failure of [validate_v3_token] is one of the
    first and the last.  [UnsupportedTokenVersionException] does cross the
    boundary: a record whose version is neither [V3] nor [V2] makes
    [validate_token] raise it.  This is stated for the calls whose
    scope-binding check, when a tenant is given, meets a payload of the
    structure it reads. *)
Theorem validation_failures_at_the_boundary :
  well_behaved self ->
  (forall entry token_id st e st',
     validation CONF self entry token_id st = (Raise e, st') ->
     (forall tenant token st1,
        binding entry = Some tenant ->
        tenant <> "" ->
        resolved self entry token_id st token st1 ->
        scope_readable token) ->
     boundary_exn e)
  /\
  (forall token_id st e st',
     Manager.validate_v3_token CONF self token_id st = (Raise e, st') ->
     e = TokenNotFound \/ e = UnsupportedTokenVersionException)
  /\
  (forall token_id belongs_to st token_ref version,
     let unique_id := generate_unique_id self token_id in
     unique_id <> "" ->
     Provider.needs_persistence (driver self) = true ->
     Region.get F_validate_token (PStr unique_id) (Manager.region st) = None ->
     Persistence.get_token (persistence self) unique_id (Manager.store st)
     = Ok token_ref ->
     Provider.get_token_version (driver self) token_ref = Ok version ->
     version <> V3 self -> version <> V2 self ->
     Manager.validate_token CONF self token_id belongs_to st
     = (Raise UnsupportedTokenVersionException, st)).
Proof.
  intros WB. split; [|split].
  - intros entry token_id st e st' H Hread.
    destruct (resolution_of_a_call WB _ _ _ _ _ H)
      as [(token & st1 & Hres) | (e0 & E & B & _)]; [|now inversion E; subst].
    rewrite (validation_resolved _ _ _ _ _ Hres) in H.
    destruct (Manager._token_belongs_to self token (binding entry) st1)
      as [[[]|e1] st2] eqn:S.
    + unfold concluded in H.
      destruct (Manager._is_valid_token CONF self token st2) as [[[]|e2] st3] eqn:V;
        inversion H; subst.
      apply surfaced_boundary. eapply is_valid_token_boundary; eauto.
    + inversion H; subst.
      destruct (token_belongs_to_unbound _ _ _ _ _ S) as (tenant & Hb & Hne).
      rewrite (token_belongs_to_readable _ _ _ _ _
                 (Hread tenant token st1 Hb Hne Hres) S).
      right; left; reflexivity.
  - intros token_id st e st' H.
    change (validation CONF self via_validate_v3_token token_id st = (Raise e, st')) in H.
    destruct (resolution_of_a_call WB _ _ _ _ _ H)
      as [(token & st1 & Hres) | (e0 & E & B & N)].
    + rewrite (validation_resolved _ _ _ _ _ Hres) in H.
      change (Manager._token_belongs_to self token (binding via_validate_v3_token) st1)
        with (Ok tt, st1) in H.
      unfold concluded in H.
      destruct (Manager._is_valid_token CONF self token st1) as [[[]|e2] st3] eqn:V;
        inversion H; subst.
      apply surfaced_v3. eapply is_valid_token_boundary; eauto.
    + inversion E; subst. specialize (N eq_refl).
      destruct B as [->|[->| ->]]; auto. contradiction.
  - intros token_id belongs_to st token_ref version uid Hne Hp Hmiss Hget Hv H3 H2.
    apply validate_token_unresolved. fold uid.
    apply String.eqb_neq in Hne, H3, H2.
    unfold Manager._validate_token, Manager.MEMOIZE_TOKENS, Manager._needs_persistence.
    rewrite Hmiss, Hne, Hp. unfold_monad. cbn [negb].
    now rewrite Hget, Hv, H3, H2.
Qed.


Lemma region_get_set_other f g k k' v r :
  memo_fn_eqb f g = false ->
  Region.get f k (Region.set g k' v r) = Region.get f k r.
Proof.
  intros H. cbn [Region.get Region.set]. unfold Region.same_key. cbn [fst snd].
  now rewrite H.
Qed.

Lemma region_get_set_same f (s : string) v r :
  Region.get f (PStr s) (Region.set f (PStr s) v r) = Some v.
Proof.
  cbn [Region.get Region.set]. unfold Region.same_key. cbn [fst snd Py.eqb].
  rewrite String.eqb_refl. now destruct f.
Qed.

(** C9.  Take an issuance of a current-version token that succeeds up to
    the caching step, with cache-on-issue enabled.  The three current
    validation functions are seeded with the payload under the token id.
    If synthesizing the legacy view raises [Unauthorized], the failure is
    swallowed: the issuance returns the id and the payload, and no entry of
    [_validate_v2_token] is added or changed.  If the synthesis succeeds,
    the legacy view is filed under the token id for [_validate_v2_token]. *)
Theorem legacy_view_failure_is_swallowed
  (req : issue_v3_request) (token_id : string) (token_data : pyval)
  (st st1 : Manager.state self) :
  cache_on_issue CONF = true ->
  Manager.issue_v3_token (without_cache_on_issue CONF) self req st
  = (Ok (token_id, token_data), st1) ->
  let seeded :=
    Region.set F_validate_non_persistent_token (PStr token_id) token_data
      (Region.set F_validate_token (PStr token_id) token_data
         (Region.set F_validate_v3_token (PStr token_id) token_data
            (Manager.region st1))) in
  (v3_to_v2_token self token_data token_id = Raise Unauthorized ->
   Manager.issue_v3_token CONF self req st
   = (Ok (token_id, token_data), Manager.with_region seeded st1)
   /\
   forall key,
     Region.get F_validate_v2_token key seeded
     = Region.get F_validate_v2_token key (Manager.region st1))
  /\
  (forall v2_token_data,
     v3_to_v2_token self token_data token_id = Ok v2_token_data ->
     Manager.issue_v3_token CONF self req st
     = (Ok (token_id, token_data),
        Manager.with_region
          (Region.set F_validate_v2_token (PStr token_id) v2_token_data seeded) st1)
     /\
     Region.get F_validate_v2_token (PStr token_id)
       (Region.set F_validate_v2_token (PStr token_id) v2_token_data seeded)
     = Some v2_token_data)
  /\
  (forall e,
     v3_to_v2_token self token_data token_id = Raise e ->
     e <> Unauthorized ->
     Manager.issue_v3_token CONF self req st
     = (Raise e, Manager.with_region seeded st1)).
Proof.
  intros Hc H seeded.
  assert (K : Manager.issue_v3_token CONF self req st
              = Manager.bind self
                  (Manager.try_except self
                     (Manager.bind self
                        (Manager.lift self (v3_to_v2_token self token_data token_id))
                        (fun v2 => Manager.ret self (Some v2)))
                     (fun e => match e with
                               | Unauthorized => Manager.ret self None
                               | _ => Manager.raise self e
                               end))
                  (fun v2 =>
                     Manager.bind self
                       match v2 with
                       | Some v2_token_data =>
                           Manager.update_region self
                             (Region.set F_validate_v2_token (PStr token_id)
                                v2_token_data)
                       | None => Manager.ret self tt
                       end
                       (fun _ => Manager.ret self (token_id, token_data)))
                  (Manager.with_region seeded st1)).
  { revert H. unfold Manager.issue_v3_token, Manager._needs_persistence.
    rewrite Hc. cbn [without_cache_on_issue cache_on_issue].
    unfold Manager.bind, Manager.ret, Manager.lift, Manager.update_region.
    intros H.
    repeat match type of H with
           | context [match ?x with _ => _ end] => destruct x eqn:?; try discriminate
           end;
      inversion H; subst;
      unfold Manager.try_except, Manager.raise, Manager.with_region; cbn;
      destruct (v3_to_v2_token _ _ _) as [?|[]]; reflexivity. }
  rewrite K. clear K H.
  unfold Manager.bind, Manager.try_except, Manager.lift, Manager.ret,
    Manager.update_region, Manager.raise.
  split; [|split].
  - intros V. rewrite V. split; [reflexivity|].
    intros key. subst seeded. now rewrite !region_get_set_other.
  - intros v2 V. rewrite V. split; [reflexivity|].
    apply region_get_set_same.
  - intros e V Hne. rewrite V. destruct e; congruence.
Qed.

End Properties.

(** ** The statements on the reference deployment *)

Section Reference_deployment.
Import Sample.

Lemma reference_well_behaved persist table :
  well_behaved (Demo.collaborators persist table).
Proof.
  constructor; cbn.
  - intros token_id s e. destruct (Py.dict_lookup token_id s); intros H; inversion H.
    left; reflexivity.
  - intros token e. unfold Demo.get_token_version.
    intros H. repeat (split_hyp; try discriminate).
    all: inversion H; right; right; reflexivity.
  - intros token_ref e. unfold Demo.payload_of_record.
    destruct (Py.getitem token_ref "token_data"); intros H; inversion H.
    right; left; reflexivity.
  - intros token_ref e. unfold Demo.payload_of_record.
    destruct (Py.getitem token_ref "token_data"); intros H; inversion H.
    right; left; reflexivity.
  - intros token_id e. unfold Demo.table_lookup.
    destruct (Py.dict_lookup token_id table); intros H; inversion H.
    left; reflexivity.
  - intros token token_id e. unfold Demo.legacy_view.
    intros H. repeat (split_hyp; try discriminate).
    all: inversion H; right; left; reflexivity.
  - discriminate.
  - discriminate.
  - intros values r e. destruct (existsb _ _); intros H; inversion H.
    left; reflexivity.
Qed.

(** C1, as stated, fails: token [u1] of tenant [projA] expires at midnight;
    validated at midnight for tenant [projB], both entry points raise
    [Unauthorized], not [TokenNotFound]. *)
Lemma expired_mismatching_token_is_unauthorized :
  Manager.token_expiry persistent (legacy_payload "2016-01-01T00:00:00Z" "projA")
  = Ok midnight
  /\ Manager.clock (fresh midnight) = midnight
  /\ legacy_tenant_id (legacy_payload "2016-01-01T00:00:00Z" "projA")
     = Ok (PStr "projA")
  /\ fst (Manager.validate_token conf persistent "u1" (Some "projB") (fresh midnight))
     = Raise Unauthorized
  /\ fst (Manager.validate_v2_token conf persistent "u1" (Some "projB") (fresh midnight))
     = Raise Unauthorized
  /\ fst (Manager.validate_token conf persistent "u1" (Some "projB") (fresh midnight))
     <> Raise TokenNotFound.
Proof.
  repeat split; try (vm_compute; reflexivity).
  vm_compute. discriminate.
Qed.

Lemma scope_binding_check_precedes_expiry_witness :
  Manager.validate_v2_token conf persistent "u1" (Some "projB") (fresh midnight)
  = (Raise Unauthorized,
     Manager.with_region
       [(F_validate_v2_token,
         record "u1" "v2.0" (legacy_payload "2016-01-01T00:00:00Z" "projA"),
         legacy_payload "2016-01-01T00:00:00Z" "projA")]
       (fresh midnight)).
Proof.
  refine (proj1 (scope_binding_check_precedes_expiry conf persistent)
            (via_validate_v2_token (Some "projB")) "u1"
            (legacy_payload "2016-01-01T00:00:00Z" "projA") (fresh midnight) _
            "projB" (PStr "projA") _ _ _ _ _).
  - exists (record "u1" "v2.0" (legacy_payload "2016-01-01T00:00:00Z" "projA")).
    split; vm_compute; reflexivity.
  - reflexivity.
  - discriminate.
  - reflexivity.
  - reflexivity.
Defined.

(** C2, as stated, fails: the record of [u4] declares a version that is
    neither [V2] nor [V3], and [validate_token] raises
    [UnsupportedTokenVersionException] to its caller. *)
Lemma unsupported_version_crosses_the_boundary :
  Manager.validate_token conf persistent "u4" None
    (state_of persistent midnight tokens_v4 [])
  = (Raise UnsupportedTokenVersionException,
     state_of persistent midnight tokens_v4 [])
  /\ UnsupportedTokenVersionException <> TokenNotFound
  /\ UnsupportedTokenVersionException <> Unauthorized.
Proof.
  split; [vm_compute; reflexivity|]. split; discriminate.
Qed.

Lemma validation_failures_at_the_boundary_witness :
  fst (Manager.validate_v2_token conf persistent "u1" (Some "projB") (fresh midnight))
  = Raise Unauthorized
  /\ boundary_exn Unauthorized.
Proof.
  split; [vm_compute; reflexivity|].
  refine (proj1 (validation_failures_at_the_boundary conf persistent
                   (reference_well_behaved true []))
            (via_validate_v2_token (Some "projB")) "u1" (fresh midnight) Unauthorized
            (snd (Manager.validate_v2_token conf persistent "u1" (Some "projB")
                    (fresh midnight))) _ _).
  - vm_compute. reflexivity.
  - intros tenant token st1 _ _ (token_ref & Hget & Hres).
    assert (token_ref
            = record "u1" "v2.0" (legacy_payload "2016-01-01T00:00:00Z" "projA"))
      as -> by (change (Ok (record "u1" "v2.0"
                                (legacy_payload "2016-01-01T00:00:00Z" "projA"))
                        = Ok token_ref)
                  in Hget; congruence).
    assert (token = legacy_payload "2016-01-01T00:00:00Z" "projA")
      as -> by (change (Manager._validate_v2_token persistent
                          (record "u1" "v2.0"
                             (legacy_payload "2016-01-01T00:00:00Z" "projA"))
                          (fresh midnight))
                  with (Ok (legacy_payload "2016-01-01T00:00:00Z" "projA"),
                        Manager.with_region
                          [(F_validate_v2_token,
                            record "u1" "v2.0"
                              (legacy_payload "2016-01-01T00:00:00Z" "projA"),
                            legacy_payload "2016-01-01T00:00:00Z" "projA")]
                          (fresh midnight)) in Hres; congruence).
    exists (PDict [("token",
                    PDict [("id", PStr "u1");
                           ("expires", PStr "2016-01-01T00:00:00Z");
                           ("audit_id", PStr "audit-u1");
                           ("tenant", PDict [("id", PStr "projA")])]);
                   ("user", PDict [("id", PStr "alice")])]),
           (PDict [("id", PStr "u1");
                   ("expires", PStr "2016-01-01T00:00:00Z");
                   ("audit_id", PStr "audit-u1");
                   ("tenant", PDict [("id", PStr "projA")])]),
           true.
    split; [reflexivity|]. split; [reflexivity|]. split; [reflexivity|].
    intros _. exists (PDict [("id", PStr "projA")]), (PStr "projA").
    split; reflexivity.
Defined.

(** C3, as stated, fails: the region answers for [u1], a token of tenant
    [projA] that expires at midnight and whose audit id has been revoked.
    One second before midnight the token is unexpired, yet validating it
    for tenant [projB] raises [Unauthorized] and leaves the state as it
    was: no query was put to the revocation API.  Validated without a
    tenant, the same token is checked and found revoked. *)
Lemma unexpired_token_of_another_tenant_is_not_checked :
  Region.get F_validate_token (PStr "u1") (Manager.region (stale before_midnight))
  = Some (legacy_payload "2016-01-01T00:00:00Z" "projA")
  /\ Manager.token_expiry persistent (legacy_payload "2016-01-01T00:00:00Z" "projA")
     = Ok midnight
  /\ (Manager.clock (stale before_midnight) < midnight)%Z
  /\ Manager.validate_token conf persistent "u1" (Some "projB") (stale before_midnight)
     = (Raise Unauthorized, stale before_midnight)
  /\ Manager.queries (stale before_midnight) = []
  /\ Manager.validate_token conf persistent "u1" None (stale before_midnight)
     = (Raise TokenNotFound,
        Manager.with_query (PStr "audit-u1") (stale before_midnight)).
Proof.
  repeat split; vm_compute; reflexivity.
Qed.

Lemma revocation_check_gated_by_expiry_not_by_cache_witness :
  Manager.validate_v2_token conf persistent "u1" (Some "projA")
    (Manager.with_region
       [(F_validate_v2_token,
         record "u1" "v2.0" (legacy_payload "2016-01-01T00:00:00Z" "projA"),
         legacy_payload "2016-01-01T00:00:00Z" "projA")]
       (state_of persistent before_midnight tokens_u1 [PStr "audit-u1"]))
  = (Raise TokenNotFound,
     Manager.with_query (PStr "audit-u1")
       (Manager.with_region
          [(F_validate_v2_token,
            record "u1" "v2.0" (legacy_payload "2016-01-01T00:00:00Z" "projA"),
            legacy_payload "2016-01-01T00:00:00Z" "projA")]
          (state_of persistent before_midnight tokens_u1 [PStr "audit-u1"]))).
Proof.
  refine (proj1 (proj1 (proj2 (revocation_check_gated_by_expiry_not_by_cache
                                 conf persistent))
                   (via_validate_v2_token (Some "projA")) "u1"
                   (legacy_payload "2016-01-01T00:00:00Z" "projA")
                   (Manager.with_region
                      [(F_validate_v2_token,
                        record "u1" "v2.0"
                          (legacy_payload "2016-01-01T00:00:00Z" "projA"),
                        legacy_payload "2016-01-01T00:00:00Z" "projA")]
                      (state_of persistent before_midnight tokens_u1
                         [PStr "audit-u1"])) _ _)
            (PStr "audit-u1") _ _).
  - exists (record "u1" "v2.0" (legacy_payload "2016-01-01T00:00:00Z" "projA")).
    split; vm_compute; reflexivity.
  - vm_compute. reflexivity.
  - exists midnight. split; [reflexivity|]. vm_compute. reflexivity.
  - vm_compute. reflexivity.
Defined.

(** C4, as stated, fails: at midnight token [u1] of tenant [projA] has
    expired; validated for tenant [projB] it raises [Unauthorized], while an
    id with no token behind it raises [TokenNotFound]: the caller can tell
    the expired token from an absent one. *)
Lemma expired_token_is_told_from_an_absent_one :
  Manager.token_expiry persistent (legacy_payload "2016-01-01T00:00:00Z" "projA")
  = Ok midnight
  /\ (midnight <= Manager.clock (fresh midnight))%Z
  /\ fst (Manager.validate_v2_token conf persistent "u1" (Some "projB") (fresh midnight))
     = Raise Unauthorized
  /\ fst (Manager.validate_v2_token conf persistent "u0" (Some "projB") (fresh midnight))
     = Raise TokenNotFound
  /\ fst (Manager.validate_v2_token conf persistent "u1" (Some "projB") (fresh midnight))
     <> Raise TokenNotFound.
Proof.
  repeat split; try (vm_compute; reflexivity); vm_compute; discriminate.
Qed.

Lemma expiry_boundary_witness :
  Manager.validate_v2_token conf persistent "u1" (Some "projA") (fresh midnight)
  = (Raise TokenNotFound,
     Manager.with_region
       [(F_validate_v2_token,
         record "u1" "v2.0" (legacy_payload "2016-01-01T00:00:00Z" "projA"),
         legacy_payload "2016-01-01T00:00:00Z" "projA")]
       (fresh midnight))
  /\
  Manager.validate_v2_token conf persistent "u1" (Some "projA") (fresh before_midnight)
  = (Ok (legacy_payload "2016-01-01T00:00:00Z" "projA"),
     Manager.with_query (PStr "audit-u1")
       (Manager.with_region
          [(F_validate_v2_token,
            record "u1" "v2.0" (legacy_payload "2016-01-01T00:00:00Z" "projA"),
            legacy_payload "2016-01-01T00:00:00Z" "projA")]
          (fresh before_midnight))).
Proof.
  split.
  - refine (proj1 (proj1 (expiry_boundary conf persistent)
                     (via_validate_v2_token (Some "projA")) "u1"
                     (legacy_payload "2016-01-01T00:00:00Z" "projA") midnight
                     (fresh midnight) _ _ _ _) _).
    + exists (record "u1" "v2.0" (legacy_payload "2016-01-01T00:00:00Z" "projA")).
      split; vm_compute; reflexivity.
    + vm_compute. reflexivity.
    + reflexivity.
    + vm_compute. discriminate.
  - refine (proj1 (proj2 (proj1 (expiry_boundary conf persistent)
                     (via_validate_v2_token (Some "projA")) "u1"
                     (legacy_payload "2016-01-01T00:00:00Z" "projA") midnight
                     (fresh before_midnight)
                     (Manager.with_region
                        [(F_validate_v2_token,
                          record "u1" "v2.0"
                            (legacy_payload "2016-01-01T00:00:00Z" "projA"),
                          legacy_payload "2016-01-01T00:00:00Z" "projA")]
                        (fresh before_midnight)) _ _ _)) _).
    + exists (record "u1" "v2.0" (legacy_payload "2016-01-01T00:00:00Z" "projA")).
      split; vm_compute; reflexivity.
    + vm_compute. reflexivity.
    + reflexivity.
    + vm_compute. reflexivity.
Defined.

Lemma duplicate_create_is_not_an_error_witness :
  Manager._create_token persistent "u1" data_u1 (fresh midnight)
  = (Ok tt, fresh midnight).
Proof.
  refine (proj1 (duplicate_create_is_not_an_error persistent "u1" data_u1
                   (PDict [("key", PStr "u1"); ("id", PStr "u1");
                           ("expires", PTime 20160101000000);
                           ("user", PDict [("id", PStr "alice")]);
                           ("token_version", PStr "v3.0")])
                   Conflict (fresh midnight) _ _)
            (record "u1" "v2.0" (legacy_payload "2016-01-01T00:00:00Z" "projA")) _).
  - reflexivity.
  - vm_compute. reflexivity.
  - vm_compute. reflexivity.
Defined.

(** C6 on the code: the store holds the record of [u1]; validated through
    [validate_v2_token], the payload is filed for [_validate_v2_token] under
    the record that was fetched, and nothing is filed under the unique id.
    So [invalidate_individual_token_cache], which drops what is filed under
    the id, leaves the entry in place, and an entry that issuance filed
    under the id is not what the next validation reads: the driver is asked
    again.  [validate_v3_token] does the same with [_validate_v3_token]. *)
Lemma fetched_record_is_the_memoization_key :
  generate_unique_id persistent "u1" = "u1"
  /\ Manager.validate_v2_token conf persistent "u1" None (fresh before_midnight)
     = (Ok (legacy_payload "2016-01-01T00:00:00Z" "projA"),
        Manager.with_query (PStr "audit-u1")
          (Manager.with_region
             [(F_validate_v2_token,
               record "u1" "v2.0" (legacy_payload "2016-01-01T00:00:00Z" "projA"),
               legacy_payload "2016-01-01T00:00:00Z" "projA")]
             (fresh before_midnight)))
  /\ Region.get F_validate_v2_token (PStr "u1")
       (Manager.region
          (snd (Manager.validate_v2_token conf persistent "u1" None
                  (fresh before_midnight))))
     = None
  /\ Manager.region
       (snd (Manager.invalidate_individual_token_cache persistent "u1"
               (snd (Manager.validate_v2_token conf persistent "u1" None
                       (fresh before_midnight)))))
     = [(F_validate_v2_token,
         record "u1" "v2.0" (legacy_payload "2016-01-01T00:00:00Z" "projA"),
         legacy_payload "2016-01-01T00:00:00Z" "projA")]
  /\ Manager.validate_v2_token conf persistent "u1" None
       (Manager.with_region
          [(F_validate_v2_token, PStr "u1", PDict [("seeded", PBool true)])]
          (fresh before_midnight))
     = (Ok (legacy_payload "2016-01-01T00:00:00Z" "projA"),
        Manager.with_query (PStr "audit-u1")
          (Manager.with_region
             [(F_validate_v2_token,
               record "u1" "v2.0" (legacy_payload "2016-01-01T00:00:00Z" "projA"),
               legacy_payload "2016-01-01T00:00:00Z" "projA");
              (F_validate_v2_token, PStr "u1", PDict [("seeded", PBool true)])]
             (fresh before_midnight)))
  /\ Manager.region
       (snd (Manager.validate_v3_token conf persistent "f1"
               (state_of persistent before_midnight
                  [("f1", record "f1" "v3.0" (current_payload "2016-01-01T00:00:00Z"))]
                  [])))
     = [(F_validate_v3_token,
         record "f1" "v3.0" (current_payload "2016-01-01T00:00:00Z"),
         current_payload "2016-01-01T00:00:00Z")].
Proof.
  repeat split; vm_compute; reflexivity.
Qed.

(** C7, as stated, fails: with cache-on-issue and revoke-by-id both
    enabled, a callback whose deletion fails, here because the store
    refuses to delete, or whose event cannot be read, raises and leaves the
    region as it was, entry included; with revoke-by-id disabled the same
    event empties the region. *)
Lemma failed_deletion_keeps_the_region :
  cache_on_issue conf = true
  /\ revoke_by_id conf = true
  /\ Manager.callback conf read_only Manager.delete_user_tokens alice_disabled
       (cached_u1_read_only midnight)
     = (Raise (BackendError "read-only"), cached_u1_read_only midnight)
  /\ Manager.callback conf persistent Manager.delete_user_tokens (PDict [])
       (cached_u1 midnight)
     = (Raise KeyError, cached_u1 midnight)
  /\ Manager.region (cached_u1 midnight)
     <> Region.invalidate (Manager.region (cached_u1 midnight))
  /\ Manager.callback conf_cache_only read_only Manager.delete_user_tokens
       alice_disabled (cached_u1_read_only midnight)
     = (Ok tt, Manager.with_region [] (cached_u1_read_only midnight)).
Proof.
  repeat split; try (vm_compute; reflexivity). vm_compute. discriminate.
Qed.

Lemma callbacks_delete_by_id_and_invalidate_region_witness :
  Manager.callback conf persistent Manager.delete_user_tokens alice_disabled
    (cached_u1 midnight)
  = (Ok tt, state_of persistent midnight [] [])
  /\ Manager.store (state_of persistent midnight [] []) = []
  /\ Manager.region (state_of persistent midnight [] [])
     = Region.invalidate (Manager.region (cached_u1 midnight)).
Proof.
  assert (H : Manager.callback conf persistent Manager.delete_user_tokens
                alice_disabled (cached_u1 midnight)
              = (Ok tt, state_of persistent midnight [] []))
    by (vm_compute; reflexivity).
  split; [exact H|].
  pose proof (callbacks_delete_by_id_and_invalidate_region conf persistent
                Manager.delete_user_tokens alice_disabled
                (cached_u1 midnight)
                (state_of persistent midnight [] []) (Ok tt) H)
    as (_ & _ & Hon & Hregion & _).
  split.
  - exact (proj2 (Hon eq_refl)).
  - exact (Hregion eq_refl).
Defined.

(** C8, as stated, fails: the record of [u4] declares a version that is
    neither [V2] nor [V3], and the record of [u5] is a legacy record the
    driver refuses; revoking either raises what the validation raised,
    [UnsupportedTokenVersionException] and [Unauthorized], not
    [TokenNotFound].  The state is left as it was. *)
Lemma revoking_an_unsupported_token_is_not_not_found :
  Manager.revoke_token conf persistent "u4" false
    (state_of persistent midnight tokens_v4 [])
  = (Raise UnsupportedTokenVersionException,
     state_of persistent midnight tokens_v4 [])
  /\ Manager.revoke_token conf persistent "u5" false
       (state_of persistent midnight tokens_u5 [])
     = (Raise Unauthorized, state_of persistent midnight tokens_u5 [])
  /\ UnsupportedTokenVersionException <> TokenNotFound
  /\ Unauthorized <> TokenNotFound.
Proof.
  repeat split; try (vm_compute; reflexivity); discriminate.
Qed.

Lemma revoke_token_validates_first_witness :
  exists st',
    Manager.revoke_token conf persistent "u1" false (fresh midnight)
    = (Raise TokenNotFound, st')
    /\ Manager.store st' = Manager.store (fresh midnight)
    /\ Manager.registry st' = Manager.registry (fresh midnight).
Proof.
  refine (proj1 (proj2 (revoke_token_validates_first conf persistent "u1" false
                          (fresh midnight))) _).
  refine (expired conf persistent "u1" (fresh midnight)
            (legacy_payload "2016-01-01T00:00:00Z" "projA")
            (Manager.with_region
               [(F_validate_token, PStr "u1",
                 legacy_payload "2016-01-01T00:00:00Z" "projA")]
               (fresh midnight))
            midnight _ _ _).
  - vm_compute. reflexivity.
  - reflexivity.
  - cbn. lia.
Defined.

Lemma legacy_view_failure_is_swallowed_witness :
  fst (Manager.issue_v3_token conf persistent trust_request
         (state_of persistent midnight [] []))
  = fst (Manager.issue_v3_token (without_cache_on_issue conf) persistent
           trust_request (state_of persistent midnight [] []))
  /\
  Region.get F_validate_v2_token (PStr "gAAAAAB-issued")
    (Manager.region
       (snd (Manager.issue_v3_token conf persistent trust_request
               (state_of persistent midnight [] []))))
  = None.
Proof.
  set (st := state_of persistent midnight [] []).
  set (out := Manager.issue_v3_token (without_cache_on_issue conf) persistent
                trust_request st).
  destruct (legacy_view_failure_is_swallowed conf persistent trust_request
              "gAAAAAB-issued"
              (match fst out with Ok p => snd p | Raise _ => PNone end)
              st (snd out) eq_refl)
    as ((Hissue & Hcold) & _).
  - vm_compute. reflexivity.
  - vm_compute. reflexivity.
  - rewrite Hissue. cbn [fst snd]. split.
    + vm_compute. reflexivity.
    + cbn [Manager.region Manager.with_region]. rewrite Hcold.
      vm_compute. reflexivity.
Defined.

End Reference_deployment.

(** * Further properties *)

(** ** Identifiers *)

Section Identifiers.
Import Base64.

Ltac ndiv := zify; Z.to_euclidean_division_equations; lia.

Lemma url_safe_table :
  forallb (fun n => Text.url_safe (urlsafe_encode_translation (sextet_char n)))
    (map N.of_nat (seq 0 64)) = true.
Proof. vm_compute. reflexivity. Qed.

Lemma url_safe_sextet (n : N) :
  (n < 64)%N -> Text.url_safe (urlsafe_encode_translation (sextet_char n)) = true.
Proof.
  intros Hn. pose proof url_safe_table as T.
  rewrite forallb_forall in T. apply T.
  apply in_map_iff. exists (N.to_nat n). split; [apply N2Nat.id|].
  apply in_seq. lia.
Qed.

Lemma url_safe_not_pad c : Text.url_safe c = true -> Ascii.eqb c pad = false.
Proof.
  intros H. destruct (Ascii.eqb_spec c pad) as [->|]; [|reflexivity].
  vm_compute in H. discriminate.
Qed.

(** The number of padding characters behind the encoding of [n] bytes. *)
Lemma rstrip_pad_app (body : list ascii) (k : nat) :
  Forall (fun c => Text.url_safe c = true) body ->
  Text.rstrip_pad (body ++ repeat pad k) = body.
Proof.
  intros Hb. unfold Text.rstrip_pad. rewrite rev_app_distr, rev_repeat.
  assert (D : forall l, Text.drop_while (fun c => Ascii.eqb c pad) (repeat pad k ++ l)
                        = Text.drop_while (fun c => Ascii.eqb c pad) l).
  { intros l. induction k as [|k IH]; [reflexivity|]. cbn. exact IH. }
  rewrite D.
  assert (E : Text.drop_while (fun c => Ascii.eqb c pad) (rev body) = rev body).
  { destruct (rev body) as [|c l] eqn:R; [reflexivity|].
    cbn. rewrite url_safe_not_pad; [reflexivity|].
    rewrite Forall_forall in Hb. apply Hb. apply in_rev. rewrite R. now left. }
  rewrite E. apply rev_involutive.
Qed.

(** The encoding of a byte string: unpadded characters of the URL-safe
    alphabet, then the padding. *)
Lemma urlsafe_b64encode_shape bs :
  exists body,
    urlsafe_b64encode bs = body ++ repeat pad ((3 - length bs mod 3) mod 3)
    /\ Forall (fun c => Text.url_safe c = true) body
    /\ length body = ((4 * length bs + 2) / 3)%nat.
Proof.
  induction bs as [| a | a b | a b c rest IH] using bytes_ind3.
  - exists []. repeat split. constructor.
  - pose proof (to_N_lt a).
    exists [urlsafe_encode_translation (sextet_char (Byte.to_N a * 16 / 64));
            urlsafe_encode_translation (sextet_char ((Byte.to_N a * 16) mod 64))].
    repeat split. repeat constructor; apply url_safe_sextet; ndiv.
  - pose proof (to_N_lt a). pose proof (to_N_lt b).
    eexists [_; _; _]. split; [reflexivity|]. split; [|reflexivity].
    repeat constructor; apply url_safe_sextet; ndiv.
  - destruct IH as (body & E & F & L).
    pose proof (to_N_lt a). pose proof (to_N_lt b). pose proof (to_N_lt c).
    exists (map urlsafe_encode_translation (enc3 a b c) ++ body).
    split; [|split].
    + unfold urlsafe_b64encode in *.
      change (b64encode (a :: b :: c :: rest)) with (enc3 a b c ++ b64encode rest).
      rewrite map_app, E, <- app_assoc. do 2 f_equal.
      cbn [length]. f_equal.
      replace (S (S (S (length rest)))) with (length rest + 1 * 3)%nat by lia.
      now rewrite Nat.Div0.mod_add.
    + apply Forall_app. split; [|assumption].
      cbn [enc3 map]. repeat constructor; apply url_safe_sextet; ndiv.
    + rewrite length_app, L. cbn [enc3 map length].
      replace (4 * S (S (S (length rest))) + 2)%nat
        with (4 * length rest + 2 + 4 * 3)%nat by lia.
      rewrite Nat.div_add by lia. lia.
Qed.


(** X1.  [base64_encode] returns the unpadded URL-safe encoding: every
    character is a letter, a digit, [-] or [_] (so no [=] is left), there
    are [ceil(4n/3)] of them for [n] bytes, and putting the padding back
    gives a string that decodes to the bytes. *)
Theorem base64_encode_unpadded (bs : list byte) :
  Forall (fun c => Text.url_safe c = true) (list_ascii_of_string (base64_encode bs))
  /\ String.length (base64_encode bs) = ((4 * length bs + 2) / 3)%nat
  /\ urlsafe_b64decode
       (list_ascii_of_string (base64_encode bs)
        ++ repeat pad ((3 - length bs mod 3) mod 3))
     = Some bs.
Proof.
  destruct (urlsafe_b64encode_shape bs) as (body & E & F & L).
  unfold base64_encode. rewrite E, rstrip_pad_app by assumption.
  rewrite list_ascii_of_string_of_list_ascii.
  split; [assumption|]. split.
  - rewrite <- L. clear. induction body as [|c l IH]; [reflexivity|].
    cbn [string_of_list_ascii String.length length]. now rewrite IH.
  - rewrite <- E. apply urlsafe_b64decode_urlsafe_b64encode.
Qed.

Lemma random_urlsafe_str_body (b : list byte) :
  length b = 16%nat ->
  exists body,
    urlsafe_b64encode b = body ++ [pad; pad]
    /\ Forall (fun c => Text.url_safe c = true) body
    /\ random_urlsafe_str b = string_of_list_ascii body.
Proof.
  intros L. destruct (urlsafe_b64encode_shape b) as (body & E & F & _).
  rewrite L in E. change ((3 - 16 mod 3) mod 3)%nat with 2%nat in E.
  cbn [repeat] in E.
  exists body. split; [assumption|]. split; [assumption|].
  unfold random_urlsafe_str. now rewrite E, chop2_app2.
Qed.

(** X2.  On the sixteen bytes of a UUID, chopping the last two characters
    and stripping the padding are the same thing: [random_urlsafe_str]
    returns what [base64_encode] returns for the same bytes. *)
Theorem random_urlsafe_str_is_base64_encode (b : list byte) :
  length b = 16%nat -> random_urlsafe_str b = base64_encode b.
Proof.
  intros L. destruct (random_urlsafe_str_body b L) as (body & E & F & R).
  rewrite R. unfold base64_encode. rewrite E.
  change [pad; pad] with (repeat pad 2). now rewrite rstrip_pad_app.
Qed.

Lemma random_urlsafe_str_is_base64_encode_witness :
  random_urlsafe_str [x00;x01;x02;xff;xfe;xfd;x10;x20;x30;x40;x50;x60;x70;x80;x90;xa0]
  = base64_encode [x00;x01;x02;xff;xfe;xfd;x10;x20;x30;x40;x50;x60;x70;x80;x90;xa0].
Proof.
  apply random_urlsafe_str_is_base64_encode. reflexivity.
Defined.

Lemma random_urlsafe_str_decodes (b : list byte) :
  length b = 16%nat ->
  random_urlsafe_str_to_bytes (random_urlsafe_str b) = Some b.
Proof.
  intros L. destruct (random_urlsafe_str_body b L) as (body & E & _ & R).
  unfold random_urlsafe_str_to_bytes. rewrite R.
  rewrite list_ascii_of_string_app, list_ascii_of_string_of_list_ascii.
  change (list_ascii_of_string "==") with [pad; pad].
  rewrite <- E. apply urlsafe_b64decode_urlsafe_b64encode.
Qed.

(** X3.  The identifiers [random_urlsafe_str] builds are URL-safe, and two
    different UUIDs never give the same identifier. *)
Theorem random_urlsafe_str_url_safe_and_injective (a b : list byte) :
  length a = 16%nat -> length b = 16%nat ->
  Forall (fun c => Text.url_safe c = true)
    (list_ascii_of_string (random_urlsafe_str a))
  /\ (random_urlsafe_str a = random_urlsafe_str b -> a = b).
Proof.
  intros La Lb. split.
  - destruct (random_urlsafe_str_body a La) as (body & _ & F & R).
    now rewrite R, list_ascii_of_string_of_list_ascii.
  - intros E. pose proof (random_urlsafe_str_decodes a La) as Da.
    rewrite E, (random_urlsafe_str_decodes b Lb) in Da. now inversion Da.
Qed.

Lemma random_urlsafe_str_url_safe_and_injective_witness :
  Forall (fun c => Text.url_safe c = true)
    (list_ascii_of_string
       (random_urlsafe_str
          [x00;x01;x02;xff;xfe;xfd;x10;x20;x30;x40;x50;x60;x70;x80;x90;xa0])).
Proof.
  apply (random_urlsafe_str_url_safe_and_injective
           [x00;x01;x02;xff;xfe;xfd;x10;x20;x30;x40;x50;x60;x70;x80;x90;xa0]
           [x00;x01;x02;xff;xfe;xfd;x10;x20;x30;x40;x50;x60;x70;x80;x90;xa1]);
    reflexivity.
Defined.

(** X4.  [audit_info] returns one element without a parent and two with
    one; the parent is the element of index 1, unchanged; the element of
    index 0 is a fresh identifier of twenty-two characters from which the
    UUID can be read back. *)
Theorem audit_info_shape (uuid_bytes : list byte) (parent_audit_id : pyval) :
  length uuid_bytes = 16%nat ->
  exists audit_id,
    String.length audit_id = 22%nat
    /\ random_urlsafe_str_to_bytes audit_id = Some uuid_bytes
    /\ nth_error (audit_info uuid_bytes parent_audit_id) 0 = Some (PStr audit_id)
    /\ (parent_audit_id = PNone ->
        audit_info uuid_bytes parent_audit_id = [PStr audit_id])
    /\ (parent_audit_id <> PNone ->
        audit_info uuid_bytes parent_audit_id = [PStr audit_id; parent_audit_id]
        /\ nth_error (audit_info uuid_bytes parent_audit_id) 1 = Some parent_audit_id).
Proof.
  intros L. exists (random_urlsafe_str uuid_bytes).
  split; [|split; [now apply random_urlsafe_str_decodes|]].
  - destruct (random_urlsafe_str_body _ L) as (body & E & _ & R).
    rewrite R.
    assert (Lb : length body = 22%nat).
    { apply (f_equal (@length ascii)) in E. rewrite length_app in E.
      destruct (b64encode_16_tail _ L) as (body' & L' & E').
      rewrite E' in E. rewrite length_app in E. cbn [length] in E. lia. }
    rewrite <- Lb. clear. induction body as [|c l IH]; [reflexivity|].
    cbn [string_of_list_ascii String.length length]. now rewrite IH.
  - unfold audit_info. destruct parent_audit_id; repeat split; congruence.
Qed.

Lemma audit_info_shape_witness :
  exists audit_id,
    String.length audit_id = 22%nat
    /\ random_urlsafe_str_to_bytes audit_id
       = Some [x00;x01;x02;xff;xfe;xfd;x10;x20;x30;x40;x50;x60;x70;x80;x90;xa0]
    /\ audit_info [x00;x01;x02;xff;xfe;xfd;x10;x20;x30;x40;x50;x60;x70;x80;x90;xa0]
         (PStr "parent")
       = [PStr audit_id; PStr "parent"].
Proof.
  destruct (audit_info_shape
              [x00;x01;x02;xff;xfe;xfd;x10;x20;x30;x40;x50;x60;x70;x80;x90;xa0]
              (PStr "parent") eq_refl)
    as (audit_id & Hl & Hd & _ & _ & Hp).
  exists audit_id. split; [exact Hl|]. split; [exact Hd|].
  apply Hp. discriminate.
Defined.

End Identifiers.

(** ** Expiry of a fresh token *)

(** X5.  For a current time in the range of [datetime],
    [default_expire_time] fails exactly when the current time plus the
    configured lifetime falls out of that range.  Otherwise the result has
    no microseconds, is never later than the current time plus the lifetime
    and less than a second earlier; with a lifetime of at least one second
    it lies strictly after the current time, and with a lifetime of zero it
    does not. *)
Theorem default_expire_time_truncates (expiration utcnow : Z) :
  (0 <= utcnow < datetime_end)%Z ->
  (default_expire_time expiration utcnow = None <->
   ~ (0 <= utcnow + expiration * 1000000 < datetime_end)%Z)
  /\
  (forall expires_at,
     default_expire_time expiration utcnow = Some expires_at ->
     (expires_at mod 1000000 = 0)%Z
     /\ (expires_at <= utcnow + expiration * 1000000 < expires_at + 1000000)%Z
     /\ (0 <= expires_at < datetime_end)%Z
     /\ (1 <= expiration -> utcnow < expires_at)%Z
     /\ (expiration = 0 -> expires_at <= utcnow)%Z).
Proof.
  intros Hnow. unfold default_expire_time.
  set (t := (utcnow + expiration * 1000000)%Z).
  destruct (Z.leb_spec 0 t) as [H0|H0], (Z.ltb_spec t datetime_end) as [H1|H1];
    cbn [andb].
  2-4: (split; [split; [intros _; lia | reflexivity] | discriminate]).
  split; [split; [discriminate | intros H; lia]|].
  intros expires_at [= <-].
  pose proof (Z.mod_pos_bound t 1000000 ltac:(lia)) as B.
  pose proof (Z.div_mod t 1000000 ltac:(lia)) as D.
  split; [|split; [|split; [|split]]].
  - replace (t - t mod 1000000)%Z with (t / 1000000 * 1000000)%Z by lia.
    apply Z.mod_mul. lia.
  - lia.
  - lia.
  - intros He. subst t. lia.
  - intros He. subst t. lia.
Qed.

Lemma default_expire_time_truncates_witness :
  default_expire_time 3600 63587682000123456 = None <->
  ~ (0 <= 63587682000123456 + 3600 * 1000000 < datetime_end)%Z.
Proof.
  apply (default_expire_time_truncates 3600 63587682000123456).
  unfold datetime_end. lia.
Defined.

Example default_expire_time_one_hour :
  default_expire_time 3600 63587682000123456 = Some 63587685600000000%Z.
Proof. reflexivity. Qed.

(** ** Validation, issuance and revocation *)

Ltac unfold_manager :=
  unfold Manager.bind, Manager.ret, Manager.raise, Manager.lift,
    Manager.try_except, Manager.read_store, Manager.write_store,
    Manager.write_registry, Manager.update_region in *.

Section More_properties.

Variable CONF : Config.
Variable self : Collaborators.

(** X6.  A payload without a readable expiry is not found, and the
    revocation API is not asked: a payload that is not a dictionary, one
    with neither a [token] nor an [access] section, one whose section is
    not a dictionary, and one whose expiry does not parse. *)
Theorem malformed_payload_is_not_found (token : pyval) (st : Manager.state self) :
  ((forall d, token <> PDict d)
   \/ (exists d, token = PDict d /\ Py.dict_lookup "token" d = None
                 /\ Py.dict_lookup "access" d = None)
   \/ (exists d section, token = PDict d /\ Py.dict_lookup "token" d = Some section
                         /\ forall td, section <> PDict td)
   \/ (exists d td e, token = PDict d /\ Py.dict_lookup "token" d = Some (PDict td)
                      /\ Py.dict_lookup "expires_at" td = Some e
                      /\ Py.truthy e = true
                      /\ exists x, parse_isotime self e = Raise x)) ->
  Manager._is_valid_token CONF self token st = (Raise TokenNotFound, st).
Proof.
  intros H. unfold Manager._is_valid_token.
  assert (E : exists x, Manager.token_expiry self token = Raise x);
    [|destruct E as (x & ->); reflexivity].
  unfold Manager.token_expiry, rbind, Py.get.
  destruct H as [H|[(d & -> & Ht & Ha)|[(d & section & -> & Ht & Hs)
                 |(d & td & e & -> & Ht & He & Htr & x & Hx)]]].
  - destruct token; eauto. exfalso. eapply H; eauto.
  - rewrite Ha, Ht. eauto.
  - rewrite Ht. destruct (Py.dict_lookup "access" d);
      destruct section; eauto; exfalso; eapply Hs; eauto.
  - rewrite Ht. destruct (Py.dict_lookup "access" d);
      rewrite He; destruct (Py.dict_lookup "expires" td); rewrite Htr; cbn [negb];
      rewrite Hx; eauto.
Qed.


(** X7.  The scope-binding check.  Without [belongs_to], or with an empty
    one, nothing is checked, whatever the payload.  With a non-empty one, a
    legacy payload passes exactly when its tenant id is that text; a
    legacy payload without a tenant is unauthorized. *)
Theorem token_belongs_to_decides (token : pyval) (st : Manager.state self) :
  Manager._token_belongs_to self token None st = (Ok tt, st)
  /\ Manager._token_belongs_to self token (Some "") st = (Ok tt, st)
  /\ (forall tenant tenant_id,
        tenant <> "" ->
        legacy_tenant_id token = Ok tenant_id ->
        Manager._token_belongs_to self token (Some tenant) st
        = (if Py.eq_str tenant_id tenant then Ok tt else Raise Unauthorized, st))
  /\ (forall tenant access d,
        tenant <> "" ->
        Py.getitem token "access" = Ok access ->
        Py.getitem access "token" = Ok (PDict d) ->
        Py.dict_lookup "tenant" d = None ->
        Manager._token_belongs_to self token (Some tenant) st
        = (Raise Unauthorized, st)).
Proof.
  split; [reflexivity|]. split; [reflexivity|]. split.
  - intros tenant tenant_id Hne Hid.
    apply String.eqb_neq in Hne.
    unfold Manager._token_belongs_to. rewrite Hne. cbn [negb].
    unfold legacy_tenant_id, rbind in Hid. unfold_manager.
    destruct (Py.getitem token "access") as [access|]; [|discriminate].
    destruct (Py.getitem access "token") as [token_data|]; [|discriminate].
    destruct (Py.getitem token_data "tenant") as [tenant_ref|] eqn:Ht; [|discriminate].
    assert (Hc : Py.contains "tenant" token_data = Ok true).
    { destruct token_data; try discriminate. cbn in *.
      destruct (Py.dict_lookup "tenant" d); [reflexivity | discriminate]. }
    rewrite Hc. cbn [negb]. rewrite Hid.
    destruct (Py.eq_str tenant_id tenant); reflexivity.
  - intros tenant access d Hne Ha Ht Hd.
    apply String.eqb_neq in Hne.
    unfold Manager._token_belongs_to. rewrite Hne. cbn [negb].
    unfold_manager. rewrite Ha, Ht. cbn [Py.contains]. rewrite Hd. reflexivity.
Qed.

Lemma dict_lookup_set_same k v d :
  Py.dict_lookup k (Py.dict_set k v d) = Some v.
Proof.
  induction d as [|[k' v'] d IH]; cbn.
  - now rewrite String.eqb_refl.
  - destruct (String.eqb k k') eqn:E; cbn; rewrite ?String.eqb_refl, ?E; auto.
Qed.

Lemma dict_lookup_set_other k k' v d :
  k' <> k -> Py.dict_lookup k' (Py.dict_set k v d) = Py.dict_lookup k' d.
Proof.
  intros Hne. induction d as [|[k0 v0] d IH]; cbn.
  - apply String.eqb_neq in Hne. now rewrite Hne.
  - destruct (String.eqb k k0) eqn:E; cbn.
    + apply String.eqb_eq in E. subst k0.
      apply String.eqb_neq in Hne. now rewrite Hne.
    + now rewrite IH.
Qed.

(** X8.  What [_create_token] writes carries no textual [expires]: a text
    is replaced by the time it denotes and every other key keeps its value;
    a record without an [expires] key, or with a text that does not parse,
    is not normalized at all.  Normalizing twice changes nothing more. *)
Theorem normalize_expires_replaces_text (token_data : pyval) :
  (forall record,
     Manager.normalize_expires self token_data = Ok record ->
     (exists expires, Py.getitem record "expires" = Ok expires
                      /\ Py.is_string expires = false)
     /\ (forall k, k <> "expires" -> Py.getitem record k = Py.getitem token_data k)
     /\ (forall s, Py.getitem token_data "expires" = Ok (PStr s) ->
                   exists t, parse_isotime self (PStr s) = Ok t
                             /\ Py.getitem record "expires" = Ok (PTime t))
     /\ Manager.normalize_expires self record = Ok record)
  /\ (forall e, Py.getitem token_data "expires" = Raise e ->
                Manager.normalize_expires self token_data = Raise e)
  /\ (forall s e, Py.getitem token_data "expires" = Ok (PStr s) ->
                  parse_isotime self (PStr s) = Raise e ->
                  Manager.normalize_expires self token_data = Raise e).
Proof.
  unfold Manager.normalize_expires, rbind.
  split; [|split].
  - intros record H.
    destruct (Py.getitem token_data "expires") as [expires|] eqn:G; [|discriminate].
    destruct (Py.is_string expires) eqn:S.
    + destruct expires; try discriminate.
      destruct (parse_isotime self (PStr s)) as [t|] eqn:P; [|discriminate].
      destruct token_data as [| | | | | |d]; try discriminate.
      inversion H; subst record; clear H.
      cbn [Py.getitem]. rewrite dict_lookup_set_same.
      split; [eexists; split; reflexivity|].
      split; [intros k Hk; now rewrite dict_lookup_set_other|].
      split.
      * intros s' [= <-]. exists t. split; [exact P | reflexivity].
      * reflexivity.
    + inversion H; subst record; clear H.
      rewrite G, S.
      split; [eauto|]. split; [reflexivity|]. split; [|reflexivity].
      intros s [= ->]. discriminate.
  - intros e G. now rewrite G.
  - intros s e G P. rewrite G. cbn [Py.is_string]. now rewrite P.
Qed.

(** X9.  [_create_token] changes the store only by a create that succeeded,
    and then returns normally; in every other case the store, and the whole
    state, is as it was.  In particular a record that cannot be normalized
    is never written, yet the call returns normally when the store already
    holds a record under the token id. *)
Theorem create_token_writes_only_on_success
  (token_id : string) (token_data : pyval) (st : Manager.state self) :
  (forall r st',
     Manager._create_token self token_id token_data st = (r, st') ->
     st' = st \/
     exists record s,
       Manager.normalize_expires self token_data = Ok record
       /\ Persistence.create_token (persistence self) token_id record
            (Manager.store st) = Ok s
       /\ r = Ok tt
       /\ st' = Manager.with_store s st)
  /\
  (forall e existing,
     Manager.normalize_expires self token_data = Raise e ->
     Persistence.get_token (persistence self) token_id (Manager.store st)
     = Ok existing ->
     Manager._create_token self token_id token_data st = (Ok tt, st))
  /\
  (forall e,
     Manager.normalize_expires self token_data = Raise e ->
     Persistence.get_token (persistence self) token_id (Manager.store st)
     = Raise TokenNotFound ->
     Manager._create_token self token_id token_data st = (Raise e, st)).
Proof.
  unfold Manager._create_token. unfold_manager.
  split; [|split].
  - intros r st' H.
    destruct (Manager.normalize_expires self token_data) as [record|e] eqn:N.
    + destruct (Persistence.create_token _ _ _ _) as [s|e] eqn:C.
      * inversion H; subst. right. exists record, s. repeat split; assumption.
      * left. destruct (Persistence.get_token _ _ _) as [|[]]; congruence.
    + left. destruct (Persistence.get_token _ _ _) as [|[]]; congruence.
  - intros e existing N G. now rewrite N, G.
  - intros e N G. now rewrite N, G.
Qed.

(** X10.  [validate_v3_token] never raises [Unauthorized]: what the driver
    or the revocation check raise as [Unauthorized] reaches the caller as
    [TokenNotFound].  An empty token id is not found before anything is
    looked at. *)
Theorem validate_v3_token_never_unauthorized
  (token_id : string) (st : Manager.state self) :
  (forall r st',
     Manager.validate_v3_token CONF self token_id st = (r, st') ->
     r <> Raise Unauthorized)
  /\ Manager.validate_v3_token CONF self "" st = (Raise TokenNotFound, st).
Proof.
  split; [|reflexivity].
  intros r st'. unfold Manager.validate_v3_token.
  destruct (token_id =? "")%string; [intros H; inversion H; discriminate|].
  unfold Manager.try_except.
  match goal with
  | |- context [match ?body with _ => _ end] =>
      destruct body as [[v|e] st0]
  end.
  - intros H; inversion H; discriminate.
  - destruct e; intros H; inversion H; discriminate.
Qed.

Lemma check_revocation_passed token st st' :
  Manager.check_revocation CONF self token st = (Ok tt, st') ->
  exists q,
    revocation_query CONF self token = Ok q
    /\ RevokeApi.check_token (revoke_api self) q (Manager.registry st) = Ok tt
    /\ st' = Manager.with_query q st.
Proof.
  destruct (revocation_query CONF self token) as [q|e] eqn:Q.
  - rewrite (check_revocation_query _ _ _ _ _ Q). intros H; inversion H. eauto.
  - rewrite (check_revocation_no_query _ _ _ _ _ Q). discriminate.
Qed.

Lemma is_valid_token_passed token st st' :
  Manager._is_valid_token CONF self token st = (Ok tt, st') ->
  exists expiry q,
    Manager.token_expiry self token = Ok expiry
    /\ (Manager.clock st < expiry)%Z
    /\ revocation_query CONF self token = Ok q
    /\ RevokeApi.check_token (revoke_api self) q (Manager.registry st) = Ok tt
    /\ st' = Manager.with_query q st.
Proof.
  unfold Manager._is_valid_token.
  destruct (Manager.token_expiry self token) as [expiry|]; [|discriminate].
  destruct (Z.ltb_spec (Manager.clock st) expiry); [|discriminate].
  intros Hc. apply check_revocation_passed in Hc as (q & ? & ? & ?).
  exists expiry, q. repeat split; assumption.
Qed.

Lemma passed_after_resolution (st st1 st' : Manager.state self) token :
  Manager.clock st1 = Manager.clock st ->
  Manager.registry st1 = Manager.registry st ->
  Manager.queries st1 = Manager.queries st ->
  Manager._is_valid_token CONF self token st1 = (Ok tt, st') ->
  vouched CONF st st' token.
Proof.
  intros Hc Hr Hq H.
  apply is_valid_token_passed in H as (expiry & q & E & L & Q & C & ->).
  exists expiry, q. rewrite <- Hc, <- Hr, <- Hq. repeat split; assumption.
Qed.

Lemma token_belongs_to_passed token tenant st st' :
  tenant <> "" ->
  Manager._token_belongs_to self token (Some tenant) st = (Ok tt, st') ->
  exists tenant_id,
    legacy_tenant_id token = Ok tenant_id /\ Py.eq_str tenant_id tenant = true.
Proof.
  intros Hne. apply String.eqb_neq in Hne.
  unfold Manager._token_belongs_to, legacy_tenant_id, rbind. rewrite Hne. cbn [negb].
  unfold_manager. intros H.
  destruct (Py.getitem token "access") as [access|]; [|discriminate].
  destruct (Py.getitem access "token") as [token_data|]; [|discriminate].
  destruct (Py.contains "tenant" token_data) as [[]|]; try discriminate.
  cbn [negb] in H.
  destruct (Py.getitem token_data "tenant") as [tenant_ref|]; [|discriminate].
  destruct (Py.getitem tenant_ref "id") as [tenant_id|]; [|discriminate].
  destruct (Py.eq_str tenant_id tenant) eqn:E; [|discriminate].
  eauto.
Qed.

(** X11.  No entry point accepts a token past its expiry or without asking
    the revocation API, cached or not: when [validate_token],
    [validate_v2_token] or [validate_v3_token] returns a payload, that
    payload has a readable expiry strictly after the current time, and one
    query built from it was submitted to the revocation API, which let it
    pass.  With a non-empty [belongs_to], the payload returned carries that
    tenant id. *)
Theorem accepted_token_is_vouched
  (token_id : string) (belongs_to : option string) (token : pyval)
  (st st' : Manager.state self) :
  (Manager.validate_token CONF self token_id belongs_to st = (Ok token, st') ->
   vouched CONF st st' token
   /\ forall tenant, belongs_to = Some tenant -> tenant <> "" ->
        exists tenant_id,
          legacy_tenant_id token = Ok tenant_id /\ Py.eq_str tenant_id tenant = true)
  /\
  (Manager.validate_v2_token CONF self token_id belongs_to st = (Ok token, st') ->
   vouched CONF st st' token
   /\ forall tenant, belongs_to = Some tenant -> tenant <> "" ->
        exists tenant_id,
          legacy_tenant_id token = Ok tenant_id /\ Py.eq_str tenant_id tenant = true)
  /\
  (Manager.validate_v3_token CONF self token_id st = (Ok token, st') ->
   vouched CONF st st' token).
Proof.
  split; [|split].
  - unfold Manager.validate_token. unfold Manager.bind at 1.
    destruct (Manager._validate_token self _ st) as [[t|e] st1] eqn:R; [|discriminate].
    apply validate_token_memo_state in R.
    unfold Manager.bind at 1.
    destruct (Manager._token_belongs_to self t belongs_to st1) as [[[]|e] st2] eqn:B;
      [|discriminate].
    pose proof (token_belongs_to_state _ _ _ _ _ _ B); subst st2.
    unfold Manager.bind, Manager.ret.
    destruct (Manager._is_valid_token CONF self t st1) as [[[]|e] st3] eqn:V;
      [|discriminate].
    intros H; inversion H; subst; clear H. split.
    + destruct R as [->|(v & _ & _ & ->)];
        refine (passed_after_resolution _ _ _ _ _ _ _ V); reflexivity.
    + intros tenant -> Hne. eapply token_belongs_to_passed; eauto.
  - unfold Manager.validate_v2_token. unfold Manager.bind at 1.
    match goal with
    | |- context [match ?body st with _ => _ end] =>
        destruct (body st) as [[t|e] st1] eqn:R
    end; [|discriminate].
    assert (F : Manager.clock st1 = Manager.clock st
                /\ Manager.registry st1 = Manager.registry st
                /\ Manager.queries st1 = Manager.queries st).
    { unfold Manager._needs_persistence, Manager.bind, Manager.read_store,
        Manager.lift in R.
      destruct (Provider.needs_persistence (driver self)).
      - destruct (Persistence.get_token _ _ _) as [token_ref|]; [|discriminate].
        apply validate_v2_memo_state in R as [->|(v & _ & _ & ->)]; repeat split.
      - destruct (Manager.validate_non_persistent_token self token_id st)
          as [[v3|] st0] eqn:R'; [|discriminate].
        apply validate_non_persistent_token_state in R'.
        destruct (v3_to_v2_token self v3 token_id); inversion R; subst.
        destruct R' as [->|(v & _ & _ & ->)]; repeat split. }
    destruct F as (Fc & Fr & Fq). clear R.
    unfold Manager.bind at 1.
    destruct (Manager._token_belongs_to self t belongs_to st1) as [[[]|e] st2] eqn:B;
      [|discriminate].
    pose proof (token_belongs_to_state _ _ _ _ _ _ B); subst st2.
    unfold Manager.bind, Manager.ret.
    destruct (Manager._is_valid_token CONF self t st1) as [[[]|e] st3] eqn:V;
      [|discriminate].
    intros H; inversion H; subst; clear H. split.
    + exact (passed_after_resolution _ _ _ _ Fc Fr Fq V).
    + intros tenant -> Hne. eapply token_belongs_to_passed; eauto.
  - unfold Manager.validate_v3_token.
    destruct (token_id =? "")%string; [discriminate|].
    unfold Manager.try_except.
    match goal with
    | |- context [match ?body st with _ => _ end] =>
        destruct (body st) as [[t|e] st0] eqn:B
    end; [|destruct e; discriminate].
    intros H; inversion H; subst; clear H.
    unfold Manager.bind at 1 in B.
    match type of B with
    | context [match ?m with _ => _ end] =>
        destruct m as [[t|e] st1] eqn:R
    end; [|discriminate].
    assert (F : Manager.clock st1 = Manager.clock st
                /\ Manager.registry st1 = Manager.registry st
                /\ Manager.queries st1 = Manager.queries st).
    { unfold Manager._needs_persistence, Manager.bind, Manager.read_store in R.
      destruct (Provider.needs_persistence (driver self)); cbn [negb] in R.
      - destruct (Persistence.get_token _ _ _) as [token_ref|]; [|discriminate].
        apply validate_v3_memo_state in R as [->|(v & _ & _ & ->)]; repeat split.
      - apply validate_non_persistent_token_state in R as [->|(v & _ & _ & ->)];
          repeat split. }
    destruct F as (Fc & Fr & Fq). clear R.
    unfold Manager.bind, Manager.ret in B.
    destruct (Manager._is_valid_token CONF self t st1) as [[[]|e] st3] eqn:V;
      [|discriminate].
    inversion B; subst. exact (passed_after_resolution _ _ _ _ Fc Fr Fq V).
Qed.

Lemma create_token_state token_id token_data st r st' :
  Manager._create_token self token_id token_data st = (r, st') ->
  st' = st \/ exists s, r = Ok tt /\ st' = Manager.with_store s st.
Proof.
  unfold Manager._create_token. unfold_manager. intros H.
  destruct (Manager.normalize_expires self token_data) as [record|e].
  - destruct (Persistence.create_token _ _ _ _) as [s|e].
    + inversion H; subst. right. eauto.
    + left. destruct (Persistence.get_token _ _ _) as [|[]]; congruence.
  - left. destruct (Persistence.get_token _ _ _) as [|[]]; congruence.
Qed.

(** The entries that cache-on-issue files for a current-version token. *)
Lemma issue_v3_token_outcome req token_id token_data st st' :
  Manager.issue_v3_token CONF self req st = (Ok (token_id, token_data), st') ->
  Provider.issue_v3_token (driver self) req = Ok (token_id, token_data)
  /\ exists st1,
       (st1 = st \/
        Provider.needs_persistence (driver self) = true
        /\ exists s, st1 = Manager.with_store s st)
       /\ (cache_on_issue CONF = false -> st' = st1)
       /\ (cache_on_issue CONF = true ->
           let seeded :=
             Region.set F_validate_non_persistent_token (PStr token_id) token_data
               (Region.set F_validate_token (PStr token_id) token_data
                  (Region.set F_validate_v3_token (PStr token_id) token_data
                     (Manager.region st1))) in
           st' = Manager.with_region
                   match v3_to_v2_token self token_data token_id with
                   | Ok v2_token_data =>
                       Region.set F_validate_v2_token (PStr token_id) v2_token_data
                         seeded
                   | Raise _ => seeded
                   end st1).
Proof.
  unfold Manager.issue_v3_token, Manager._needs_persistence.
  unfold Manager.bind, Manager.lift, Manager.ret, Manager.update_region,
    Manager.try_except, Manager.raise.
  destruct (Provider.issue_v3_token (driver self) req) as [[tid td]|];
    [|discriminate].
  cbn [fst snd]. intros H.
  repeat first [progress simplify_eq | progress cbv beta in * | split_hyp].
  all: split; [reflexivity|].
  all: try match goal with
           | C : Manager._create_token _ _ _ _ = _ |- _ =>
               apply create_token_state in C as [->|(s0 & _ & ->)]
           end.
  all: first
         [ solve [ eexists; split; [left; reflexivity|];
                   split; intros Hcache; try congruence; cbv zeta;
                   repeat match goal with
                          | E : v3_to_v2_token _ _ _ = _ |- _ => rewrite E; clear E
                          end;
                   reflexivity ]
         | solve [ eexists; split; [right; split; [first [assumption | reflexivity] | eexists; reflexivity]|];
                   split; intros Hcache; try congruence; cbv zeta;
                   repeat match goal with
                          | E : v3_to_v2_token _ _ _ = _ |- _ => rewrite E; clear E
                          end;
                   reflexivity ] ].
Qed.

(** X12.  [issue_v3_token] returns the id and the payload exactly as the
    driver issued them.  Whatever the outcome, it never touches the clock or
    the revocation events and asks nothing of the revocation API; it leaves
    the store alone when the driver needs no persistence, and the region
    alone when cache-on-issue is off.  A payload without a [token] section
    makes it fail before anything is written or cached. *)
Theorem issue_v3_token_returns_what_the_driver_issued
  (req : issue_v3_request) (st st' : Manager.state self)
  (r : result (string * pyval)) :
  Manager.issue_v3_token CONF self req st = (r, st') ->
  Manager.clock st' = Manager.clock st
  /\ Manager.registry st' = Manager.registry st
  /\ Manager.queries st' = Manager.queries st
  /\ (Provider.needs_persistence (driver self) = false ->
      Manager.store st' = Manager.store st)
  /\ (cache_on_issue CONF = false -> Manager.region st' = Manager.region st)
  /\ (forall token_id token_data,
        r = Ok (token_id, token_data) ->
        Provider.issue_v3_token (driver self) req = Ok (token_id, token_data))
  /\ (forall token_id token_data e,
        Provider.issue_v3_token (driver self) req = Ok (token_id, token_data) ->
        Py.getitem token_data "token" = Raise e ->
        r = Raise e /\ st' = st).
Proof.
  unfold Manager.issue_v3_token, Manager._needs_persistence.
  unfold Manager.bind, Manager.lift, Manager.ret, Manager.update_region,
    Manager.try_except, Manager.raise.
  destruct (Provider.issue_v3_token (driver self) req) as [[tid td]|].
  2: { intros H; inversion H; subst. repeat split; intros; discriminate. }
  cbn [fst snd]. intros H.
  repeat first [progress simplify_eq | progress cbv beta in * | split_hyp].
  all: try match goal with
           | C : Manager._create_token _ _ _ _ = _ |- _ =>
               apply create_token_state in C as [->|(s0 & _ & ->)]
           end.
  all: repeat match goal with |- _ /\ _ => split end.
  all: try reflexivity.
  all: intros; simplify_eq; try congruence; try reflexivity.
  all: split; [congruence | reflexivity].
Qed.

(** X13.  With cache-on-issue, a token can be validated straight from the
    region after it was issued: the stored payload is returned, after the
    expiry and revocation checks, by [validate_token] when the id is its
    own unique form, and by [validate_v3_token] when the driver needs no
    persistence. *)
Theorem issued_token_validates_from_the_region
  (req : issue_v3_request) (token_id : string) (token_data : pyval)
  (st st1 : Manager.state self) (expiry : Z) (q : pyval) :
  cache_on_issue CONF = true ->
  Manager.issue_v3_token CONF self req st = (Ok (token_id, token_data), st1) ->
  Manager.token_expiry self token_data = Ok expiry ->
  (Manager.clock st1 < expiry)%Z ->
  revocation_query CONF self token_data = Ok q ->
  RevokeApi.check_token (revoke_api self) q (Manager.registry st1) = Ok tt ->
  (generate_unique_id self token_id = token_id ->
   Manager.validate_token CONF self token_id None st1
   = (Ok token_data, Manager.with_query q st1))
  /\
  (Provider.needs_persistence (driver self) = false -> token_id <> "" ->
   Manager.validate_v3_token CONF self token_id st1
   = (Ok token_data, Manager.with_query q st1)).
Proof.
  intros Hc Hissue E L Q C.
  apply issue_v3_token_outcome in Hissue as (_ & st0 & _ & _ & Hregion).
  specialize (Hregion Hc). cbv zeta in Hregion.
  assert (Hit : Region.get F_validate_token (PStr token_id) (Manager.region st1)
                = Some token_data
                /\ Region.get F_validate_non_persistent_token (PStr token_id)
                     (Manager.region st1) = Some token_data).
  { rewrite Hregion. cbn [Manager.region Manager.with_region].
    destruct (v3_to_v2_token self token_data token_id);
      rewrite ?(region_get_set_other _ F_validate_v2_token) by reflexivity;
      rewrite ?region_get_set_same;
      rewrite ?(region_get_set_other _ F_validate_non_persistent_token) by reflexivity;
      rewrite ?region_get_set_same; split; reflexivity. }
  destruct Hit as (Ht & Hn).
  assert (V : Manager._is_valid_token CONF self token_data st1
              = (Ok tt, Manager.with_query q st1)).
  { rewrite (is_valid_token_unexpired _ _ _ _ _ E L).
    now rewrite (check_revocation_query _ _ _ _ _ Q), C. }
  split.
  - intros Hu. unfold Manager.validate_token. rewrite Hu.
    unfold Manager.bind at 1. rewrite (validate_token_memo_hit _ _ _ _ Ht).
    unfold Manager.bind, Manager.ret. rewrite token_belongs_to_none, V. reflexivity.
  - intros Hp Hne. apply String.eqb_neq in Hne.
    unfold Manager.validate_v3_token, Manager._needs_persistence. rewrite Hne, Hp.
    unfold Manager.validate_non_persistent_token, Manager.MEMOIZE_TOKENS.
    unfold_manager. cbn [negb]. rewrite Hn, V. reflexivity.
Qed.

Section Issue_v2.

Variable driver_issue_v2_token : pyval -> pyval -> pyval -> result (string * pyval).


End Issue_v2.

Lemma memo_fn_eqb_eq f g : memo_fn_eqb f g = true -> f = g.
Proof. destruct f, g; cbn; congruence. Qed.

Lemma memo_fn_eqb_refl f : memo_fn_eqb f f = true.
Proof. destruct f; reflexivity. Qed.

Lemma eqb_text_key k (s : string) : Py.eqb k (PStr s) = true -> k = PStr s.
Proof.
  destruct k; cbn; try discriminate. intros H. apply String.eqb_eq in H. now subst.
Qed.

Lemma eqb_key_text k (s : string) : Py.eqb (PStr s) k = true -> k = PStr s.
Proof.
  destruct k; cbn; try discriminate. intros H. apply String.eqb_eq in H. now subst.
Qed.

(** What a lookup finds after the entry of [g] under a text was dropped. *)
Lemma region_get_invalidate_key f g k (s : string) r :
  Region.get f k (Region.invalidate_key g (PStr s) r)
  = if memo_fn_eqb f g && Py.eqb k (PStr s) then None else Region.get f k r.
Proof.
  induction r as [|[[h key] v] r IH]; cbn [Region.invalidate_key List.filter Region.get].
  - now destruct (_ && _).
  - unfold Region.invalidate_key in IH.
    destruct (Region.same_key g (PStr s) (h, key, v)) eqn:D; cbn [negb].
    + rewrite IH. unfold Region.same_key in *. cbn [fst snd] in *.
      apply andb_prop in D as (Dg & Dk).
      apply memo_fn_eqb_eq in Dg. apply eqb_key_text in Dk. subst h key.
      now destruct (memo_fn_eqb f g && Py.eqb k (PStr s)).
    + cbn [Region.get]. rewrite IH.
      destruct (Region.same_key f k (h, key, v)) eqn:S; [|reflexivity].
      destruct (memo_fn_eqb f g && Py.eqb k (PStr s)) eqn:T; [|reflexivity].
      exfalso. unfold Region.same_key in *. cbn [fst snd] in *.
      apply andb_prop in S as (Sf & Sk). apply andb_prop in T as (Tf & Tk).
      apply memo_fn_eqb_eq in Sf, Tf. apply eqb_text_key in Tk. subst.
      rewrite memo_fn_eqb_refl in D. cbn [andb] in D.
      assert (key = PStr s).
      { clear D. destruct key; cbn in Sk; try discriminate.
        apply String.eqb_eq in Sk. now subst. }
      subst key. cbn [Py.eqb] in D. now rewrite String.eqb_refl in D.
Qed.

(** X15.  [invalidate_individual_token_cache] always returns; afterwards
    none of the four memoized functions has an entry under the token id,
    every entry under another key answers as before, and nothing but the
    region has changed. *)
Theorem invalidate_individual_token_cache_drops_the_id
  (token_id : string) (st : Manager.state self) :
  exists st',
    Manager.invalidate_individual_token_cache self token_id st = (Ok tt, st')
    /\ same_but_region st st'
    /\ (forall f, Region.get f (PStr token_id) (Manager.region st') = None)
    /\ (forall f k, k <> PStr token_id ->
          Region.get f k (Manager.region st') = Region.get f k (Manager.region st)).
Proof.
  eexists. split; [reflexivity|]. split; [repeat split|]. split.
  - intros f. cbn [Manager.region Manager.with_region].
    rewrite !region_get_invalidate_key. cbn [Py.eqb].
    rewrite String.eqb_refl, !andb_true_r. now destruct f.
  - intros f k Hk. cbn [Manager.region Manager.with_region].
    rewrite !region_get_invalidate_key.
    assert (E : Py.eqb k (PStr token_id) = false).
    { destruct (Py.eqb k (PStr token_id)) eqn:E; [|reflexivity].
      apply eqb_text_key in E. contradiction. }
    rewrite E, !andb_false_r. reflexivity.
Qed.


End More_properties.

Lemma malformed_payload_is_not_found_witness :
  Manager._is_valid_token Sample.conf Sample.persistent
    (PDict [("user", PStr "alice")]) (Sample.fresh Sample.midnight)
  = (Raise TokenNotFound, Sample.fresh Sample.midnight).
Proof.
  apply (malformed_payload_is_not_found Sample.conf Sample.persistent).
  right; left. exists [("user", PStr "alice")]. repeat split.
Defined.

Lemma token_belongs_to_decides_witness :
  Manager._token_belongs_to Sample.persistent
    (Sample.legacy_payload "2016-01-01T00:00:00Z" "projA") (Some "projA")
    (Sample.fresh Sample.midnight)
  = (Ok tt, Sample.fresh Sample.midnight).
Proof.
  refine (proj1 (proj2 (proj2 (token_belongs_to_decides Sample.persistent
            (Sample.legacy_payload "2016-01-01T00:00:00Z" "projA")
            (Sample.fresh Sample.midnight))))
            "projA" (PStr "projA") _ _).
  - discriminate.
  - reflexivity.
Defined.

Lemma accepted_token_is_vouched_witness :
  vouched Sample.conf (Sample.fresh Sample.before_midnight)
    (Manager.with_query (PStr "audit-u1")
       (Manager.with_region
          [(F_validate_token, PStr "u1",
            Sample.legacy_payload "2016-01-01T00:00:00Z" "projA")]
          (Sample.fresh Sample.before_midnight)))
    (Sample.legacy_payload "2016-01-01T00:00:00Z" "projA").
Proof.
  refine (proj1 (proj1 (accepted_token_is_vouched Sample.conf Sample.persistent
            "u1" (Some "projA")
            (Sample.legacy_payload "2016-01-01T00:00:00Z" "projA")
            (Sample.fresh Sample.before_midnight) _) _)).
  vm_compute. reflexivity.
Defined.

Lemma issue_v3_token_returns_what_the_driver_issued_witness :
  Provider.issue_v3_token (driver Sample.persistent) Sample.trust_request
  = Ok ("gAAAAAB-issued",
        match Demo.issue_v3_token Sample.trust_request with
        | Ok p => snd p
        | Raise _ => PNone
        end).
Proof.
  set (st := Sample.state_of Sample.persistent Sample.midnight [] []).
  refine (proj1 (proj2 (proj2 (proj2 (proj2 (proj2
            (issue_v3_token_returns_what_the_driver_issued Sample.conf
               Sample.persistent Sample.trust_request st
               (snd (Manager.issue_v3_token Sample.conf Sample.persistent
                       Sample.trust_request st))
               (fst (Manager.issue_v3_token Sample.conf Sample.persistent
                       Sample.trust_request st)) _)))))) _ _ _).
  - vm_compute. reflexivity.
  - vm_compute. reflexivity.
Defined.

Lemma issued_token_validates_from_the_region_witness :
  let st := Sample.state_of Sample.persistent Sample.before_midnight [] [] in
  let out := Manager.issue_v3_token Sample.conf Sample.persistent
               Sample.trust_request st in
  Manager.validate_token Sample.conf Sample.persistent "gAAAAAB-issued" None (snd out)
  = (Ok (match Demo.issue_v3_token Sample.trust_request with
         | Ok p => snd p
         | Raise _ => PNone
         end),
     Manager.with_query (PStr "audit-issued") (snd out)).
Proof.
  intros st out.
  refine (proj1 (issued_token_validates_from_the_region Sample.conf Sample.persistent
            Sample.trust_request "gAAAAAB-issued" _ st (snd out) Sample.midnight
            (PStr "audit-issued") _ _ _ _ _ _) _).
  - reflexivity.
  - vm_compute. reflexivity.
  - vm_compute. reflexivity.
  - vm_compute. reflexivity.
  - vm_compute. reflexivity.
  - vm_compute. reflexivity.
  - reflexivity.
Defined.


